(** * trimesh/viewer/windowed.py: the pyglet scene viewer

    A shallow embedding of [windowed.py] and the properties of its view
    transform, geometry fingerprint, viewer state and draw loop.

    Conventions of the embedding:
    - Python floats are idealised as rationals ([Q]); equality of computed
      numbers is [Qeq].  The one irrational operation of the file, the
      square root in [init_gl], is taken in the reals.
    - A numpy array of fixed shape is a record: [(3,)] is [vec3], [(4,4)] is
      [mat4] (four rows), [(2,3)] bounds are a pair of [vec3].
    - An exception is a value of [exn]; code that can raise runs in the
      monad [M], which keeps the mutations done before the raise, as
      Python does.
    - Python dicts owned by the viewer are [gmap]s keyed by name; the
      scene's geometry dict is an association list, because the
      constructor walks it in order. *)

From Stdlib Require Import ZArith QArith Qabs Qminmax Qring Qfield Reals Lra Lia List String.
From Stdlib Require DecimalString.
From stdpp Require Import base gmap strings.
Import ListNotations.

#[local] Set Warnings "-clear-no-such-hyp".

(** ** Exceptions and the state-and-exception monad *)

Inductive exn : Type :=
| AttributeError (attr : string)
| KeyError (key : string)
| UnboundLocalError (var : string)
| ValueError
| ZeroDivisionError
| LinAlgError
| NoSuchConfigException
| ExternalError (what : string)
| Diverges.

Inductive outcome (A : Type) : Type :=
| Ok (a : A)
| Raise (e : exn).
Arguments Ok {A} a.
Arguments Raise {A} e.

Definition M (S A : Type) : Type := S -> outcome A * S.

Definition ret {S A} (a : A) : M S A := fun s => (Ok a, s).

Definition bind {S A B} (m : M S A) (k : A -> M S B) : M S B :=
  fun s => match m s with
           | (Ok a, s') => k a s'
           | (Raise e, s') => (Raise e, s')
           end.

Definition raise {S A} (e : exn) : M S A := fun s => (Raise e, s).

Definition gets {S A} (f : S -> A) : M S A := fun s => (Ok (f s), s).

Definition modify {S} (f : S -> S) : M S unit := fun s => (Ok tt, f s).

(** An external call that may raise, lifted into the monad. *)
Definition lift {S A} (o : outcome A) : M S A := fun s => (o, s).

(** [try: body / except BaseException: pass]: whatever the body raises is
    dropped; the state it reached is kept. *)
Definition try_pass {S} (body : M S unit) : M S unit :=
  fun s => (Ok tt, snd (body s)).

(** [for x in xs: body x] *)
Fixpoint for_each {S A} (xs : list A) (body : A -> M S unit) : M S unit :=
  match xs with
  | [] => ret tt
  | x :: rest => bind (body x) (fun _ => for_each rest body)
  end.

Declare Scope py_scope.
Delimit Scope py_scope with py.
Notation "'do' x <- m ; k" := (bind m (fun x => k))
  (at level 10, x name, m at level 100, k at level 200) : py_scope.
Notation "'run' m ; k" := (bind m (fun _ => k))
  (at level 10, m at level 100, k at level 200) : py_scope.

(** ** numpy arrays of the shapes the viewer uses *)

Section LinearAlgebra.
Local Open Scope Q_scope.

Record vec3 : Type := Vec3 { vx : Q; vy : Q; vz : Q }.
Record vec4 : Type := Vec4 { e0 : Q; e1 : Q; e2 : Q; e3 : Q }.
Record mat3 : Type := Mat3 { b0 : vec3; b1 : vec3; b2 : vec3 }.
Record mat4 : Type := Mat4 { row0 : vec4; row1 : vec4; row2 : vec4; row3 : vec4 }.

Definition vec3_equiv (a b : vec3) : Prop :=
  vx a == vx b /\ vy a == vy b /\ vz a == vz b.

Definition vec4_equiv (a b : vec4) : Prop :=
  e0 a == e0 b /\ e1 a == e1 b /\ e2 a == e2 b /\ e3 a == e3 b.

Definition mat3_equiv (a b : mat3) : Prop :=
  vec3_equiv (b0 a) (b0 b) /\ vec3_equiv (b1 a) (b1 b) /\ vec3_equiv (b2 a) (b2 b).

Definition mat4_equiv (a b : mat4) : Prop :=
  vec4_equiv (row0 a) (row0 b) /\ vec4_equiv (row1 a) (row1 b) /\
  vec4_equiv (row2 a) (row2 b) /\ vec4_equiv (row3 a) (row3 b).

Definition zeros3 : vec3 := Vec3 0 0 0.

Definition eye3 : mat3 := Mat3 (Vec3 1 0 0) (Vec3 0 1 0) (Vec3 0 0 1).

Definition eye4 : mat4 :=
  Mat4 (Vec4 1 0 0 0) (Vec4 0 1 0 0) (Vec4 0 0 1 0) (Vec4 0 0 0 1).

(** [a + b], [a - b], [a * s] on [(3,)] arrays *)
Definition vec3_add (a b : vec3) : vec3 :=
  Vec3 (vx a + vx b) (vy a + vy b) (vz a + vz b).

Definition vec3_sub (a b : vec3) : vec3 :=
  Vec3 (vx a - vx b) (vy a - vy b) (vz a - vz b).

Definition vec3_scale (a : vec3) (s : Q) : vec3 :=
  Vec3 (vx a * s) (vy a * s) (vz a * s).

Definition dot3 (a b : vec3) : Q := vx a * vx b + vy a * vy b + vz a * vz b.

Definition dot4 (a b : vec4) : Q :=
  e0 a * e0 b + e1 a * e1 b + e2 a * e2 b + e3 a * e3 b.

(** [np.dot] of a [(3,3)] array and a [(3,)] array *)
Definition mat3_dot (m : mat3) (v : vec3) : vec3 :=
  Vec3 (dot3 (b0 m) v) (dot3 (b1 m) v) (dot3 (b2 m) v).

(** [m[:3, :3]] *)
Definition block33 (m : mat4) : mat3 :=
  let cut r := Vec3 (e0 r) (e1 r) (e2 r) in
  Mat3 (cut (row0 m)) (cut (row1 m)) (cut (row2 m)).

(** [m[:3, 3]] read *)
Definition column3 (m : mat4) : vec3 :=
  Vec3 (e3 (row0 m)) (e3 (row1 m)) (e3 (row2 m)).

(** [m[:3, 3] = v]: the first three rows of the last column are
    overwritten, everything else is left alone *)
Definition set_column3 (m : mat4) (v : vec3) : mat4 :=
  let put r x := Vec4 (e0 r) (e1 r) (e2 r) x in
  Mat4 (put (row0 m) (vx v)) (put (row1 m) (vy v)) (put (row2 m) (vz v)) (row3 m).

(** column [j] of a [(4,4)] array *)
Definition col0 (m : mat4) : vec4 := Vec4 (e0 (row0 m)) (e0 (row1 m)) (e0 (row2 m)) (e0 (row3 m)).
Definition col1 (m : mat4) : vec4 := Vec4 (e1 (row0 m)) (e1 (row1 m)) (e1 (row2 m)) (e1 (row3 m)).
Definition col2 (m : mat4) : vec4 := Vec4 (e2 (row0 m)) (e2 (row1 m)) (e2 (row2 m)) (e2 (row3 m)).
Definition col3 (m : mat4) : vec4 := Vec4 (e3 (row0 m)) (e3 (row1 m)) (e3 (row2 m)) (e3 (row3 m)).

(** [np.dot] of two [(4,4)] arrays *)
Definition mat4_dot (a b : mat4) : mat4 :=
  let line r := Vec4 (dot4 r (col0 b)) (dot4 r (col1 b)) (dot4 r (col2 b)) (dot4 r (col3 b)) in
  Mat4 (line (row0 a)) (line (row1 a)) (line (row2 a)) (line (row3 a)).

(** the homogeneous matrix of a pure translation *)
Definition translation_matrix (t : vec3) : mat4 :=
  set_column3 eye4 t.

Definition vec4_scale (a : vec4) (s : Q) : vec4 :=
  Vec4 (e0 a * s) (e1 a * s) (e2 a * s) (e3 a * s).

(** Determinant and adjugate of a [(4,4)] array, by Laplace expansion
    along the first two rows ([s]) and the last two rows ([c]). *)
Record minors : Type := Minors {
  s0 : Q; s1 : Q; s2 : Q; s3 : Q; s4 : Q; s5 : Q;
  c0 : Q; c1 : Q; c2 : Q; c3 : Q; c4 : Q; c5 : Q }.

Definition minors_of (m : mat4) : minors :=
  let '(Mat4 (Vec4 a00 a01 a02 a03) (Vec4 a10 a11 a12 a13)
             (Vec4 a20 a21 a22 a23) (Vec4 a30 a31 a32 a33)) := m in
  {| s0 := a00 * a11 - a10 * a01; s1 := a00 * a12 - a10 * a02;
     s2 := a00 * a13 - a10 * a03; s3 := a01 * a12 - a11 * a02;
     s4 := a01 * a13 - a11 * a03; s5 := a02 * a13 - a12 * a03;
     c0 := a20 * a31 - a30 * a21; c1 := a20 * a32 - a30 * a22;
     c2 := a20 * a33 - a30 * a23; c3 := a21 * a32 - a31 * a22;
     c4 := a21 * a33 - a31 * a23; c5 := a22 * a33 - a32 * a23 |}.

Definition det4 (m : mat4) : Q :=
  let k := minors_of m in
  s0 k * c5 k - s1 k * c4 k + s2 k * c3 k + s3 k * c2 k - s4 k * c1 k + s5 k * c0 k.

Definition adjugate (m : mat4) : mat4 :=
  let k := minors_of m in
  let '(Mat4 (Vec4 a00 a01 a02 a03) (Vec4 a10 a11 a12 a13)
             (Vec4 a20 a21 a22 a23) (Vec4 a30 a31 a32 a33)) := m in
  Mat4
    (Vec4 (a11 * c5 k - a12 * c4 k + a13 * c3 k)
          (- a01 * c5 k + a02 * c4 k - a03 * c3 k)
          (a31 * s5 k - a32 * s4 k + a33 * s3 k)
          (- a21 * s5 k + a22 * s4 k - a23 * s3 k))
    (Vec4 (- a10 * c5 k + a12 * c2 k - a13 * c1 k)
          (a00 * c5 k - a02 * c2 k + a03 * c1 k)
          (- a30 * s5 k + a32 * s2 k - a33 * s1 k)
          (a20 * s5 k - a22 * s2 k + a23 * s1 k))
    (Vec4 (a10 * c4 k - a11 * c2 k + a13 * c0 k)
          (- a00 * c4 k + a01 * c2 k - a03 * c0 k)
          (a30 * s4 k - a31 * s2 k + a33 * s0 k)
          (- a20 * s4 k + a21 * s2 k - a23 * s0 k))
    (Vec4 (- a10 * c3 k + a11 * c1 k - a12 * c0 k)
          (a00 * c3 k - a01 * c1 k + a02 * c0 k)
          (- a30 * s3 k + a31 * s1 k - a32 * s0 k)
          (a20 * s3 k - a21 * s1 k + a22 * s0 k)).

(** [np.linalg.inv]: raises [LinAlgError] on a singular matrix, otherwise
    the exact inverse *)
Definition np_linalg_inv (m : mat4) : outcome mat4 :=
  if Qeq_bool (det4 m) 0 then Raise LinAlgError
  else
    let d := / det4 m in
    let a := adjugate m in
    Ok (Mat4 (vec4_scale (row0 a) d) (vec4_scale (row1 a) d)
             (vec4_scale (row2 a) d) (vec4_scale (row3 a) d)).

End LinearAlgebra.

Definition py_str (z : Z) : string :=
  DecimalString.NilZero.string_of_int (Z.to_int z).

(** ** Collaborators outside this file *)

(** Modelled from the spec: the rotation widget ([Arcball] of the
    transformations module, which is not part of this file) is "an
    arcball-style state holding the current orientation and the
    window-space pivot/radius"; [matrix()] yields its current 4x4 rotation
    matrix and [place] sets pivot and radius. *)
Record Arcball : Type := {
  orientation : mat4;
  pivot : Q * Q;
  radius : Q }.

Definition Arcball_matrix (b : Arcball) : mat4 := orientation b.

Definition Arcball_place (b : Arcball) (c : Q * Q) (r : Q) : Arcball :=
  {| orientation := orientation b; pivot := c; radius := r |}.

Inductive GLenum : Type :=
| GL_FRONT_AND_BACK | GL_FRONT | GL_LINE | GL_FILL
| GL_CULL_FACE | GL_DEPTH_TEST | GL_LEQUAL
| GL_AMBIENT_AND_DIFFUSE | GL_COLOR_MATERIAL | GL_SMOOTH
| GL_AMBIENT | GL_DIFFUSE | GL_SPECULAR | GL_SHININESS
| GL_BLEND | GL_SRC_ALPHA | GL_ONE_MINUS_SRC_ALPHA
| GL_LINE_SMOOTH | GL_LINE_SMOOTH_HINT | GL_NICEST
| GL_LIGHTING | GL_LIGHT (i : nat)
| GL_TRIANGLES | GL_LINES | GL_POINTS
| GL_COLOR_BUFFER_BIT | GL_DEPTH_BUFFER_BIT
| GL_TEXTURE_2D.

(** Modelled from the spec: a geometry "optionally carrying an
    appearance/visual object with a material, a transparency flag, and a
    checksum"; an attribute the object does not have ([hasattr] false) is
    [None]. [faces] is [len(geometry.faces)]. *)
Record Material : Type := { image : option string }.

Record Visual : Type := {
  crc : option Z;
  material : option Material;
  transparency : option bool }.

Record Geometry : Type := {
  md5 : option string;
  tostring : option string;
  faces : Z;
  visual : option Visual }.

Record Texture : Type := { target : GLenum; id : nat }.

(** the positional arguments [convert_to_vertexlist] hands to
    [batch.add_indexed]: [args[1]] is the draw mode *)
Record vertexlist_args : Type := {
  args_count : nat;
  args_mode : GLenum;
  args_indices : list nat;
  args_data : list (string * list Q) }.

Record Light : Type := { light_name : string; intensity : Q }.

Record Camera : Type := {
  camera_name : string;
  fov : Q * Q;
  resolution : Z * Z }.

(** Modelled from the spec: the scene graph maps "node name -> (4x4
    transform from that node to world, associated geometry name or
    absent)", exposes "the ordered set of node names that reference
    geometry" and "a lookup from one frame to another"; [to_world] is that
    lookup with [frame_to='world']. *)
Record SceneGraph : Type := {
  nodes_geometry : list string;
  nodes : gmap string (mat4 * option string);
  to_world : gmap string mat4 }.

Record Scene : Type := {
  geometry : list (string * Geometry);
  graph : SceneGraph;
  camera : Camera;
  lights : list Light;
  bounds : vec3 * vec3;
  scene_scale : Q;
  centroid : vec3 }.

(** [scene.geometry[name]] *)
Fixpoint geometry_lookup (items : list (string * Geometry)) (name : string)
  : option Geometry :=
  match items with
  | [] => None
  | (k, g) :: rest => if String.eqb k name then Some g else geometry_lookup rest name
  end.

Record Config : Type := {
  sample_buffers : option nat;
  samples : option nat;
  depth_size : option nat;
  double_buffer : bool }.

(** the pyglet window underneath the viewer, once [super().__init__] ran *)
Record Window : Type := {
  config : Config;
  visible : option bool;
  resizable : bool;
  width : Z;
  height : Z;
  caption : option string;
  is_fullscreen : bool }.

(** Python truth value of the [visible] argument: pyglet shows the window
    on [if visible:] *)
Definition truthy (o : option bool) : bool :=
  match o with Some b => b | None => false end.

Definition shown (w : Window) : bool := truthy (visible w).

(** What the viewer does to the world outside its own fields, oldest
    call first.  [vertex_list_draw] carries the scene node it is issued
    for ([None] for the axis marker); [requeue] is the [deque.append] of
    the draw loop. *)
Inductive call : Type :=
| glClearColor (r g b a : Q)
| glDepthRange (near far : R)
| glClearDepth (d : Q)
| glEnable (cap : GLenum)
| glDisable (cap : GLenum)
| glDepthFunc (f : GLenum)
| glColorMaterial (face mode : GLenum)
| glShadeModel (mode : GLenum)
| glMaterialfv (face pname : GLenum) (params : list Q)
| glMaterialf (face pname : GLenum) (param : Q)
| glBlendFunc (sfactor dfactor : GLenum)
| glHint (hint mode : GLenum)
| glLineWidth (w : Q)
| glPointSize (s : Q)
| glLightfv (light pname : GLenum) (params : list Q)
| glPolygonMode (face mode : GLenum)
| glClear (mask : list GLenum)
| glLoadIdentity
| glMultMatrixf (m : mat4)
| glPushMatrix
| glPopMatrix
| glBindTexture (tgt : GLenum) (tex : nat)
| vertex_list_draw (list_id : nat) (mode : GLenum) (node : option string)
| vertex_list_delete (list_id : nat)
| requeue (node : string)
| window_set_fullscreen (b : bool)
| window_set_size (w h : Z)
| log_error (msg : string)
| convert_to_vertexlist_call (g : Geometry) (smooth : option bool)
| material_to_texture_call (m : Material)
| axis_call (origin_size : Q)
| clock_schedule_interval (period : Q)
| clock_tick | window_switch_to | window_dispatch_events | window_flip
| window_close
| app_run.

(** The collaborators the file imports, as an interface. *)
Class Externals : Type := {
  (** [hash(bytes)] of the running interpreter *)
  hash_bytes : string -> Z;
  (** [Arcball()] *)
  Arcball_new : Arcball;
  (** [rendering.convert_to_vertexlist(geometry, smooth=...)] *)
  convert_to_vertexlist : Geometry -> option bool -> outcome vertexlist_args;
  (** [rendering.mesh_to_vertexlist(creation.axis(origin_size=...))] *)
  axis_vertexlist : Q -> outcome vertexlist_args;
  (** [rendering.material_to_texture(material)] *)
  material_to_texture : Material -> outcome (option Texture);
  (** [rendering.light_to_gl(light, transform, lightN)] *)
  light_to_gl : Light -> mat4 -> GLenum -> list (GLenum * GLenum * list Q);
  (** [visual.to_rgba(colour)] *)
  to_rgba : list Z -> outcome (Z * Z * Z * Z);
  (** whether the platform can satisfy a context configuration *)
  config_available : Config -> bool;
  (** the PNG the buffer manager writes for the current colour buffer *)
  color_buffer_png : list call -> string }.

(** ** The viewer's own data *)

(** [view['axis']] is [False], ['world'] or ['all'] *)
Inductive axis_mode : Type := axis_off | axis_world | axis_all.

(** the dict [self.view] *)
Record View : Type := {
  cull : bool;
  axis : axis_mode;
  fullscreen : bool;
  wireframe : bool;
  translation : vec3;
  center : vec3;
  scale : Q;
  ball : Arcball }.

(** one entry of the [flags] dict; a key that is not a key of
    [self.view] is [flag_other] *)
Inductive flag : Type :=
| flag_cull (b : bool)
| flag_axis (a : axis_mode)
| flag_fullscreen (b : bool)
| flag_wireframe (b : bool)
| flag_translation (t : vec3)
| flag_center (c : vec3)
| flag_scale (s : Q)
| flag_ball (b : Arcball)
| flag_other (key : string).

(** an [IndexedVertexList] of the batch *)
Record VertexList : Type := { list_id : nat; list_args : vertexlist_args }.

(** [pyglet.graphics.Batch]: how many lists it ever made, and the ones
    still in it *)
Record Batch : Type := { created : nat; members : list nat }.

(** the free-form keyword options; only [background] is read *)
Record Kwargs : Type := { background : option (list Z) }.

(** The attributes of a [SceneViewer], with the pyglet window it
    inherits from ([None] until [super().__init__] has run) and the
    trace of calls it made. *)
Record SceneViewer : Type := {
  scene : Scene;
  callback : option (Scene -> outcome Scene);
  callback_period : option Q;
  view : View;
  batch : Batch;
  kwargs : Kwargs;
  _axis : option VertexList;
  vertex_list : gmap string VertexList;
  vertex_list_hash : gmap string string;
  vertex_list_mode : gmap string GLenum;
  fixed : option (list string);
  textures : gmap string Texture;
  window : option Window;
  trace : list call }.

(** [self.<field> = f(self.<field>)], one updater per mutable attribute *)
Definition with_scene (f : Scene -> Scene) (v : SceneViewer) : SceneViewer :=
  {| scene := f (scene v); callback := callback v;
     callback_period := callback_period v; view := view v; batch := batch v;
     kwargs := kwargs v; _axis := _axis v; vertex_list := vertex_list v;
     vertex_list_hash := vertex_list_hash v;
     vertex_list_mode := vertex_list_mode v; fixed := fixed v;
     textures := textures v; window := window v; trace := trace v |}.

Definition with_view (f : View -> View) (v : SceneViewer) : SceneViewer :=
  {| scene := scene v; callback := callback v;
     callback_period := callback_period v; view := f (view v);
     batch := batch v; kwargs := kwargs v; _axis := _axis v;
     vertex_list := vertex_list v; vertex_list_hash := vertex_list_hash v;
     vertex_list_mode := vertex_list_mode v; fixed := fixed v;
     textures := textures v; window := window v; trace := trace v |}.

Definition with_batch (f : Batch -> Batch) (v : SceneViewer) : SceneViewer :=
  {| scene := scene v; callback := callback v;
     callback_period := callback_period v; view := view v;
     batch := f (batch v); kwargs := kwargs v; _axis := _axis v;
     vertex_list := vertex_list v; vertex_list_hash := vertex_list_hash v;
     vertex_list_mode := vertex_list_mode v; fixed := fixed v;
     textures := textures v; window := window v; trace := trace v |}.

Definition with_axis (f : (option VertexList) -> (option VertexList)) (v : SceneViewer) : SceneViewer :=
  {| scene := scene v; callback := callback v;
     callback_period := callback_period v; view := view v; batch := batch v;
     kwargs := kwargs v; _axis := f (_axis v); vertex_list := vertex_list v;
     vertex_list_hash := vertex_list_hash v;
     vertex_list_mode := vertex_list_mode v; fixed := fixed v;
     textures := textures v; window := window v; trace := trace v |}.

Definition with_vertex_list (f : (gmap string VertexList) -> (gmap string VertexList)) (v : SceneViewer) : SceneViewer :=
  {| scene := scene v; callback := callback v;
     callback_period := callback_period v; view := view v; batch := batch v;
     kwargs := kwargs v; _axis := _axis v; vertex_list := f (vertex_list v);
     vertex_list_hash := vertex_list_hash v;
     vertex_list_mode := vertex_list_mode v; fixed := fixed v;
     textures := textures v; window := window v; trace := trace v |}.

Definition with_vertex_list_hash (f : (gmap string string) -> (gmap string string)) (v : SceneViewer) : SceneViewer :=
  {| scene := scene v; callback := callback v;
     callback_period := callback_period v; view := view v; batch := batch v;
     kwargs := kwargs v; _axis := _axis v; vertex_list := vertex_list v;
     vertex_list_hash := f (vertex_list_hash v);
     vertex_list_mode := vertex_list_mode v; fixed := fixed v;
     textures := textures v; window := window v; trace := trace v |}.

Definition with_vertex_list_mode (f : (gmap string GLenum) -> (gmap string GLenum)) (v : SceneViewer) : SceneViewer :=
  {| scene := scene v; callback := callback v;
     callback_period := callback_period v; view := view v; batch := batch v;
     kwargs := kwargs v; _axis := _axis v; vertex_list := vertex_list v;
     vertex_list_hash := vertex_list_hash v;
     vertex_list_mode := f (vertex_list_mode v); fixed := fixed v;
     textures := textures v; window := window v; trace := trace v |}.

Definition with_textures (f : (gmap string Texture) -> (gmap string Texture)) (v : SceneViewer) : SceneViewer :=
  {| scene := scene v; callback := callback v;
     callback_period := callback_period v; view := view v; batch := batch v;
     kwargs := kwargs v; _axis := _axis v; vertex_list := vertex_list v;
     vertex_list_hash := vertex_list_hash v;
     vertex_list_mode := vertex_list_mode v; fixed := fixed v;
     textures := f (textures v); window := window v; trace := trace v |}.

Definition with_window (f : (option Window) -> (option Window)) (v : SceneViewer) : SceneViewer :=
  {| scene := scene v; callback := callback v;
     callback_period := callback_period v; view := view v; batch := batch v;
     kwargs := kwargs v; _axis := _axis v; vertex_list := vertex_list v;
     vertex_list_hash := vertex_list_hash v;
     vertex_list_mode := vertex_list_mode v; fixed := fixed v;
     textures := textures v; window := f (window v); trace := trace v |}.

Definition with_trace (f : (list call) -> (list call)) (v : SceneViewer) : SceneViewer :=
  {| scene := scene v; callback := callback v;
     callback_period := callback_period v; view := view v; batch := batch v;
     kwargs := kwargs v; _axis := _axis v; vertex_list := vertex_list v;
     vertex_list_hash := vertex_list_hash v;
     vertex_list_mode := vertex_list_mode v; fixed := fixed v;
     textures := textures v; window := window v; trace := f (trace v) |}.

(** ** The functions of [windowed.py] *)

(** smooth only when fewer faces than this *)
Definition _SMOOTH_MAX_FACES : Z := 100000.

Definition axis_mode_eqb (a b : axis_mode) : bool :=
  match a, b with
  | axis_off, axis_off | axis_world, axis_world | axis_all, axis_all => true
  | _, _ => false
  end.

(** Python truth value of [view['axis']]: [False] is false, a non-empty
    string is true *)
Definition axis_truthy (a : axis_mode) : bool := negb (axis_mode_eqb a axis_off).

(** [list.index(x)] *)
Fixpoint list_index (x : axis_mode) (l : list axis_mode) : option nat :=
  match l with
  | [] => None
  | y :: rest => if axis_mode_eqb y x then Some O
                 else option_map S (list_index x rest)
  end.

(** [hasattr(mesh, 'visual') and hasattr(mesh.visual, 'transparency')
    and mesh.visual.transparency] *)
Definition is_transparent (mesh : Geometry) : bool :=
  match visual mesh with
  | Some vis => match transparency vis with
                | Some b => b
                | None => false
                end
  | None => false
  end.

(** [geometry_name in self.fixed] under [self.fixed is not None] *)
Definition is_fixed (fx : option (list string)) (geometry_name : string) : bool :=
  match fx with
  | Some names => existsb (String.eqb geometry_name) names
  | None => false
  end.

(** [np.clip(x, lo, hi)]; [hi = None] stands for [np.inf] *)
Definition np_clip (x lo : R) (hi : option R) : R :=
  match hi with
  | Some h => Rmin (Rmax x lo) h
  | None => Rmax x lo
  end.

(** [np.abs(row).max()] for one row of the [(2,3)] bounds *)
Definition row_abs_max (row : vec3) : Q :=
  Qmax (Qmax (Qabs (vx row)) (Qabs (vy row))) (Qabs (vz row)).

(** [(np.abs(bounds).max(axis=1) ** 2).sum()]: [max(axis=1)] reduces
    along each row, so it yields one maximum per corner of the box *)
Definition bounds_max_squared_sum (b : vec3 * vec3) : Q :=
  (row_abs_max (fst b) ^ 2 + row_abs_max (snd b) ^ 2)%Q.

(** the [max_depth] that [init_gl] passes to [glDepthRange] *)
Definition max_depth (b : vec3 * vec3) : R :=
  np_clip (sqrt (Q2R (bounds_max_squared_sum b))) 500 None.

Definition view_to_transform (vw : View) : mat4 :=
  let transform := Arcball_matrix (ball vw) in
  let transform := set_column3 transform (center vw) in
  let transform :=
    set_column3 transform
      (vec3_sub (column3 transform) (mat3_dot (block33 transform) (center vw))) in
  let transform :=
    set_column3 transform
      (vec3_add (column3 transform)
                (vec3_scale (vec3_scale (translation vw) (scale vw)) 5)) in
  transform.

Section Model.
Context {ext : Externals}.
Local Open Scope py_scope.

(** The local [md5] is [None] while it is unbound. *)
Definition geometry_hash (geometry : Geometry) : outcome string :=
  let md5_local : option string :=
    match md5 geometry with
    | Some digest => Some digest
    | None =>
        match tostring geometry with
        | Some raw => Some (py_str (hash_bytes raw))
        | None => None
        end
    end in
  match visual geometry with
  | Some vis =>
      (* md5 += str(geometry.visual.crc()): the name is read first *)
      match md5_local with
      | None => Raise (UnboundLocalError "md5")
      | Some base =>
          match crc vis with
          | Some sum => Ok (base ++ py_str sum)%string
          | None => Raise (AttributeError "crc")
          end
      end
  | None =>
      match md5_local with
      | None => Raise (UnboundLocalError "md5")
      | Some base => Ok base
      end
  end.

Definition emit (c : call) : M SceneViewer unit :=
  modify (with_trace (fun t => t ++ [c])).

(** [self.batch.add_indexed] on the unpacked [args] *)
Definition batch_add_indexed (args : vertexlist_args) : M SceneViewer VertexList :=
  fun v =>
    let b := batch v in
    let made := {| list_id := created b; list_args := args |} in
    (Ok made,
     with_batch (fun _ => {| created := S (created b);
                             members := members b ++ [created b] |}) v).

(** [vertex_list.delete()] *)
Definition vertex_list_delete_from_batch (l : VertexList) : M SceneViewer unit :=
  run modify (with_batch (fun b =>
        {| created := created b;
           members := List.filter (fun i => negb (Nat.eqb i (list_id l))) (members b) |}));
  emit (vertex_list_delete (list_id l)).

(** [self.width], [self.height]: only a created window has a size *)
Definition window_size : M SceneViewer (Z * Z) :=
  do w <- gets window;
  match w with
  | Some win => ret (width win, height win)
  | None => raise (AttributeError "width")
  end.

Definition set_fullscreen (b : bool) : M SceneViewer unit :=
  do w <- gets window;
  match w with
  | Some win =>
      run modify (with_window (fun _ => Some
            {| config := config win; visible := visible win;
               resizable := resizable win; width := width win;
               height := height win; caption := caption win;
               is_fullscreen := b |}));
      emit (window_set_fullscreen b)
  | None => raise (AttributeError "set_fullscreen")
  end.

Definition set_size (w h : Z) : M SceneViewer unit :=
  do o <- gets window;
  match o with
  | Some win =>
      run modify (with_window (fun _ => Some
            {| config := config win; visible := visible win;
               resizable := resizable win; width := w; height := h;
               caption := caption win; is_fullscreen := is_fullscreen win |}));
      emit (window_set_size w h)
  | None => raise (AttributeError "set_size")
  end.

Definition add_geometry (name : string) (geometry : Geometry)
    (smooth : option bool) : M SceneViewer unit :=
  run emit (convert_to_vertexlist_call geometry smooth);
  do args <- lift (convert_to_vertexlist geometry smooth);
  do made <- batch_add_indexed args;
  run modify (with_vertex_list (fun m => <[name := made]> m));
  do digest <- lift (geometry_hash geometry);
  run modify (with_vertex_list_hash (fun m => <[name := digest]> m));
  run modify (with_vertex_list_mode (fun m => <[name := args_mode args]> m));
  match visual geometry with
  | Some vis =>
      match material vis with
      | Some mat =>
          run emit (material_to_texture_call mat);
          do tex <- lift (material_to_texture mat);
          match tex with
          | Some t => modify (with_textures (fun m => <[name := t]> m))
          | None => ret tt
          end
      | None => ret tt
      end
  | None => ret tt
  end.

Definition update_flags : M SceneViewer unit :=
  do vw <- gets view;
  run (if wireframe vw then emit (glPolygonMode GL_FRONT_AND_BACK GL_LINE)
       else emit (glPolygonMode GL_FRONT_AND_BACK GL_FILL));
  run set_fullscreen (fullscreen vw);
  run (if cull vw then emit (glEnable GL_CULL_FACE)
       else emit (glDisable GL_CULL_FACE));
  do marker <- gets _axis;
  match axis_truthy (axis vw), marker with
  | true, None =>
      do sc <- gets scene;
      run emit (axis_call (scene_scale sc / 100)%Q);
      do args <- lift (axis_vertexlist (scene_scale sc / 100)%Q);
      do made <- batch_add_indexed args;
      modify (with_axis (fun _ => Some made))
  | false, Some l =>
      run vertex_list_delete_from_batch l;
      modify (with_axis (fun _ => None))
  | _, _ => ret tt
  end.

Definition set_cull (b : bool) (vw : View) : View :=
  {| cull := b; axis := axis vw; fullscreen := fullscreen vw;
     wireframe := wireframe vw; translation := translation vw;
     center := center vw; scale := scale vw; ball := ball vw |}.

Definition set_axis (a : axis_mode) (vw : View) : View :=
  {| cull := cull vw; axis := a; fullscreen := fullscreen vw;
     wireframe := wireframe vw; translation := translation vw;
     center := center vw; scale := scale vw; ball := ball vw |}.

Definition set_fullscreen_flag (b : bool) (vw : View) : View :=
  {| cull := cull vw; axis := axis vw; fullscreen := b;
     wireframe := wireframe vw; translation := translation vw;
     center := center vw; scale := scale vw; ball := ball vw |}.

Definition set_wireframe (b : bool) (vw : View) : View :=
  {| cull := cull vw; axis := axis vw; fullscreen := fullscreen vw;
     wireframe := b; translation := translation vw;
     center := center vw; scale := scale vw; ball := ball vw |}.

Definition set_translation (t : vec3) (vw : View) : View :=
  {| cull := cull vw; axis := axis vw; fullscreen := fullscreen vw;
     wireframe := wireframe vw; translation := t;
     center := center vw; scale := scale vw; ball := ball vw |}.

Definition set_center (c : vec3) (vw : View) : View :=
  {| cull := cull vw; axis := axis vw; fullscreen := fullscreen vw;
     wireframe := wireframe vw; translation := translation vw;
     center := c; scale := scale vw; ball := ball vw |}.

Definition set_scale (s : Q) (vw : View) : View :=
  {| cull := cull vw; axis := axis vw; fullscreen := fullscreen vw;
     wireframe := wireframe vw; translation := translation vw;
     center := center vw; scale := s; ball := ball vw |}.

Definition set_ball (b : Arcball) (vw : View) : View :=
  {| cull := cull vw; axis := axis vw; fullscreen := fullscreen vw;
     wireframe := wireframe vw; translation := translation vw;
     center := center vw; scale := scale vw; ball := b |}.

(** [if k in self.view: self.view[k] = v] *)
Definition apply_flag (f : flag) (vw : View) : View :=
  match f with
  | flag_cull b => set_cull b vw
  | flag_axis a => set_axis a vw
  | flag_fullscreen b => set_fullscreen_flag b vw
  | flag_wireframe b => set_wireframe b vw
  | flag_translation t => set_translation t vw
  | flag_center c => set_center c vw
  | flag_scale s => set_scale s vw
  | flag_ball b => set_ball b vw
  | flag_other _ => vw
  end.

Definition toggle_culling : M SceneViewer unit :=
  run modify (with_view (fun vw => set_cull (negb (cull vw)) vw));
  update_flags.

Definition toggle_wireframe : M SceneViewer unit :=
  run modify (with_view (fun vw => set_wireframe (negb (wireframe vw)) vw));
  update_flags.

Definition toggle_fullscreen : M SceneViewer unit :=
  run modify (with_view (fun vw => set_fullscreen_flag (negb (fullscreen vw)) vw));
  update_flags.

Definition toggle_axis : M SceneViewer unit :=
  let states := [axis_off; axis_world; axis_all] in
  do vw <- gets view;
  match list_index (axis vw) states with
  | None => raise ValueError
  | Some i =>
      let index := ((i + 1) mod length states)%nat in
      match nth_error states index with
      | None => raise ValueError
      | Some next =>
          run modify (with_view (set_axis next));
          update_flags
      end
  end.

Definition reset_view (flags : option (list flag)) : M SceneViewer unit :=
  do sc <- gets scene;
  run modify (with_view (fun _ =>
        {| cull := true; axis := axis_off; fullscreen := false;
           wireframe := false; translation := zeros3;
           center := centroid sc; scale := scene_scale sc;
           ball := Arcball_new |}));
  try_pass (
    do size <- window_size;
    let '(w, h) := size in
    run modify (with_view (fun vw =>
          set_ball (Arcball_place (ball vw)
                      (inject_Z w / 2, inject_Z h / 2)%Q
                      (inject_Z (w + h) / 2)%Q) vw));
    match flags with
    | Some items =>
        run for_each items (fun f => modify (with_view (apply_flag f)));
        update_flags
    | None => ret tt
    end).

(** [for i, light in enumerate(self.scene.lights[:7])] *)
Definition update_lighting : M SceneViewer unit :=
  run emit (glEnable GL_LIGHTING);
  do sc <- gets scene;
  let first := firstn 7 (lights sc) in
  for_each (combine (seq 0 (length first)) first) (fun il =>
    let lightN := GL_LIGHT (fst il) in
    match nodes (graph sc) !! light_name (snd il) with
    | Some (matrix, _) =>
        let multiargs := light_to_gl (snd il) matrix lightN in
        run emit (glEnable lightN);
        for_each multiargs (fun a => emit (glLightfv (fst (fst a)) (snd (fst a)) (snd a)))
    | None => raise (KeyError (light_name (snd il)))
    end).

Definition init_gl : M SceneViewer unit :=
  let default := (99 # 100, 99 # 100, 99 # 100, 1%Q) in
  do kw <- gets kwargs;
  do colour <-
    match background kw with
    | Some given =>
        match to_rgba given with
        | Ok (r, g, b, a) =>
            ret (inject_Z r / 255, inject_Z g / 255,
                 inject_Z b / 255, inject_Z a / 255)%Q
        | Raise _ =>
            run emit (log_error "background color set but wrong!");
            ret default
        end
    | None => ret default
    end;
  let '(r, g, b, a) := colour in
  run emit (glClearColor r g b a);
  do sc <- gets scene;
  run emit (glDepthRange 0 (max_depth (bounds sc)));
  run emit (glClearDepth 1);
  run emit (glEnable GL_DEPTH_TEST);
  run emit (glDepthFunc GL_LEQUAL);
  run emit (glEnable GL_DEPTH_TEST);
  run emit (glEnable GL_CULL_FACE);
  run emit (glColorMaterial GL_FRONT_AND_BACK GL_AMBIENT_AND_DIFFUSE);
  run emit (glEnable GL_COLOR_MATERIAL);
  run emit (glShadeModel GL_SMOOTH);
  run emit (glMaterialfv GL_FRONT GL_AMBIENT
              [19225 # 100000; 19225 # 100000; 19225 # 100000]);
  run emit (glMaterialfv GL_FRONT GL_DIFFUSE
              [50754 # 100000; 50754 # 100000; 50754 # 100000]);
  run emit (glMaterialfv GL_FRONT GL_SPECULAR
              [508273 # 1000000; 508273 # 1000000; 508273 # 1000000]);
  run emit (glMaterialf GL_FRONT GL_SHININESS ((4 # 10) * 128)%Q);
  run emit (glEnable GL_BLEND);
  run emit (glBlendFunc GL_SRC_ALPHA GL_ONE_MINUS_SRC_ALPHA);
  run emit (glEnable GL_LINE_SMOOTH);
  run emit (glHint GL_LINE_SMOOTH_HINT GL_NICEST);
  run emit (glLineWidth (15 # 10));
  run emit (glPointSize 4);
  update_lighting.

(** the arguments of [SceneViewer.__init__] after [scene] *)
Record viewer_args : Type := {
  arg_smooth : bool;
  arg_flags : option (list flag);
  arg_visible : option bool;
  arg_resolution : option (Z * Z);
  arg_start_loop : bool;
  arg_callback : option (Scene -> outcome Scene);
  arg_callback_period : option Q;
  arg_caption : option string;
  arg_fixed : option (list string);
  arg_kwargs : Kwargs }.

(** [try: body / except <caught>: handler] *)
Definition try_except {S A} (body : M S A) (caught : exn -> bool)
    (handler : M S A) : M S A :=
  fun s => match body s with
           | (Raise e, s') => if caught e then handler s' else (Raise e, s')
           | done => done
           end.

(** [pyglet.window.Window.__init__]: the platform either grants the
    configuration or raises [NoSuchConfigException] *)
Definition Window_init (conf : Config) (vis : option bool) (w h : Z)
    (cap : option string) : M SceneViewer unit :=
  if config_available conf then
    modify (with_window (fun _ => Some
      {| config := conf; visible := vis; resizable := true; width := w;
         height := h; caption := cap; is_fullscreen := false |}))
  else raise NoSuchConfigException.

Definition set_resolution (r : Z * Z) (sc : Scene) : Scene :=
  {| geometry := geometry sc; graph := graph sc;
     camera := {| camera_name := camera_name (camera sc);
                  fov := fov (camera sc); resolution := r |};
     lights := lights sc; bounds := bounds sc;
     scene_scale := scene_scale sc; centroid := centroid sc |}.

Definition SceneViewer_init (sc : Scene) (a : viewer_args) : M SceneViewer unit :=
  run modify (fun v =>
    {| scene := sc; callback := arg_callback a;
       callback_period := arg_callback_period a; view := view v;
       batch := batch v; kwargs := kwargs v; _axis := _axis v;
       vertex_list := vertex_list v; vertex_list_hash := vertex_list_hash v;
       vertex_list_mode := vertex_list_mode v; fixed := fixed v;
       textures := textures v; window := window v; trace := trace v |});
  run reset_view (arg_flags a);
  run modify (fun v =>
    {| scene := scene v; callback := callback v;
       callback_period := callback_period v; view := view v;
       batch := {| created := 0; members := [] |};
       kwargs := arg_kwargs a; _axis := None;
       vertex_list := ∅; vertex_list_hash := ∅; vertex_list_mode := ∅;
       fixed := arg_fixed a; textures := ∅;
       window := window v; trace := trace v |});
  do size <-
    match arg_resolution a with
    | None => do s <- gets scene; ret (resolution (camera s))
    | Some r => run modify (with_scene (set_resolution r)); ret r
    end;
  run try_except
        (Window_init {| sample_buffers := Some 1%nat; samples := Some 4%nat;
                        depth_size := Some 24%nat; double_buffer := true |}
                     (arg_visible a) (fst size) (snd size) (arg_caption a))
        (fun e => match e with NoSuchConfigException => true | _ => false end)
        (Window_init {| sample_buffers := None; samples := None;
                        depth_size := None; double_buffer := true |}
                     (arg_visible a) (fst size) (snd size) (arg_caption a));
  do s <- gets scene;
  run for_each (geometry s) (fun item =>
        add_geometry (fst item) (snd item) (Some (arg_smooth a)));
  run init_gl;
  run set_size (fst size) (snd size);
  run update_flags;
  do cb <- gets callback;
  run match cb with
      | Some _ =>
          let period := match arg_callback_period a with
                        | None => (1 / 100)%Q
                        | Some p => p
                        end in
          emit (clock_schedule_interval period)
      | None => ret tt
      end;
  if arg_start_loop a then emit app_run else ret tt.

(** The object [__init__] receives has no attribute yet; every field
    below is assigned by [SceneViewer_init] before it is read, and the
    window does not exist. *)
Definition fresh_object (sc : Scene) : SceneViewer :=
  {| scene := sc; callback := None; callback_period := None;
     view := {| cull := true; axis := axis_off; fullscreen := false;
                wireframe := false; translation := zeros3;
                center := zeros3; scale := 0; ball := Arcball_new |};
     batch := {| created := 0; members := [] |};
     kwargs := {| background := None |}; _axis := None;
     vertex_list := ∅; vertex_list_hash := ∅; vertex_list_mode := ∅;
     fixed := None; textures := ∅; window := None; trace := [] |}.

(** [SceneViewer(scene, ...)] *)
Definition SceneViewer_new (sc : Scene) (a : viewer_args)
  : outcome unit * SceneViewer :=
  SceneViewer_init sc a (fresh_object sc).

Definition _update_meshes : M SceneViewer unit :=
  do cb <- gets callback;
  match cb with
  | Some f =>
      do sc <- gets scene;
      do sc' <- lift (f sc);
      modify (with_scene (fun _ => sc'))
  | None => ret tt
  end.

(** [self._axis.draw(mode=gl.GL_TRIANGLES)] *)
Definition axis_draw : M SceneViewer unit :=
  do marker <- gets _axis;
  match marker with
  | Some l => emit (vertex_list_draw (list_id l) GL_TRIANGLES None)
  | None => raise (AttributeError "draw")
  end.

(** The [while len(node_names) > 0] loop of [on_draw].  [fuel] bounds
    the number of iterations; running out of it is [Diverges]. *)
Fixpoint draw_nodes (fuel : nat) (view_t : mat4) (count_original count : Z)
    (node_names : list string) {struct fuel} : M SceneViewer unit :=
  match node_names with
  | [] => ret tt
  | current_node :: rest =>
    match fuel with
    | O => raise Diverges
    | S fuel =>
      let count := (count + 1)%Z in
      do sc <- gets scene;
      match nodes (graph sc) !! current_node with
      | None => raise (KeyError current_node)
      | Some (_, None) => draw_nodes fuel view_t count_original count rest
      | Some (transform, Some geometry_name) =>
        do fx <- gets fixed;
        do transform <-
          (if is_fixed fx geometry_name
           then do inverse <- lift (np_linalg_inv view_t);
                ret (mat4_dot inverse transform)
           else ret transform);
        match geometry_lookup (geometry sc) geometry_name with
        | None => raise (KeyError geometry_name)
        | Some mesh =>
          run emit glPushMatrix;
          run emit (glMultMatrixf transform);
          do vw <- gets view;
          run (if axis_mode_eqb (axis vw) axis_all then axis_draw else ret tt);
          if is_transparent mesh && (count <? count_original)%Z then
            run emit (requeue current_node);
            run emit glPopMatrix;
            draw_nodes fuel view_t count_original count (rest ++ [current_node])
          else
            do tx <- gets textures;
            let texture := tx !! geometry_name in
            run match texture with
                | Some t => run emit (glEnable (target t));
                            emit (glBindTexture (target t) (id t))
                | None => ret tt
                end;
            do modes <- gets vertex_list_mode;
            match modes !! geometry_name with
            | None => raise (KeyError geometry_name)
            | Some mode =>
              do lists <- gets vertex_list;
              match lists !! geometry_name with
              | None => raise (KeyError geometry_name)
              | Some l =>
                run emit (vertex_list_draw (list_id l) mode (Some current_node));
                run emit glPopMatrix;
                run match texture with
                    | Some t => emit (glDisable (target t))
                    | None => ret tt
                    end;
                draw_nodes fuel view_t count_original count rest
              end
            end
        end
      end
    end
  end.

Definition on_draw : M SceneViewer unit :=
  run _update_meshes;
  run emit (glClear [GL_COLOR_BUFFER_BIT; GL_DEPTH_BUFFER_BIT]);
  run emit glLoadIdentity;
  do sc <- gets scene;
  match to_world (graph sc) !! camera_name (camera sc) with
  | None => raise (KeyError (camera_name (camera sc)))
  | Some transform_camera =>
    run emit (glMultMatrixf transform_camera);
    do vw <- gets view;
    let view_t := view_to_transform vw in
    run emit (glMultMatrixf view_t);
    let node_names := nodes_geometry (graph sc) in
    let count_original := Z.of_nat (length node_names) in
    do marker <- gets _axis;
    run match marker with
        | Some l => emit (vertex_list_draw (list_id l) GL_TRIANGLES None)
        | None => ret tt
        end;
    draw_nodes (2 * length node_names) view_t count_original (-1) node_names
  end.

Definition save_image : M SceneViewer string :=
  do t <- gets trace;
  ret (color_buffer_png t).

(** [platform_system] is the value of [platform.system()]; [kw] are the
    keyword arguments forwarded to the viewer. *)
Definition render_scene (platform_system : string) (sc : Scene)
    (res : Z * Z) (vis : option bool) (kw : viewer_args) : M SceneViewer string :=
  run SceneViewer_init sc
        {| arg_smooth := arg_smooth kw; arg_flags := arg_flags kw;
           arg_visible := vis; arg_resolution := Some res;
           arg_start_loop := false; arg_callback := arg_callback kw;
           arg_callback_period := arg_callback_period kw;
           arg_caption := arg_caption kw; arg_fixed := arg_fixed kw;
           arg_kwargs := arg_kwargs kw |};
  let vis := match vis with
             | None => Some (negb (String.eqb platform_system "Linux"))
             | Some _ => vis
             end in
  run for_each [0; 1]%nat (fun _ =>
        run emit clock_tick;
        run emit window_switch_to;
        run emit window_dispatch_events;
        run on_draw;
        emit window_flip);
  do render <- save_image;
  run emit window_close;
  ret render.

End Model.

(** ** The mouse handlers *)

(** [Arcball.down] and [Arcball.drag] of the transformations module: what
    a press and a drag at a window point do to the rotation widget *)
Class Gestures : Type := {
  Arcball_down : Arcball -> Z * Z -> Arcball;
  Arcball_drag : Arcball -> Z * Z -> Arcball }.

(** [pyglet.window.mouse.LEFT] and [pyglet.window.key.MOD_CTRL] *)
Definition mouse_LEFT : Z := 1.
Definition key_MOD_CTRL : Z := 2.

(** [a / b] on numbers, the true division of Python 3.  A zero divisor
    is the case of a Python integer, which raises; a numpy integer
    gives [inf] with a warning instead, and no property below is about
    a zero divisor. *)
Definition py_truediv (a : Q) (b : Z) : outcome Q :=
  if (b =? 0)%Z then Raise ZeroDivisionError else Ok (a / inject_Z b)%Q.

Section Mouse.
Context {gestures : Gestures}.
Local Open Scope py_scope.

(** [self.width] and [self.height] *)
Definition window_width : M SceneViewer Z :=
  do w <- gets window;
  match w with
  | Some win => ret (width win)
  | None => raise (AttributeError "width")
  end.

Definition window_height : M SceneViewer Z :=
  do w <- gets window;
  match w with
  | Some win => ret (height win)
  | None => raise (AttributeError "height")
  end.

Definition on_mouse_press (x y buttons modifiers : Z) : M SceneViewer unit :=
  modify (with_view (fun vw => set_ball (Arcball_down (ball vw) (x, - y)%Z) vw)).

Definition on_mouse_drag (x y dx dy buttons modifiers : Z) : M SceneViewer unit :=
  if (buttons =? mouse_LEFT)%Z && negb (Z.land modifiers key_MOD_CTRL =? 0)%Z then
    do w <- window_width;
    do delta_x <- lift (py_truediv (inject_Z dx) w);
    do h <- window_height;
    do delta_y <- lift (py_truediv (inject_Z dy) h);
    modify (with_view (fun vw =>
      set_translation (Vec3 (vx (translation vw) + delta_x)
                            (vy (translation vw) + delta_y)
                            (vz (translation vw))) vw))
  else if (buttons =? mouse_LEFT)%Z then
    modify (with_view (fun vw => set_ball (Arcball_drag (ball vw) (x, - y)%Z) vw))
  else ret tt.

Definition on_mouse_scroll (x y : Z) (dx dy : Q) : M SceneViewer unit :=
  do h <- window_height;
  do step <- lift (py_truediv dy h);
  modify (with_view (fun vw =>
    set_translation (Vec3 (vx (translation vw))
                          (vy (translation vw))
                          (vz (translation vw) + step)) vw)).

End Mouse.

(** ** A concrete setting to run the model in *)

Definition demo_args : vertexlist_args :=
  {| args_count := 3; args_mode := GL_TRIANGLES;
     args_indices := [0; 1; 2]%nat; args_data := [] |}.

Definition demo_externals : Externals :=
  {| hash_bytes := fun raw => Z.of_nat (String.length raw);
     Arcball_new := {| orientation := eye4; pivot := (0, 0)%Q; radius := 1 |};
     convert_to_vertexlist := fun _ _ => Ok demo_args;
     axis_vertexlist := fun _ => Ok demo_args;
     material_to_texture := fun m =>
       Ok (match image m with
           | Some _ => Some {| target := GL_TEXTURE_2D; id := 1 |}
           | None => None
           end);
     light_to_gl := fun _ _ _ => [];
     to_rgba := fun _ => Ok (255, 255, 255, 255)%Z;
     config_available := fun _ => true;
     color_buffer_png := fun _ => "PNG"%string |}.

Definition opaque_visual : Visual :=
  {| crc := Some 7%Z; material := None; transparency := Some false |}.

Definition transparent_visual : Visual :=
  {| crc := Some 9%Z; material := None; transparency := Some true |}.

Definition demo_mesh (digest : string) (n : Z) (vis : Visual) : Geometry :=
  {| md5 := Some digest; tostring := None; faces := n; visual := Some vis |}.

(** nodes A (opaque), B (transparent), C (opaque), in that order; the
    upper corner of the bounds is (600, 800, 0) *)
Definition demo_scene : Scene :=
  {| geometry := [("a", demo_mesh "aa" 12 opaque_visual);
                  ("b", demo_mesh "bb" 12 transparent_visual);
                  ("c", demo_mesh "cc" 100000 opaque_visual)]%string;
     graph := {| nodes_geometry := ["A"; "B"; "C"]%string;
                 nodes := <["A" := (eye4, Some "a")]>
                           (<["B" := (translation_matrix (Vec3 1 0 0), Some "b")]>
                           (<["C" := (translation_matrix (Vec3 0 2 0), Some "c")]> ∅))%string;
                 to_world := <["camera" := eye4]> ∅%string |};
     camera := {| camera_name := "camera"; fov := (60, 45)%Q;
                  resolution := (640, 480)%Z |};
     lights := [];
     bounds := (Vec3 0 0 0, Vec3 600 800 0);
     scene_scale := 1000;
     centroid := Vec3 300 400 0 |}.

Definition demo_viewer_args : viewer_args :=
  {| arg_smooth := true; arg_flags := None; arg_visible := Some true;
     arg_resolution := None; arg_start_loop := false; arg_callback := None;
     arg_callback_period := None; arg_caption := None;
     arg_fixed := Some ["b"%string]; arg_kwargs := {| background := None |} |}.

(** the viewer [SceneViewer(demo_scene, ...)] leaves behind *)
Definition demo_viewer : SceneViewer :=
  snd (SceneViewer_new (ext := demo_externals) demo_scene demo_viewer_args).

(** ** Vocabulary of the properties *)

(** the [glDepthRange] calls of a trace, as (near, far) *)
Fixpoint depth_range_calls (t : list call) : list (R * R) :=
  match t with
  | [] => []
  | glDepthRange near far :: rest => (near, far) :: depth_range_calls rest
  | _ :: rest => depth_range_calls rest
  end.

(** The depth bound as the specification words it: per axis, the larger
    absolute extent over the two corners of the bounds, then the square
    root of the sum of the three squares, clamped below at 500. *)
Definition spec_axis_extents (b : vec3 * vec3) : vec3 :=
  Vec3 (Qmax (Qabs (vx (fst b))) (Qabs (vx (snd b))))
       (Qmax (Qabs (vy (fst b))) (Qabs (vy (snd b))))
       (Qmax (Qabs (vz (fst b))) (Qabs (vz (snd b)))).

Definition spec_max_depth (b : vec3 * vec3) : R :=
  let e := spec_axis_extents b in
  Rmax (sqrt (Q2R (vx e ^ 2 + vy e ^ 2 + vz e ^ 2)%Q)) 500.

(** the four per-geometry dicts of the viewer *)
Definition maps_of (v : SceneViewer) :=
  (vertex_list v, vertex_list_hash v, vertex_list_mode v, textures v).

(** the three per-geometry dicts have one key set, and every textured
    name is among those keys *)
Definition maps_in_step (v : SceneViewer) : Prop :=
  dom (vertex_list v) = dom (vertex_list_hash v) /\
  dom (vertex_list_hash v) = dom (vertex_list_mode v) /\
  dom (textures v) ⊆ dom (vertex_list v).

(** the scene nodes of the [vertex_list_draw] calls of a trace, in the
    order of the calls *)
Fixpoint drawn_nodes (t : list call) : list string :=
  match t with
  | [] => []
  | vertex_list_draw _ _ (Some node) :: rest => node :: drawn_nodes rest
  | _ :: rest => drawn_nodes rest
  end.

(** the nodes put back on the queue, in order *)
Fixpoint requeued_nodes (t : list call) : list string :=
  match t with
  | [] => []
  | requeue node :: rest => node :: requeued_nodes rest
  | _ :: rest => requeued_nodes rest
  end.

(** each node draw of a trace with the matrix of the last
    [glMultMatrixf] before it ([current] before the first one) *)
Fixpoint draw_transforms (current : mat4) (t : list call) : list (string * mat4) :=
  match t with
  | [] => []
  | glMultMatrixf m :: rest => draw_transforms m rest
  | vertex_list_draw _ _ (Some node) :: rest =>
      (node, current) :: draw_transforms current rest
  | _ :: rest => draw_transforms current rest
  end.

(** the mesh a scene node refers to, and whether it reports itself
    transparent *)
Definition node_mesh (sc : Scene) (node : string) : option Geometry :=
  match nodes (graph sc) !! node with
  | Some (_, Some geometry_name) => geometry_lookup (geometry sc) geometry_name
  | _ => None
  end.

Definition node_transparent (sc : Scene) (node : string) : bool :=
  match node_mesh sc node with
  | Some mesh => is_transparent mesh
  | None => false
  end.

(** What the draw loop needs of one node: the graph knows it and gives
    it a geometry name, that geometry is in the scene and has its vertex
    list and mode in the viewer, and the view transform can be inverted
    if the geometry is a fixed one. *)
Definition node_ready (v : SceneViewer) (node : string) : bool :=
  match nodes (graph (scene v)) !! node with
  | Some (_, Some g) =>
      bool_decide (is_Some (geometry_lookup (geometry (scene v)) g)) &&
      bool_decide (is_Some (vertex_list_mode v !! g)) &&
      bool_decide (is_Some (vertex_list v !! g)) &&
      (negb (is_fixed (fixed v) g) ||
       negb (Qeq_bool (det4 (view_to_transform (view v))) 0))
  | _ => false
  end.

(** every geometry-bearing node of the scene graph is ready *)
Definition nodes_ready (v : SceneViewer) : bool :=
  forallb (node_ready v) (nodes_geometry (graph (scene v))).

(** the camera frame resolves, and the axis marker exists if the axis
    mode is ['all'] *)
Definition camera_ready (v : SceneViewer) : bool :=
  bool_decide (is_Some (to_world (graph (scene v)) !! camera_name (camera (scene v)))).

Definition axis_ready (v : SceneViewer) : bool :=
  negb (axis_mode_eqb (axis (view v)) axis_all) || bool_decide (is_Some (_axis v)).

(** what one pass over a ready node works with *)
Record node_plan : Type := {
  plan_transform : mat4;
  plan_mesh : Geometry;
  plan_mode : GLenum;
  plan_list : VertexList;
  plan_texture : option Texture }.

Definition plan_of (v : SceneViewer) (view_t : mat4) (node : string)
  : option node_plan :=
  match nodes (graph (scene v)) !! node with
  | Some (transform, Some g) =>
      let effective :=
        if is_fixed (fixed v) g then
          match np_linalg_inv view_t with
          | Ok inverse => Some (mat4_dot inverse transform)
          | Raise _ => None
          end
        else Some transform in
      match effective, geometry_lookup (geometry (scene v)) g,
            vertex_list_mode v !! g, vertex_list v !! g with
      | Some t, Some mesh, Some mode, Some l =>
          Some {| plan_transform := t; plan_mesh := mesh; plan_mode := mode;
                  plan_list := l; plan_texture := textures v !! g |}
      | _, _, _, _ => None
      end
  | _ => None
  end.

Definition add_calls (l : list call) (v : SceneViewer) : SceneViewer :=
  with_trace (fun t => t ++ l) v.

Definition axis_calls (v : SceneViewer) : list call :=
  if axis_mode_eqb (axis (view v)) axis_all then
    match _axis v with
    | Some l => [vertex_list_draw (list_id l) GL_TRIANGLES None]
    | None => []
    end
  else [].

Definition texture_on (p : node_plan) : list call :=
  match plan_texture p with
  | Some t => [glEnable (target t); glBindTexture (target t) (id t)]
  | None => []
  end.

Definition texture_off (p : node_plan) : list call :=
  match plan_texture p with
  | Some t => [glDisable (target t)]
  | None => []
  end.

(** the calls of a pass that draws the node, and of one that defers it *)
Definition drawn_calls (v : SceneViewer) (node : string) (p : node_plan) : list call :=
  [glPushMatrix; glMultMatrixf (plan_transform p)] ++ axis_calls v ++
  texture_on p ++
  [vertex_list_draw (list_id (plan_list p)) (plan_mode p) (Some node); glPopMatrix] ++
  texture_off p.

Definition deferred_calls (v : SceneViewer) (node : string) (p : node_plan) : list call :=
  [glPushMatrix; glMultMatrixf (plan_transform p)] ++ axis_calls v ++
  [requeue node; glPopMatrix].

(** whether the plan of a node has a transparent mesh *)
Definition plan_transparent (v : SceneViewer) (view_t : mat4) (node : string) : bool :=
  match plan_of v view_t node with
  | Some p => is_transparent (plan_mesh p)
  | None => false
  end.

(** the calls of one pass over a node: in the first round a transparent
    node is deferred, otherwise the node is drawn *)
Definition pass_calls (v : SceneViewer) (view_t : mat4) (first_round : bool)
    (node : string) : list call :=
  match plan_of v view_t node with
  | Some p =>
      if first_round && is_transparent (plan_mesh p)
      then deferred_calls v node p
      else drawn_calls v node p
  | None => []
  end.

(** the calls of the two rounds of the loop over [queue] *)
Definition loop_calls (v : SceneViewer) (view_t : mat4) (queue : list string)
  : list call :=
  concat (map (pass_calls v view_t true) queue) ++
  concat (map (pass_calls v view_t false)
              (List.filter (plan_transparent v view_t) queue)).

(** the world-frame axis marker drawn before the loop *)
Definition world_axis_calls (v : SceneViewer) : list call :=
  match _axis v with
  | Some l => [vertex_list_draw (list_id l) GL_TRIANGLES None]
  | None => []
  end.

(** all the calls of one frame, for the camera transform [cam] *)
Definition frame_calls (v : SceneViewer) (cam : mat4) : list call :=
  let view_t := view_to_transform (view v) in
  [glClear [GL_COLOR_BUFFER_BIT; GL_DEPTH_BUFFER_BIT]; glLoadIdentity;
   glMultMatrixf cam; glMultMatrixf view_t] ++
  world_axis_calls v ++
  loop_calls v view_t (nodes_geometry (graph (scene v))).

(** the conversions requested from the rendering module: face count of
    the geometry and the [smooth] keyword it was asked with *)
Fixpoint conversion_calls (t : list call) : list (Z * option bool) :=
  match t with
  | [] => []
  | convert_to_vertexlist_call g smooth :: rest =>
      (faces g, smooth) :: conversion_calls rest
  | _ :: rest => conversion_calls rest
  end.

(** a view at rest: identity rotation, zero centre *)
Definition demo_view : View :=
  {| cull := true; axis := axis_off; fullscreen := false; wireframe := false;
     translation := Vec3 1 2 3; center := zeros3; scale := 2;
     ball := {| orientation := eye4; pivot := (0, 0)%Q; radius := 1 |} |}.

(** an object with a [visual] but neither [md5] nor [tostring] *)
Definition bare_geometry : Geometry :=
  {| md5 := None; tostring := None; faces := 1; visual := Some opaque_visual |}.

(** one more geometry added to the demo viewer after construction *)
Definition demo_more : list (string * Geometry * option bool) :=
  [("d"%string, demo_mesh "dd" 3 transparent_visual, Some false)].

Definition demo_viewer_more : SceneViewer :=
  snd (for_each demo_more
         (fun x => add_geometry (ext := demo_externals)
                     (fst (fst x)) (snd (fst x)) (snd x))
         demo_viewer).

(** ** Ways of describing what a step does to the viewer *)

(** [adds m P]: running [m] only appends calls to the trace, and the
    appended calls satisfy [P], whether [m] returns or raises. *)
Definition adds {A} (m : M SceneViewer A) (P : list call -> Prop) : Prop :=
  forall v, exists l, trace (snd (m v)) = trace v ++ l /\ P l.

(** a property of call lists that holds of nothing added and of two
    additions in a row *)
Definition closed (P : list call -> Prop) : Prop :=
  P [] /\ forall l1 l2, P l1 -> P l2 -> P (l1 ++ l2).

(** [keeps m]: running [m] leaves the four dicts alone, whether it
    returns or raises. *)
Definition keeps {A} (m : M SceneViewer A) : Prop :=
  forall v, maps_of (snd (m v)) = maps_of v.

(** [ensures P m Q]: from a state in [P], a run of [m] that returns
    ends in a state in [Q]. *)
Definition ensures {A} (P : SceneViewer -> Prop) (m : M SceneViewer A)
    (Q : SceneViewer -> Prop) : Prop :=
  forall v a v', P v -> m v = (Ok a, v') -> Q v'.

(** ** More vocabulary, and more of the demo setting *)


(** [np.dot(m, [x, y, z, 1])[:3]]: where the homogeneous transform [m]
    takes the point [p] *)
Definition transform_point (m : mat4) (p : vec3) : vec3 :=
  vec3_add (mat3_dot (block33 m) p) (column3 m).

(** the axis marker is in the batch exactly when the axis mode is on *)
Definition axis_in_step (v : SceneViewer) : bool :=
  Bool.eqb (axis_truthy (axis (view v))) (bool_decide (is_Some (_axis v))).

(** the three calls every [update_flags] starts with *)
Definition flag_calls (vw : View) : list call :=
  [glPolygonMode GL_FRONT_AND_BACK (if wireframe vw then GL_LINE else GL_FILL);
   window_set_fullscreen (fullscreen vw);
   if cull vw then glEnable GL_CULL_FACE else glDisable GL_CULL_FACE].

(** two geometries whose identity strings and checksums both differ *)
Definition short_digest_mesh : Geometry :=
  {| md5 := Some "1"%string; tostring := None; faces := 1;
     visual := Some {| crc := Some 23%Z; material := None; transparency := None |} |}.

Definition long_digest_mesh : Geometry :=
  {| md5 := Some "12"%string; tostring := None; faces := 1;
     visual := Some {| crc := Some 3%Z; material := None; transparency := None |} |}.

(** the capabilities a trace enables, in the order of the calls *)
Fixpoint enabled_caps (t : list call) : list GLenum :=
  match t with
  | [] => []
  | glEnable cap :: rest => cap :: enabled_caps rest
  | _ :: rest => enabled_caps rest
  end.

(** the calls of a trace that deal with the background colour: the
    [glClearColor] calls and the logged errors *)
Fixpoint background_calls (t : list call) : list call :=
  match t with
  | [] => []
  | glClearColor r g b a :: rest => glClearColor r g b a :: background_calls rest
  | log_error msg :: rest => log_error msg :: background_calls rest
  | _ :: rest => background_calls rest
  end.

(** an arcball whose gestures leave it alone, to run the handlers *)
Definition demo_gestures : Gestures :=
  {| Arcball_down := fun b _ => b; Arcball_drag := fun b _ => b |}.

(** a view at rest about a centre away from the origin *)
Definition rest_view : View :=
  {| cull := true; axis := axis_off; fullscreen := false; wireframe := false;
     translation := zeros3; center := Vec3 3 4 5; scale := 2;
     ball := {| orientation := eye4; pivot := (0, 0)%Q; radius := 1 |} |}.

(** the window of the demo viewer *)
Definition demo_window : Window :=
  {| config := {| sample_buffers := Some 1%nat; samples := Some 4%nat;
                  depth_size := Some 24%nat; double_buffer := true |};
     visible := Some true; resizable := true; width := 640; height := 480;
     caption := None; is_fullscreen := false |}.

Definition demo_light (name : string) : Light :=
  {| light_name := name; intensity := 1 |}.

Definition with_lights (ls : list Light) (sc : Scene) : Scene :=
  {| geometry := geometry sc; graph := graph sc; camera := camera sc;
     lights := ls; bounds := bounds sc; scene_scale := scene_scale sc;
     centroid := centroid sc |}.

(** the demo viewer with eight lights at node A *)
Definition lit_viewer : SceneViewer :=
  with_scene (with_lights (repeat (demo_light "A") 8)) demo_viewer.

(** the demo viewer with three lights, the second at no node *)
Definition dim_viewer : SceneViewer :=
  with_scene (with_lights [demo_light "A"; demo_light "nowhere"; demo_light "B"])
             demo_viewer.

(** the demo viewer with a node N without geometry queued after A *)
Definition sparse_viewer : SceneViewer :=
  with_scene (fun sc =>
    {| geometry := geometry sc;
       graph := {| nodes_geometry := ["A"; "N"; "B"; "C"]%string;
                   nodes := <["N"%string := (eye4, None)]> (nodes (graph sc));
                   to_world := to_world (graph sc) |};
       camera := camera sc; lights := lights sc; bounds := bounds sc;
       scene_scale := scene_scale sc; centroid := centroid sc |}) demo_viewer.

(** the demo viewer after two [toggle_axis]: axis mode ['all'] *)
Definition marked_viewer : SceneViewer :=
  snd (toggle_axis (ext := demo_externals)
         (snd (toggle_axis (ext := demo_externals) demo_viewer))).

(** the demo viewer panned and zoomed: its view transform is the pure
    translation by (5000, 10000, 15000) *)
Definition panned_viewer : SceneViewer :=
  with_view (set_translation (Vec3 1 2 3)) demo_viewer.

(** collaborators whose colour conversion refuses its argument *)
Definition strict_externals : Externals :=
  {| hash_bytes := hash_bytes (Externals := demo_externals);
     Arcball_new := Arcball_new (Externals := demo_externals);
     convert_to_vertexlist := convert_to_vertexlist (Externals := demo_externals);
     axis_vertexlist := axis_vertexlist (Externals := demo_externals);
     material_to_texture := material_to_texture (Externals := demo_externals);
     light_to_gl := light_to_gl (Externals := demo_externals);
     to_rgba := fun _ => Raise ValueError;
     config_available := config_available (Externals := demo_externals);
     color_buffer_png := color_buffer_png (Externals := demo_externals) |}.

(** a viewer constructed with a [background] option *)
Definition tinted_viewer : SceneViewer :=
  snd (SceneViewer_new (ext := strict_externals) demo_scene
         {| arg_smooth := true; arg_flags := None; arg_visible := Some true;
            arg_resolution := None; arg_start_loop := false;
            arg_callback := None; arg_callback_period := None;
            arg_caption := None; arg_fixed := None;
            arg_kwargs := {| background := Some [300; 0; 0]%Z |} |}).

(** [finishes m]: a run of [m] returns or raises one of its own errors;
    it does not run out of iterations. *)
Definition finishes {A} (m : M SceneViewer A) : Prop :=
  forall v, fst (m v) <> Raise Diverges.

(** [unchanged proj m]: running [m] leaves the part [proj] of the viewer
    alone, whether it returns or raises. *)
Definition unchanged {X A} (proj : SceneViewer -> X) (m : M SceneViewer A) : Prop :=
  forall v, proj (snd (m v)) = proj v.

(** the calls of a trace that concern the event loop: scheduling the
    periodic timer and entering the loop *)
Fixpoint event_loop_calls (t : list call) : list call :=
  match t with
  | [] => []
  | clock_schedule_interval period :: rest =>
      clock_schedule_interval period :: event_loop_calls rest
  | app_run :: rest => app_run :: event_loop_calls rest
  | _ :: rest => event_loop_calls rest
  end.

(** the buffer flips and the closing of the window in a trace *)
Fixpoint window_calls (t : list call) : list call :=
  match t with
  | [] => []
  | window_flip :: rest => window_flip :: window_calls rest
  | window_close :: rest => window_close :: window_calls rest
  | _ :: rest => window_calls rest
  end.

(** what the viewer holds besides the scene and the trace *)
Definition holdings (v : SceneViewer) :=
  (maps_of v, batch v, view v, _axis v, window v, fixed v, kwargs v).

(** everything of a window but its fullscreen state *)
Definition window_shape (v : SceneViewer) :=
  option_map (fun w => (config w, visible w, resizable w, width w, height w,
                        caption w)) (window v).

(** the two context configurations the constructor asks for *)
Definition antialiased_config : Config :=
  {| sample_buffers := Some 1%nat; samples := Some 4%nat;
     depth_size := Some 24%nat; double_buffer := true |}.

Definition plain_config : Config :=
  {| sample_buffers := None; samples := None; depth_size := None;
     double_buffer := true |}.

(** [tallies m ok]: a run of [m] only appends calls; if it returns, the
    flips and the closing among them are exactly [ok]; if it raises, the
    window was not closed. *)
Definition tallies {A} (m : M SceneViewer A) (ok : list call) : Prop :=
  forall v, exists l,
    trace (snd (m v)) = trace v ++ l /\
    match fst (m v) with
    | Ok _ => window_calls l = ok
    | Raise _ => ~ In window_close l
    end.

(** how often a trace pushes and pops the matrix stack, and how often
    it draws the axis marker *)
Fixpoint matrix_pushes (t : list call) : nat :=
  match t with
  | [] => 0
  | glPushMatrix :: rest => S (matrix_pushes rest)
  | _ :: rest => matrix_pushes rest
  end.

Fixpoint matrix_pops (t : list call) : nat :=
  match t with
  | [] => 0
  | glPopMatrix :: rest => S (matrix_pops rest)
  | _ :: rest => matrix_pops rest
  end.

Fixpoint marker_draws (t : list call) : nat :=
  match t with
  | [] => 0
  | vertex_list_draw _ _ None :: rest => S (marker_draws rest)
  | _ :: rest => marker_draws rest
  end.

(** a node of the graph that carries no geometry *)
Definition node_bare (v : SceneViewer) (node : string) : bool :=
  match nodes (graph (scene v)) !! node with
  | Some (_, None) => true
  | _ => false
  end.

(** every queued node is ready to be drawn or carries no geometry *)
Definition nodes_passable (v : SceneViewer) : bool :=
  forallb (fun node => node_ready v node || node_bare v node)
          (nodes_geometry (graph (scene v))).

Section MoreVocabulary.
Context {ext : Externals}.

(** the body of the loop of [update_lighting] *)
Definition light_step (sc : Scene) (il : nat * Light) : M SceneViewer unit :=
  let lightN := GL_LIGHT (fst il) in
  match nodes (graph sc) !! light_name (snd il) with
  | Some (matrix, _) =>
      let multiargs := light_to_gl (snd il) matrix lightN in
      bind (emit (glEnable lightN)) (fun _ =>
      for_each multiargs (fun a => emit (glLightfv (fst (fst a)) (snd (fst a)) (snd a))))
  | None => raise (KeyError (light_name (snd il)))
  end.

End MoreVocabulary.

(** what the constructor's event-loop set-up issues *)
Definition loop_setup (a : viewer_args) : list call :=
  match arg_callback a with
  | Some _ => [clock_schedule_interval
                 match arg_callback_period a with
                 | None => (1 / 100)%Q
                 | Some p => p
                 end]
  | None => []
  end ++ (if arg_start_loop a then [app_run] else []).

(** one pass over a node pushes once, pops once, and draws the marker
    [per_node] times *)
Definition per_node (v : SceneViewer) : nat :=
  if axis_mode_eqb (axis (view v)) axis_all
  then match _axis v with Some _ => 1 | None => 0 end
  else 0.

(** * Properties *)

(** ** The view transform *)

Section ViewTransform.
Local Open Scope Q_scope.

Lemma block33_set_column3 (m : mat4) (v : vec3) :
  block33 (set_column3 m v) = block33 m.
Proof. destruct m as [[] [] [] []]; reflexivity. Qed.

Lemma column3_set_column3 (m : mat4) (v : vec3) :
  column3 (set_column3 m v) = v.
Proof. destruct m as [[] [] [] []], v; reflexivity. Qed.

Lemma row3_set_column3 (m : mat4) (v : vec3) :
  row3 (set_column3 m v) = row3 m.
Proof. reflexivity. Qed.

(** C1: for every view state, the upper-left 3x3 block of
    [view_to_transform] is the rotation block [R] of the rotation widget's
    matrix, its translation column is
    [center - R . center + translation * scale * 5.0] (the bottom row is
    the widget's), and for the identity rotation and a zero centre the
    translation column is [(tx*s*5, ty*s*5, tz*s*5)]. *)
Theorem view_to_transform_columns (vw : View) :
  let R := block33 (Arcball_matrix (ball vw)) in
  let T := view_to_transform vw in
  block33 T = R /\
  column3 T =
    vec3_add (vec3_sub (center vw) (mat3_dot R (center vw)))
             (vec3_scale (vec3_scale (translation vw) (scale vw)) 5) /\
  row3 T = row3 (Arcball_matrix (ball vw)) /\
  (mat3_equiv R eye3 -> vec3_equiv (center vw) zeros3 ->
   vec3_equiv (column3 T)
     (Vec3 (vx (translation vw) * scale vw * 5)
           (vy (translation vw) * scale vw * 5)
           (vz (translation vw) * scale vw * 5))).
Proof.
  intros R T.
  assert (HR : block33 T = R).
  { unfold T, view_to_transform. now rewrite !block33_set_column3. }
  assert (HC : column3 T =
    vec3_add (vec3_sub (center vw) (mat3_dot R (center vw)))
             (vec3_scale (vec3_scale (translation vw) (scale vw)) 5)).
  { unfold T, view_to_transform.
    now rewrite !column3_set_column3, !block33_set_column3. }
  split; [exact HR | split; [exact HC | split; [reflexivity |]]].
  intros (Hx & Hy & Hz) (Cx & Cy & Cz); rewrite HC; clear HR HC T.
  clearbody R.
  destruct Hx as (X0 & X1 & X2), Hy as (Y0 & Y1 & Y2), Hz as (Z0 & Z1 & Z2).
  unfold vec3_equiv.
  cbn [vec3_add vec3_sub vec3_scale mat3_dot dot3 vx vy vz] in *.
  cbn [zeros3 eye3 b0 b1 b2 vx vy vz] in *.
  unfold dot3.
  split; [| split].
  - rewrite X0, X1, X2, Cx, Cy, Cz. ring.
  - rewrite Y0, Y1, Y2, Cx, Cy, Cz. ring.
  - rewrite Z0, Z1, Z2, Cx, Cy, Cz. ring.
Qed.

(** ** The inverse of the view transform *)

Lemma mat4_dot_adjugate (m : mat4) :
  mat4_equiv (mat4_dot m (adjugate m))
    (Mat4 (Vec4 (det4 m) 0 0 0) (Vec4 0 (det4 m) 0 0)
          (Vec4 0 0 (det4 m) 0) (Vec4 0 0 0 (det4 m))).
Proof.
  destruct m as [[a00 a01 a02 a03] [a10 a11 a12 a13]
                 [a20 a21 a22 a23] [a30 a31 a32 a33]].
  unfold mat4_equiv, vec4_equiv, mat4_dot, adjugate, det4, minors_of, dot4,
    col0, col1, col2, col3.
  cbn [row0 row1 row2 row3 e0 e1 e2 e3 s0 s1 s2 s3 s4 s5 c0 c1 c2 c3 c4 c5].
  repeat split; ring.
Qed.

(** a row of [m . (a / d)] from the same row of [m . a] *)
Lemma dot4_scaled (r c : vec4) (d x : Q) :
  ~ d == 0 -> dot4 r c == x * d -> dot4 r (vec4_scale c (/ d)) == x.
Proof.
  intros Hd H. unfold dot4, vec4_scale in *.
  cbn [e0 e1 e2 e3] in *.
  transitivity ((e0 r * e0 c + e1 r * e1 c + e2 r * e2 c + e3 r * e3 c) * / d);
    [ring |].
  rewrite H. field. exact Hd.
Qed.

(** [np.linalg.inv] returns a right inverse *)
Lemma np_linalg_inv_right (m w : mat4) :
  np_linalg_inv m = Ok w -> mat4_equiv (mat4_dot m w) eye4.
Proof.
  unfold np_linalg_inv.
  destruct (Qeq_bool (det4 m) 0) eqn:Hd; [discriminate |].
  intros [= <-]. apply Qeq_bool_neq in Hd.
  pose proof (mat4_dot_adjugate m) as Hadj.
  set (d := det4 m) in *. set (a := adjugate m) in *.
  destruct Hadj as ((H00 & H01 & H02 & H03) & (H10 & H11 & H12 & H13) &
                    (H20 & H21 & H22 & H23) & (H30 & H31 & H32 & H33)).
  unfold mat4_dot in *.
  cbn [row0 row1 row2 row3 e0 e1 e2 e3] in *.
  unfold mat4_equiv, vec4_equiv, eye4.
  cbn [row0 row1 row2 row3 e0 e1 e2 e3].
  unfold col0, col1, col2, col3, vec4_scale in *.
  cbn [row0 row1 row2 row3 e0 e1 e2 e3] in *.
  repeat split.
  all: match goal with
       | |- dot4 ?r (Vec4 (?x0 * _) (?x1 * _) (?x2 * _) (?x3 * _)) == _ =>
           change (Vec4 (x0 * / d) (x1 * / d) (x2 * / d) (x3 * / d))
             with (vec4_scale (Vec4 x0 x1 x2 x3) (/ d))
       end.
  all: apply dot4_scaled; [exact Hd |].
  all: first [ rewrite H00 | rewrite H01 | rewrite H02 | rewrite H03
             | rewrite H10 | rewrite H11 | rewrite H12 | rewrite H13
             | rewrite H20 | rewrite H21 | rewrite H22 | rewrite H23
             | rewrite H30 | rewrite H31 | rewrite H32 | rewrite H33 ]; ring.
Qed.

(** hence multiplying by the view undoes the inverse in front of any
    transform *)
Lemma view_cancels_inverse (m w t : mat4) :
  np_linalg_inv m = Ok w -> mat4_equiv (mat4_dot m (mat4_dot w t)) t.
Proof.
  intros Hinv. apply np_linalg_inv_right in Hinv.
  destruct m as [[m00 m01 m02 m03] [m10 m11 m12 m13]
                 [m20 m21 m22 m23] [m30 m31 m32 m33]].
  destruct w as [[w00 w01 w02 w03] [w10 w11 w12 w13]
                 [w20 w21 w22 w23] [w30 w31 w32 w33]].
  destruct t as [[t00 t01 t02 t03] [t10 t11 t12 t13]
                 [t20 t21 t22 t23] [t30 t31 t32 t33]].
  unfold mat4_equiv, vec4_equiv, mat4_dot, dot4, eye4 in *.
  cbn [row0 row1 row2 row3 e0 e1 e2 e3 col0 col1 col2 col3] in *.
  destruct Hinv as ((H00 & H01 & H02 & H03) & (H10 & H11 & H12 & H13) &
                    (H20 & H21 & H22 & H23) & (H30 & H31 & H32 & H33)).
  assert (Hrow : forall v0 v1 v2 v3 x0 x1 x2 x3 u0 u1 u2 u3 : Q,
    v0 * w00 + v1 * w10 + v2 * w20 + v3 * w30 == x0 ->
    v0 * w01 + v1 * w11 + v2 * w21 + v3 * w31 == x1 ->
    v0 * w02 + v1 * w12 + v2 * w22 + v3 * w32 == x2 ->
    v0 * w03 + v1 * w13 + v2 * w23 + v3 * w33 == x3 ->
    v0 * (w00 * u0 + w01 * u1 + w02 * u2 + w03 * u3) +
    v1 * (w10 * u0 + w11 * u1 + w12 * u2 + w13 * u3) +
    v2 * (w20 * u0 + w21 * u1 + w22 * u2 + w23 * u3) +
    v3 * (w30 * u0 + w31 * u1 + w32 * u2 + w33 * u3)
    == x0 * u0 + x1 * u1 + x2 * u2 + x3 * u3).
  { intros * E0 E1 E2 E3. rewrite <- E0, <- E1, <- E2, <- E3. ring. }
  repeat split.
  all: first [ rewrite (Hrow _ _ _ _ _ _ _ _ _ _ _ _ H00 H01 H02 H03)
             | rewrite (Hrow _ _ _ _ _ _ _ _ _ _ _ _ H10 H11 H12 H13)
             | rewrite (Hrow _ _ _ _ _ _ _ _ _ _ _ _ H20 H21 H22 H23)
             | rewrite (Hrow _ _ _ _ _ _ _ _ _ _ _ _ H30 H31 H32 H33) ];
    ring.
Qed.

(** the inverse of a pure translation is the opposite translation *)
Lemma inverse_of_translation (m w : mat4) (t : vec3) :
  mat4_equiv m (translation_matrix t) ->
  np_linalg_inv m = Ok w ->
  mat4_equiv w (translation_matrix (vec3_sub zeros3 t)).
Proof.
  intros Hm Hinv. apply np_linalg_inv_right in Hinv.
  destruct m as [[m00 m01 m02 m03] [m10 m11 m12 m13]
                 [m20 m21 m22 m23] [m30 m31 m32 m33]].
  destruct w as [[w00 w01 w02 w03] [w10 w11 w12 w13]
                 [w20 w21 w22 w23] [w30 w31 w32 w33]].
  destruct t as [tx ty tz].
  unfold mat4_equiv, vec4_equiv, mat4_dot, dot4, translation_matrix,
    set_column3, vec3_sub, zeros3, eye4 in *.
  cbn [row0 row1 row2 row3 e0 e1 e2 e3 col0 col1 col2 col3 vx vy vz] in *.
  destruct Hm as ((M00 & M01 & M02 & M03) & (M10 & M11 & M12 & M13) &
                  (M20 & M21 & M22 & M23) & (M30 & M31 & M32 & M33)).
  destruct Hinv as ((H00 & H01 & H02 & H03) & (H10 & H11 & H12 & H13) &
                    (H20 & H21 & H22 & H23) & (H30 & H31 & H32 & H33)).
  rewrite M00, M01, M02, M03 in H00, H01, H02, H03.
  rewrite M10, M11, M12, M13 in H10, H11, H12, H13.
  rewrite M20, M21, M22, M23 in H20, H21, H22, H23.
  rewrite M30, M31, M32, M33 in H30, H31, H32, H33.
  clear M00 M01 M02 M03 M10 M11 M12 M13 M20 M21 M22 M23 M30 M31 M32 M33.
  assert (W30 : w30 == 0) by (rewrite <- H30; ring).
  assert (W31 : w31 == 0) by (rewrite <- H31; ring).
  assert (W32 : w32 == 0) by (rewrite <- H32; ring).
  assert (W33 : w33 == 1) by (rewrite <- H33; ring).
  rewrite W30 in H00, H10, H20. rewrite W31 in H01, H11, H21.
  rewrite W32 in H02, H12, H22. rewrite W33 in H03, H13, H23.
  repeat split; trivial.
  - rewrite <- H00. ring.
  - rewrite <- H01. ring.
  - rewrite <- H02. ring.
  - transitivity (1 * w03 + 0 * w13 + 0 * w23 + tx * 1 - tx); [ring |].
    rewrite H03. ring.
  - rewrite <- H10. ring.
  - rewrite <- H11. ring.
  - rewrite <- H12. ring.
  - transitivity (0 * w03 + 1 * w13 + 0 * w23 + ty * 1 - ty); [ring |].
    rewrite H13. ring.
  - rewrite <- H20. ring.
  - rewrite <- H21. ring.
  - rewrite <- H22. ring.
  - transitivity (0 * w03 + 0 * w13 + 1 * w23 + tz * 1 - tz); [ring |].
    rewrite H23. ring.
Qed.

Lemma mat4_dot_equiv_l (a a' b : mat4) :
  mat4_equiv a a' -> mat4_equiv (mat4_dot a b) (mat4_dot a' b).
Proof.
  destruct a as [[a00 a01 a02 a03] [a10 a11 a12 a13]
                 [a20 a21 a22 a23] [a30 a31 a32 a33]].
  destruct a' as [[c00 c01 c02 c03] [c10 c11 c12 c13]
                  [c20 c21 c22 c23] [c30 c31 c32 c33]].
  unfold mat4_equiv, vec4_equiv, mat4_dot, dot4.
  cbn [row0 row1 row2 row3 e0 e1 e2 e3].
  intros ((E00 & E01 & E02 & E03) & (E10 & E11 & E12 & E13) &
          (E20 & E21 & E22 & E23) & (E30 & E31 & E32 & E33)).
  repeat split.
  1-4: rewrite E00, E01, E02, E03; reflexivity.
  1-4: rewrite E10, E11, E12, E13; reflexivity.
  1-4: rewrite E20, E21, E22, E23; reflexivity.
  all: rewrite E30, E31, E32, E33; reflexivity.
Qed.

(** ** The view transform at rest and about its centre *)

Lemma view_to_transform_block (vw : View) :
  block33 (view_to_transform vw) = block33 (Arcball_matrix (ball vw)).
Proof. unfold view_to_transform. now rewrite !block33_set_column3. Qed.

Lemma view_to_transform_column (vw : View) :
  column3 (view_to_transform vw) =
    vec3_add (vec3_sub (center vw)
                (mat3_dot (block33 (Arcball_matrix (ball vw))) (center vw)))
             (vec3_scale (vec3_scale (translation vw) (scale vw)) 5).
Proof.
  unfold view_to_transform.
  now rewrite !column3_set_column3, !block33_set_column3.
Qed.

Lemma view_to_transform_row3 (vw : View) :
  row3 (view_to_transform vw) = row3 (Arcball_matrix (ball vw)).
Proof. reflexivity. Qed.

Lemma mat4_equiv_parts (a b : mat4) :
  mat3_equiv (block33 a) (block33 b) ->
  vec3_equiv (column3 a) (column3 b) ->
  vec4_equiv (row3 a) (row3 b) ->
  mat4_equiv a b.
Proof.
  destruct a as [[a00 a01 a02 a03] [a10 a11 a12 a13] [a20 a21 a22 a23]
    [a30 a31 a32 a33]], b as [[b00 b01 b02 b03] [b10 b11 b12 b13]
    [b20 b21 b22 b23] [b30 b31 b32 b33]].
  unfold mat4_equiv, mat3_equiv, vec4_equiv, vec3_equiv, block33, column3.
  cbn [row0 row1 row2 row3 e0 e1 e2 e3 b0 b1 b2 vx vy vz].
  intuition.
Qed.

Lemma mat4_equiv_block (a b : mat4) :
  mat4_equiv a b -> mat3_equiv (block33 a) (block33 b).
Proof.
  destruct a as [[a00 a01 a02 a03] [a10 a11 a12 a13] [a20 a21 a22 a23]
    [a30 a31 a32 a33]], b as [[b00 b01 b02 b03] [b10 b11 b12 b13]
    [b20 b21 b22 b23] [b30 b31 b32 b33]].
  unfold mat4_equiv, mat3_equiv, vec4_equiv, vec3_equiv, block33.
  cbn [row0 row1 row2 row3 e0 e1 e2 e3 b0 b1 b2 vx vy vz].
  intuition.
Qed.

(** X1: with the rotation widget at the identity and no pan or zoom, the
    view transform is the identity matrix, whatever the centre of
    rotation and the scale are. *)
Theorem view_to_transform_at_rest (vw : View) :
  mat4_equiv (Arcball_matrix (ball vw)) eye4 ->
  vec3_equiv (translation vw) zeros3 ->
  mat4_equiv (view_to_transform vw) eye4.
Proof.
  intros Hball Hpan.
  apply mat4_equiv_parts.
  - rewrite view_to_transform_block. now apply mat4_equiv_block.
  - rewrite view_to_transform_column.
    apply mat4_equiv_block in Hball.
    destruct (block33 (Arcball_matrix (ball vw))) as [[r00 r01 r02]
      [r10 r11 r12] [r20 r21 r22]].
    destruct (center vw) as [cx cy cz], (translation vw) as [tx ty tz].
    destruct Hball as ((X0 & X1 & X2) & (Y0 & Y1 & Y2) & (Z0 & Z1 & Z2)).
    destruct Hpan as (Px & Py & Pz).
    unfold vec3_equiv, vec3_add, vec3_sub, vec3_scale, mat3_dot, dot3, column3,
      block33, eye4, zeros3 in *.
    cbn [row0 row1 row2 row3 e0 e1 e2 e3 b0 b1 b2 vx vy vz] in *.
    split; [| split].
    + rewrite X0, X1, X2, Px. ring.
    + rewrite Y0, Y1, Y2, Py. ring.
    + rewrite Z0, Z1, Z2, Pz. ring.
  - rewrite view_to_transform_row3. apply Hball.
Qed.

(** X2: the view transform rotates about the centre: it takes the centre
    to the centre moved by the pan/zoom offset [translation * scale * 5],
    whatever the rotation is. *)
Theorem view_to_transform_fixes_center (vw : View) :
  vec3_equiv
    (transform_point (view_to_transform vw) (center vw))
    (vec3_add (center vw) (vec3_scale (vec3_scale (translation vw) (scale vw)) 5)).
Proof.
  unfold transform_point.
  rewrite view_to_transform_block, view_to_transform_column.
  destruct (block33 (Arcball_matrix (ball vw))) as [[r00 r01 r02]
    [r10 r11 r12] [r20 r21 r22]].
  destruct (center vw) as [cx cy cz], (translation vw) as [tx ty tz].
  unfold vec3_equiv, vec3_add, vec3_sub, vec3_scale, mat3_dot, dot3.
  cbn [b0 b1 b2 vx vy vz].
  split; [| split]; ring.
Qed.

End ViewTransform.

Section Properties.
Context {ext : Externals}.

(** ** The geometry fingerprint *)

(** C9: for a geometry with neither an [md5] nor a [tostring] attribute,
    [geometry_hash] raises the unbound-local error for [md5], with or
    without a [visual] attribute. *)
Theorem geometry_hash_unbound_md5 (geometry : Geometry) :
  md5 geometry = None ->
  tostring geometry = None ->
  geometry_hash geometry = Raise (UnboundLocalError "md5").
Proof.
  intros Hmd5 Hraw. unfold geometry_hash. rewrite Hmd5, Hraw.
  destruct (visual geometry); reflexivity.
Qed.

(** ** The axis marker *)

Lemma update_flags_axis_on (v : SceneViewer) (win : Window) (args : vertexlist_args) :
  window v = Some win ->
  axis_truthy (axis (view v)) = true ->
  _axis v = None ->
  axis_vertexlist (scene_scale (scene v) / 100) = Ok args ->
  fst (update_flags v) = Ok tt /\
  view (snd (update_flags v)) = view v /\
  is_Some (window (snd (update_flags v))) /\
  scene (snd (update_flags v)) = scene v /\
  _axis (snd (update_flags v)) =
    Some {| list_id := created (batch v); list_args := args |}.
Proof.
  intros Hwin Hax Hmark Hext.
  unfold update_flags, bind, gets, set_fullscreen, emit, modify, lift,
    batch_add_indexed, ret.
  destruct (wireframe (view v)), (cull (view v)); cbn; rewrite Hwin; cbn;
    rewrite Hax, Hmark; cbn; rewrite Hext; cbn; eauto 10.
Qed.

Lemma update_flags_axis_kept (v : SceneViewer) (win : Window) (l : VertexList) :
  window v = Some win ->
  axis_truthy (axis (view v)) = true ->
  _axis v = Some l ->
  fst (update_flags v) = Ok tt /\
  view (snd (update_flags v)) = view v /\
  is_Some (window (snd (update_flags v))) /\
  scene (snd (update_flags v)) = scene v /\
  _axis (snd (update_flags v)) = Some l.
Proof.
  intros Hwin Hax Hmark.
  unfold update_flags, bind, gets, set_fullscreen, emit, modify, ret.
  destruct (wireframe (view v)), (cull (view v)); cbn; rewrite Hwin; cbn;
    rewrite Hax, Hmark; cbn; eauto 10.
Qed.

Lemma update_flags_axis_off (v : SceneViewer) (win : Window) (l : VertexList) :
  window v = Some win ->
  axis_truthy (axis (view v)) = false ->
  _axis v = Some l ->
  fst (update_flags v) = Ok tt /\
  view (snd (update_flags v)) = view v /\
  is_Some (window (snd (update_flags v))) /\
  scene (snd (update_flags v)) = scene v /\
  _axis (snd (update_flags v)) = None.
Proof.
  intros Hwin Hax Hmark.
  unfold update_flags, bind, gets, set_fullscreen, emit, modify, ret,
    vertex_list_delete_from_batch.
  destruct (wireframe (view v)), (cull (view v)); cbn; rewrite Hwin; cbn;
    rewrite Hax, Hmark; cbn; eauto 10.
Qed.

(** one [toggle_axis] is the assignment of the next mode followed by
    [update_flags] *)
Lemma toggle_axis_step (v : SceneViewer) :
  let next := match axis (view v) with
              | axis_off => axis_world
              | axis_world => axis_all
              | axis_all => axis_off
              end in
  toggle_axis v = update_flags (with_view (set_axis next) v).
Proof.
  unfold toggle_axis, bind, gets, modify.
  destruct (axis (view v)); reflexivity.
Qed.

(** C6: from the default state (axis mode off, no axis vertex list) of a
    viewer whose window exists, with the axis mesh available from the
    rendering collaborator, three [toggle_axis] calls go off -> world ->
    all -> off without raising; the axis vertex list is present after
    the first and the second call and absent after the third. *)
Theorem toggle_axis_cycle (v : SceneViewer) (args : vertexlist_args) :
  axis (view v) = axis_off ->
  _axis v = None ->
  is_Some (window v) ->
  axis_vertexlist (scene_scale (scene v) / 100) = Ok args ->
  let first := toggle_axis v in
  let second := toggle_axis (snd first) in
  let third := toggle_axis (snd second) in
  (fst first = Ok tt /\ axis (view (snd first)) = axis_world /\
   is_Some (_axis (snd first))) /\
  (fst second = Ok tt /\ axis (view (snd second)) = axis_all /\
   is_Some (_axis (snd second))) /\
  (fst third = Ok tt /\ axis (view (snd third)) = axis_off /\
   _axis (snd third) = None).
Proof.
  intros Hoff Hnone [win Hwin] Hext first second third.
  (* first call *)
  assert (S1 : first = update_flags (with_view (set_axis axis_world) v)).
  { unfold first. rewrite toggle_axis_step, Hoff. reflexivity. }
  destruct (update_flags_axis_on (with_view (set_axis axis_world) v) win args)
    as (R1 & V1 & [win1 W1] & C1 & A1); trivial.
  rewrite <- S1 in R1, V1, W1, C1, A1.
  (* second call *)
  assert (S2 : second = update_flags (with_view (set_axis axis_all) (snd first))).
  { unfold second. rewrite toggle_axis_step, V1. reflexivity. }
  destruct (update_flags_axis_kept (with_view (set_axis axis_all) (snd first))
              win1 _ W1 eq_refl A1) as (R2 & V2 & [win2 W2] & C2 & A2).
  rewrite <- S2 in R2, V2, W2, C2, A2.
  (* third call *)
  assert (S3 : third = update_flags (with_view (set_axis axis_off) (snd second))).
  { unfold third. rewrite toggle_axis_step, V2. reflexivity. }
  destruct (update_flags_axis_off (with_view (set_axis axis_off) (snd second))
              win2 _ W2 eq_refl A2) as (R3 & V3 & _ & _ & A3).
  rewrite <- S3 in R3, V3, A3.
  assert (P1 : is_Some (_axis (snd first))) by (rewrite A1; eauto).
  assert (P2 : is_Some (_axis (snd second))) by (rewrite A2; eauto).
  split; [| split]; (split; [| split]); trivial.
  - now rewrite V1.
  - now rewrite V2.
  - now rewrite V3.
Qed.

(** ** Resetting the view *)

(** C8: [reset_view] never raises, whatever the flags and the state of
    the viewer; and when placing the rotation widget fails (the window
    has no size yet) the view is the default one: translation zero,
    centre the scene centroid, scale the scene scale, cull on, axis off,
    fullscreen off, wireframe off, with a fresh widget. *)
Theorem reset_view_never_raises (flags : option (list flag)) (v : SceneViewer) :
  fst (reset_view flags v) = Ok tt /\
  (window v = None ->
   view (snd (reset_view flags v)) =
     {| cull := true; axis := axis_off; fullscreen := false;
        wireframe := false; translation := zeros3;
        center := centroid (scene v); scale := scene_scale (scene v);
        ball := Arcball_new |}).
Proof.
  split.
  - reflexivity.
  - intros Hwin.
    unfold reset_view, try_pass, window_size, bind, gets, modify, raise.
    cbn. rewrite Hwin. reflexivity.
Qed.

(** without flags the seven fields are the defaults also when the
    placement succeeds *)
Lemma reset_view_defaults (v : SceneViewer) :
  let vw := view (snd (reset_view None v)) in
  cull vw = true /\ axis vw = axis_off /\ fullscreen vw = false /\
  wireframe vw = false /\ translation vw = zeros3 /\
  center vw = centroid (scene v) /\ scale vw = scene_scale (scene v).
Proof.
  unfold reset_view, try_pass, window_size, bind, gets, modify, raise, ret.
  cbn. destruct (window v); cbn; repeat split.
Qed.

(** ** The calls a step adds to the trace *)

Lemma adds_ret {A} (a : A) (P : list call -> Prop) : P [] -> adds (ret a) P.
Proof. intros H v. exists []. now rewrite app_nil_r. Qed.

Lemma adds_raise {A} e (P : list call -> Prop) : P [] -> adds (@raise _ A e) P.
Proof. intros H v. exists []. now rewrite app_nil_r. Qed.

Lemma adds_gets {A} (f : SceneViewer -> A) (P : list call -> Prop) :
  P [] -> adds (gets f) P.
Proof. intros H v. exists []. now rewrite app_nil_r. Qed.

Lemma adds_lift {A} (o : outcome A) (P : list call -> Prop) :
  P [] -> adds (lift o) P.
Proof. intros H v. exists []. now rewrite app_nil_r. Qed.

Lemma adds_emit c (P : list call -> Prop) : P [c] -> adds (emit c) P.
Proof. intros H v. exists [c]. now split. Qed.

Lemma adds_modify (f : SceneViewer -> SceneViewer) (P : list call -> Prop) :
  (forall v, trace (f v) = trace v) -> P [] -> adds (modify f) P.
Proof. intros Hf H v. exists []. cbn. now rewrite Hf, app_nil_r. Qed.

Lemma adds_bind {A B} (m : M SceneViewer A) (k : A -> M SceneViewer B)
    (P Q R : list call -> Prop) :
  adds m P -> (forall a, adds (k a) Q) ->
  (forall l, P l -> R l) ->
  (forall l1 l2, P l1 -> Q l2 -> R (l1 ++ l2)) ->
  adds (bind m k) R.
Proof.
  intros Hm Hk HP HPQ v. unfold bind.
  destruct (Hm v) as (l1 & E1 & P1).
  destruct (m v) as [[a | e] v1]; cbn in *.
  - destruct (Hk a v1) as (l2 & E2 & Q2).
    exists (l1 ++ l2). rewrite E2, E1, app_assoc. auto.
  - exists l1. auto.
Qed.

Lemma adds_seq {A B} (m : M SceneViewer A) (k : A -> M SceneViewer B)
    (P : list call -> Prop) :
  closed P -> adds m P -> (forall a, adds (k a) P) -> adds (bind m k) P.
Proof. intros [H0 H2] Hm Hk. eapply adds_bind; eauto. Qed.

Lemma adds_for_each {A} (xs : list A) (body : A -> M SceneViewer unit)
    (P : list call -> Prop) :
  closed P -> (forall x, adds (body x) P) -> adds (for_each xs body) P.
Proof.
  intros HP Hbody. induction xs as [| x xs IH]; cbn [for_each].
  - apply adds_ret, HP.
  - apply adds_seq; auto.
Qed.

Lemma adds_try_pass (body : M SceneViewer unit) (P : list call -> Prop) :
  adds body P -> adds (try_pass body) P.
Proof. intros H v. exact (H v). Qed.

Lemma adds_try_except {A} (body handler : M SceneViewer A) caught
    (P : list call -> Prop) :
  closed P -> adds body P -> adds handler P ->
  adds (try_except body caught handler) P.
Proof.
  intros [H0 H2] Hb Hh v. unfold try_except.
  destruct (Hb v) as (l1 & E1 & P1).
  destruct (body v) as [[a | e] v1]; cbn in *; eauto.
  destruct (caught e); cbn; eauto.
  destruct (Hh v1) as (l2 & E2 & P2).
  exists (l1 ++ l2). rewrite E2, E1, app_assoc. auto.
Qed.

(** ** Pipeline initialisation: the depth range *)

Lemma depth_range_calls_app (l1 l2 : list call) :
  depth_range_calls (l1 ++ l2) = depth_range_calls l1 ++ depth_range_calls l2.
Proof.
  induction l1 as [| c l1 IH]; [reflexivity |].
  destruct c; cbn; now rewrite ?IH.
Qed.

Lemma closed_no_depth_range : closed (fun l => depth_range_calls l = []).
Proof.
  split; [reflexivity |].
  intros l1 l2 H1 H2. now rewrite depth_range_calls_app, H1, H2.
Qed.

Ltac adds_step closedness :=
  lazymatch goal with
  | |- adds (ret _) _ => apply adds_ret; reflexivity
  | |- adds (raise _) _ => apply adds_raise; reflexivity
  | |- adds (gets _) _ => apply adds_gets; reflexivity
  | |- adds (lift _) _ => apply adds_lift; reflexivity
  | |- adds (emit _) _ => apply adds_emit; reflexivity
  | |- adds (modify _) _ =>
      apply adds_modify; [intros; reflexivity | reflexivity]
  | |- adds (for_each _ _) _ =>
      apply adds_for_each; [exact closedness | intros]
  | |- adds (bind _ _) _ => apply adds_seq; [exact closedness | | intros]
  | |- adds (let _ := _ in _) _ => cbv zeta
  | |- adds (match ?x with _ => _ end) _ => destruct x
  end.

Ltac adds_auto closedness := repeat adds_step closedness.

Lemma update_lighting_no_depth_range :
  adds update_lighting (fun l => depth_range_calls l = []).
Proof. unfold update_lighting. adds_auto closed_no_depth_range. Qed.

Lemma init_gl_calls (v : SceneViewer) :
  exists issued,
    trace (snd (init_gl v)) = trace v ++ issued /\
    depth_range_calls issued = [(0%R, max_depth (bounds (scene v)))].
Proof.
  unfold init_gl.
  set (tail := fun colour : Q * Q * Q * Q => _).
  assert (Htail : forall colour w, scene w = scene v ->
    exists issued, trace (snd (tail colour w)) = trace w ++ issued /\
      depth_range_calls issued = [(0%R, max_depth (bounds (scene v)))]).
  { intros [[[r g] b] a] w Hw. unfold tail.
    unfold bind at 1. cbn [emit modify fst snd].
    unfold bind at 1. cbn [gets].
    unfold bind at 1. cbn [emit modify].
    match goal with
    | |- context [bind ?m ?k] =>
        assert (Hrest : adds (bind m k) (fun l => depth_range_calls l = []))
    end.
    { adds_auto closed_no_depth_range.
      apply update_lighting_no_depth_range. }
    match type of Hrest with
    | adds ?rest _ => destruct (Hrest
        (with_trace (fun t => t ++ [glDepthRange 0 (max_depth (bounds (scene
           (with_trace (fun t => t ++ [glClearColor r g b a]) w))))])
           (with_trace (fun t => t ++ [glClearColor r g b a]) w)))
        as (l & El & Pl)
    end.
    eexists. split.
    - rewrite El. cbn [trace with_trace]. rewrite <- !app_assoc. reflexivity.
    - cbn [app]. cbn [depth_range_calls]. rewrite Pl. cbn [scene with_trace].
      now rewrite Hw. }
  unfold bind at 1. cbn [gets].
  destruct (background (kwargs v)) as [given |].
  - destruct (to_rgba given) as [[[[r g] b] a] | e].
    + unfold bind at 1. cbn [ret]. now apply Htail.
    + unfold bind at 1. unfold bind at 1. cbn [emit modify ret].
      destruct (Htail (99 # 100, 99 # 100, 99 # 100, 1%Q)
                  (with_trace (fun t => t ++ [log_error "background color set but wrong!"]) v)
                  eq_refl) as (l & El & Pl).
      eexists. split.
      * rewrite El. cbn [trace with_trace]. rewrite <- app_assoc. reflexivity.
      * cbn [app depth_range_calls]. exact Pl.
  - unfold bind at 1. cbn [ret]. now apply Htail.
Qed.

(** C5 (amended): [init_gl] issues exactly one [glDepthRange] call, with
    near bound 0 and far bound [max(m, 500)], where [m] is the square
    root of the sum of two squares: the largest absolute coordinate of
    the lower corner of the scene bounds and the largest absolute
    coordinate of the upper corner.  Below 500 the far bound is exactly
    500, from 500 on it is [m] itself, so a magnitude of 1200 gives 1200. *)
Theorem init_gl_depth_range (v : SceneViewer) :
  let b := bounds (scene v) in
  let magnitude :=
    sqrt (Q2R (row_abs_max (fst b) ^ 2 + row_abs_max (snd b) ^ 2)%Q) in
  exists issued,
    trace (snd (init_gl v)) = trace v ++ issued /\
    depth_range_calls issued = [(0%R, max_depth b)] /\
    max_depth b = Rmax magnitude 500 /\
    (magnitude < 500 -> max_depth b = 500)%R /\
    (500 <= magnitude -> max_depth b = magnitude)%R /\
    (magnitude = 1200 -> max_depth b = 1200)%R.
Proof.
  intros b magnitude.
  destruct (init_gl_calls v) as (issued & Etrace & Ecalls).
  exists issued. split; [exact Etrace |]. split; [exact Ecalls |].
  assert (Hfar : max_depth b = Rmax magnitude 500) by reflexivity.
  split; [exact Hfar |]. rewrite Hfar. repeat split.
  - intros Hlt. apply Rmax_right. lra.
  - intros Hge. apply Rmax_left. lra.
  - intros Heq. rewrite Heq. apply Rmax_left. lra.
Qed.

(** ** The per-geometry dicts *)

Lemma keeps_ret {A} (a : A) : keeps (ret a).
Proof. intros v. reflexivity. Qed.

Lemma keeps_raise {A} e : keeps (@raise _ A e).
Proof. intros v. reflexivity. Qed.

Lemma keeps_gets {A} (f : SceneViewer -> A) : keeps (gets f).
Proof. intros v. reflexivity. Qed.

Lemma keeps_lift {A} (o : outcome A) : keeps (lift o).
Proof. intros v. reflexivity. Qed.

Lemma keeps_modify (f : SceneViewer -> SceneViewer) :
  (forall v, maps_of (f v) = maps_of v) -> keeps (modify f).
Proof. intros Hf v. apply Hf. Qed.

Lemma keeps_emit c : keeps (emit c).
Proof. intros v. reflexivity. Qed.

Lemma keeps_batch_add_indexed args : keeps (batch_add_indexed args).
Proof. intros v. reflexivity. Qed.

Lemma keeps_bind {A B} (m : M SceneViewer A) (k : A -> M SceneViewer B) :
  keeps m -> (forall a, keeps (k a)) -> keeps (bind m k).
Proof.
  intros Hm Hk v. unfold bind. specialize (Hm v).
  destruct (m v) as [[a | e] v1]; cbn in *; [| exact Hm].
  now rewrite Hk.
Qed.

Lemma keeps_for_each {A} (xs : list A) (body : A -> M SceneViewer unit) :
  (forall x, keeps (body x)) -> keeps (for_each xs body).
Proof.
  intros Hbody. induction xs as [| x xs IH]; cbn [for_each].
  - apply keeps_ret.
  - apply keeps_bind; auto.
Qed.

Lemma keeps_try_pass (body : M SceneViewer unit) :
  keeps body -> keeps (try_pass body).
Proof. intros H v. exact (H v). Qed.

Lemma keeps_try_except {A} (body handler : M SceneViewer A) caught :
  keeps body -> keeps handler -> keeps (try_except body caught handler).
Proof.
  intros Hb Hh v. unfold try_except. specialize (Hb v).
  destruct (body v) as [[a | e] v1]; cbn in *; [exact Hb |].
  destruct (caught e); cbn; [| exact Hb].
  now rewrite Hh.
Qed.

Ltac keeps_step :=
  lazymatch goal with
  | |- keeps (ret _) => apply keeps_ret
  | |- keeps (raise _) => apply keeps_raise
  | |- keeps (gets _) => apply keeps_gets
  | |- keeps (lift _) => apply keeps_lift
  | |- keeps (emit _) => apply keeps_emit
  | |- keeps (batch_add_indexed _) => apply keeps_batch_add_indexed
  | |- keeps (modify _) => apply keeps_modify; intros; reflexivity
  | |- keeps (for_each _ _) => apply keeps_for_each; intros
  | |- keeps (try_pass _) => apply keeps_try_pass
  | |- keeps (try_except _ _ _) => apply keeps_try_except
  | |- keeps (bind _ _) => apply keeps_bind; [| intros]
  | |- keeps (let _ := _ in _) => cbv zeta
  | |- keeps (match ?x with _ => _ end) => destruct x
  end.

Ltac keeps_auto := repeat keeps_step.

Lemma keeps_update_flags : keeps update_flags.
Proof.
  unfold update_flags, set_fullscreen, vertex_list_delete_from_batch.
  keeps_auto.
Qed.

Lemma keeps_reset_view flags : keeps (reset_view flags).
Proof.
  unfold reset_view, window_size. keeps_auto.
  all: apply keeps_update_flags.
Qed.

Lemma keeps_init_gl : keeps init_gl.
Proof. unfold init_gl, update_lighting. keeps_auto. Qed.

Lemma keeps_set_size w h : keeps (set_size w h).
Proof. unfold set_size. keeps_auto. Qed.

Lemma keeps_Window_init conf vis w h cap : keeps (Window_init conf vis w h cap).
Proof. unfold Window_init. keeps_auto. Qed.

Lemma ensures_bind {A B} (P Q R : SceneViewer -> Prop)
    (m : M SceneViewer A) (k : A -> M SceneViewer B) :
  ensures P m Q -> (forall a, ensures Q (k a) R) -> ensures P (bind m k) R.
Proof.
  intros Hm Hk v b v' HP. unfold bind.
  destruct (m v) as [[a | e] v1] eqn:E; [| discriminate].
  intros Hrun. exact (Hk a v1 b v' (Hm v a v1 HP E) Hrun).
Qed.

Lemma ensures_for_each {A} (I : SceneViewer -> Prop) (xs : list A)
    (body : A -> M SceneViewer unit) :
  (forall x, In x xs -> ensures I (body x) I) -> ensures I (for_each xs body) I.
Proof.
  induction xs as [| x xs IH]; intros Hbody; cbn [for_each].
  - intros v a v' HI [= _ <-]. exact HI.
  - eapply ensures_bind.
    + apply Hbody. now left.
    + intros _. apply IH. intros y Hy. apply Hbody. now right.
Qed.

Lemma ensures_keeps {A} (m : M SceneViewer A) :
  keeps m -> ensures maps_in_step m maps_in_step.
Proof.
  intros Hm v a v' HI Hrun. specialize (Hm v). rewrite Hrun in Hm.
  unfold maps_in_step, maps_of in *. cbn in Hm.
  now injection Hm as -> -> -> ->.
Qed.

(** a successful [add_geometry] puts [name] into the three dicts, and
    into no other dict than [textures] besides *)
Lemma add_geometry_keys (name : string) (g : Geometry) (smooth : option bool)
    (v v' : SceneViewer) :
  add_geometry name g smooth v = (Ok tt, v') ->
  dom (vertex_list v') = {[name]} ∪ dom (vertex_list v) /\
  dom (vertex_list_hash v') = {[name]} ∪ dom (vertex_list_hash v) /\
  dom (vertex_list_mode v') = {[name]} ∪ dom (vertex_list_mode v) /\
  dom (textures v') ⊆ {[name]} ∪ dom (textures v).
Proof.
  unfold add_geometry, bind, emit, modify, lift, batch_add_indexed, ret.
  cbn.
  destruct (convert_to_vertexlist g smooth) as [args | e]; [| discriminate].
  destruct (geometry_hash g) as [digest | e]; [| discriminate].
  destruct (visual g) as [vis |]; [destruct (material vis) as [mat |] |].
  1: destruct (material_to_texture mat) as [[t |] | e]; [| | discriminate].
  all: intros [= <-]; cbn; rewrite ?dom_insert_L; set_solver.
Qed.

Lemma ensures_add_geometry (name : string) (g : Geometry) (smooth : option bool) :
  ensures maps_in_step (add_geometry name g smooth) maps_in_step.
Proof.
  intros v [] v' (H1 & H2 & H3) Hrun.
  destruct (add_geometry_keys _ _ _ _ _ Hrun) as (K1 & K2 & K3 & K4).
  unfold maps_in_step. rewrite K1, K2, K3. set_solver.
Qed.

Lemma ensures_SceneViewer_init (sc : Scene) (a : viewer_args) :
  ensures (fun _ => True) (SceneViewer_init sc a) maps_in_step.
Proof.
  unfold SceneViewer_init.
  eapply ensures_bind with (Q := fun _ => True); [easy | intros _].
  eapply ensures_bind with (Q := fun _ => True); [easy | intros _].
  eapply ensures_bind with (Q := maps_in_step).
  { intros v [] v' _ [= <-]. unfold maps_in_step. cbn. set_solver. }
  intros _.
  eapply ensures_bind; [apply ensures_keeps; keeps_auto | intros size].
  eapply ensures_bind;
    [apply ensures_keeps, keeps_try_except; apply keeps_Window_init | intros _].
  eapply ensures_bind; [apply ensures_keeps; keeps_auto | intros s].
  eapply ensures_bind.
  { apply ensures_for_each. intros x _. apply ensures_add_geometry. }
  intros _.
  eapply ensures_bind; [apply ensures_keeps, keeps_init_gl | intros _].
  eapply ensures_bind; [apply ensures_keeps, keeps_set_size | intros _].
  eapply ensures_bind; [apply ensures_keeps, keeps_update_flags | intros _].
  apply ensures_keeps. keeps_auto.
Qed.

(** C10 (amended): after a construction that returned, and after any
    further sequence of [add_geometry] calls that all returned,
    [vertex_list], [vertex_list_hash] and [vertex_list_mode] have the
    same key set, the keys of [textures] are among them, and every added
    name is a key of the three dicts.  (A call that raised in between
    is excluded: it can leave its name in [vertex_list] alone.) *)
Theorem maps_in_step_after_adds (sc : Scene) (a : viewer_args)
    (v0 v : SceneViewer) (more : list (string * Geometry * option bool)) :
  SceneViewer_new sc a = (Ok tt, v0) ->
  for_each more (fun x => add_geometry (fst (fst x)) (snd (fst x)) (snd x)) v0
    = (Ok tt, v) ->
  maps_in_step v0 /\ maps_in_step v /\
  forall x, In x more ->
    fst (fst x) ∈ dom (vertex_list v) /\
    fst (fst x) ∈ dom (vertex_list_hash v) /\
    fst (fst x) ∈ dom (vertex_list_mode v).
Proof.
  intros Hnew Hmore.
  assert (H0 : maps_in_step v0).
  { exact (ensures_SceneViewer_init sc a _ _ _ I Hnew). }
  assert (Hv : maps_in_step v).
  { eapply ensures_for_each; [| exact H0 | exact Hmore].
    intros x _. apply ensures_add_geometry. }
  split; [exact H0 |]. split; [exact Hv |].
  assert (Hin : forall x, In x more -> fst (fst x) ∈ dom (vertex_list v)).
  { clear Hv H0 Hnew. revert v0 Hmore.
    induction more as [| y more IH]; intros v0 Hmore x Hx; [destruct Hx |].
    cbn [for_each] in Hmore. unfold bind in Hmore.
    destruct (add_geometry _ _ _ v0) as [[[] | e] v1] eqn:E; [| discriminate].
    destruct Hx as [-> | Hx]; [| exact (IH v1 Hmore x Hx)].
    apply add_geometry_keys in E. destruct E as (K1 & _).
    assert (Hgrow : forall rest w w',
      for_each rest (fun x => add_geometry (fst (fst x)) (snd (fst x)) (snd x)) w
        = (Ok tt, w') -> dom (vertex_list w) ⊆ dom (vertex_list w')).
    { clear. induction rest as [| z rest IHr]; intros w w' Hrun.
      - injection Hrun as <-. set_solver.
      - cbn [for_each] in Hrun. unfold bind in Hrun.
        destruct (add_geometry _ _ _ w) as [[[] | e] w1] eqn:E; [| discriminate].
        apply add_geometry_keys in E. destruct E as (K1 & _).
        specialize (IHr _ _ Hrun). set_solver. }
    specialize (Hgrow _ _ _ Hmore). set_solver. }
  intros x Hx. specialize (Hin x Hx).
  destruct Hv as (E1 & E2 & _).
  split; [exact Hin |]. split; [now rewrite <- E1 | now rewrite <- E2, <- E1].
Qed.

(** ** The draw loop *)

Lemma add_calls_nil (v : SceneViewer) : add_calls [] v = v.
Proof. destruct v. unfold add_calls, with_trace. cbn. now rewrite app_nil_r. Qed.

Lemma add_calls_app (l1 l2 : list call) (v : SceneViewer) :
  add_calls l2 (add_calls l1 v) = add_calls (l1 ++ l2) v.
Proof. unfold add_calls, with_trace. cbn. now rewrite app_assoc. Qed.

(** how the monad runs its primitive steps *)
Lemma bind_emit {B} (c : call) (k : unit -> M SceneViewer B) (v : SceneViewer) :
  bind (emit c) k v = k tt (add_calls [c] v).
Proof. reflexivity. Qed.

Lemma bind_gets {A B} (f : SceneViewer -> A) (k : A -> M SceneViewer B)
    (v : SceneViewer) :
  bind (gets f) k v = k (f v) v.
Proof. reflexivity. Qed.

Lemma bind_ret {A B} (a : A) (k : A -> M SceneViewer B) (v : SceneViewer) :
  bind (ret a) k v = k a v.
Proof. reflexivity. Qed.

Lemma bind_lift_Ok {A B} (a : A) (k : A -> M SceneViewer B) (v : SceneViewer) :
  bind (lift (Ok a)) k v = k a v.
Proof. reflexivity. Qed.

Lemma bind_bind {A B C} (m : M SceneViewer A) (f : A -> M SceneViewer B)
    (k : B -> M SceneViewer C) (v : SceneViewer) :
  bind (bind m f) k v = bind m (fun a => bind (f a) k) v.
Proof. unfold bind. destruct (m v) as [[a | e] v1]; reflexivity. Qed.

Lemma bind_axis_draw {B} (k : unit -> M SceneViewer B) (v : SceneViewer)
    (marker : VertexList) :
  _axis v = Some marker ->
  bind axis_draw k v =
    k tt (add_calls [vertex_list_draw (list_id marker) GL_TRIANGLES None] v).
Proof.
  intros Hmark. unfold axis_draw. rewrite bind_bind, bind_gets, Hmark.
  apply bind_emit.
Qed.

Lemma view_add_calls l v : view (add_calls l v) = view v.
Proof. reflexivity. Qed.

Lemma axis_add_calls l v : _axis (add_calls l v) = _axis v.
Proof. reflexivity. Qed.

Lemma textures_add_calls l v : textures (add_calls l v) = textures v.
Proof. reflexivity. Qed.

Lemma vertex_list_mode_add_calls l v :
  vertex_list_mode (add_calls l v) = vertex_list_mode v.
Proof. reflexivity. Qed.

Lemma vertex_list_add_calls l v : vertex_list (add_calls l v) = vertex_list v.
Proof. reflexivity. Qed.

Lemma axis_ready_marker (v : SceneViewer) :
  axis_ready v = true ->
  axis_mode_eqb (axis (view v)) axis_all = true ->
  exists marker, _axis v = Some marker.
Proof.
  unfold axis_ready. intros Hready Hall. rewrite Hall in Hready.
  destruct (_axis v); [eauto | discriminate].
Qed.

(** one step of the monad on the goal's left-hand side *)
Ltac run_step :=
  first [ rewrite bind_emit | rewrite bind_gets | rewrite bind_ret
        | rewrite bind_lift_Ok | rewrite bind_bind
        | rewrite view_add_calls | rewrite axis_add_calls
        | rewrite textures_add_calls | rewrite vertex_list_mode_add_calls
        | rewrite vertex_list_add_calls ];
  cbv beta iota.

(** One iteration of the loop on a node that has a plan: it is either
    deferred or drawn, with the calls of [deferred_calls] or
    [drawn_calls]. *)
Lemma draw_nodes_step (fuel : nat) (view_t : mat4) (n count : Z)
    (node : string) (rest : list string) (v : SceneViewer) (p : node_plan) :
  plan_of v view_t node = Some p ->
  axis_ready v = true ->
  draw_nodes (S fuel) view_t n count (node :: rest) v =
    if is_transparent (plan_mesh p) && (count + 1 <? n)%Z
    then draw_nodes fuel view_t n (count + 1) (rest ++ [node])
           (add_calls (deferred_calls v node p) v)
    else draw_nodes fuel view_t n (count + 1) rest
           (add_calls (drawn_calls v node p) v).
Proof.
  intros Hplan Haxis. unfold plan_of in Hplan.
  destruct (nodes (graph (scene v)) !! node) as [[transform [g |]] |] eqn:Hnode;
    try discriminate.
  cbv zeta in Hplan.
  cbn [draw_nodes]. cbv zeta.
  rewrite bind_gets. cbv beta. rewrite Hnode. cbv beta iota.
  rewrite bind_gets. cbv beta.
  assert (Hrun : exists t,
    match (if is_fixed (fixed v) g
           then match np_linalg_inv view_t with
                | Ok inverse => Some (mat4_dot inverse transform)
                | Raise _ => None
                end
           else Some transform) with
    | Some t' => t' = t
    | None => False
    end /\
    forall B (k : mat4 -> M SceneViewer B),
      bind (if is_fixed (fixed v) g
            then bind (lift (np_linalg_inv view_t))
                      (fun inverse => ret (mat4_dot inverse transform))
            else ret transform) k v = k t v).
  { destruct (is_fixed (fixed v) g).
    - destruct (np_linalg_inv view_t) as [inverse | e]; [| discriminate].
      exists (mat4_dot inverse transform). split; [reflexivity |].
      intros B k. now rewrite bind_bind, bind_lift_Ok, bind_ret.
    - exists transform. split; [reflexivity |]. intros B k. apply bind_ret. }
  destruct Hrun as (t & Ht & Hrun). rewrite Hrun. clear Hrun.
  destruct (if is_fixed (fixed v) g then _ else _) as [t' |];
    [subst t' | contradiction].
  destruct (geometry_lookup (geometry (scene v)) g) as [mesh |]; [| discriminate].
  destruct (vertex_list_mode v !! g) as [mode |] eqn:Hmode; [| discriminate].
  destruct (vertex_list v !! g) as [l |] eqn:Hlist; [| discriminate].
  injection Hplan as <-.
  unfold deferred_calls, drawn_calls, texture_on, texture_off, axis_calls.
  cbn [plan_transform plan_mesh plan_mode plan_list plan_texture].
  pose proof (axis_ready_marker v Haxis) as Hmark.
  destruct (axis_mode_eqb (axis (view v)) axis_all) eqn:Hall;
    [destruct (Hmark eq_refl) as [marker Emark]; rewrite Emark |];
    destruct (is_transparent mesh && (count + 1 <? n)%Z);
    destruct (textures v !! g) as [tex |] eqn:Htex;
    repeat first
      [ run_step
      | rewrite Hall; cbv beta iota
      | rewrite Htex; cbv beta iota
      | rewrite Hmode; cbv beta iota
      | rewrite Hlist; cbv beta iota
      | rewrite (bind_axis_draw _ _ marker) by exact Emark; cbv beta iota ];
    rewrite !add_calls_app; reflexivity.
Qed.

(** the second round: nothing is deferred any more *)
Lemma draw_nodes_second_round (v : SceneViewer) (view_t : mat4) (n : Z) :
  axis_ready v = true ->
  forall (queue : list string) (fuel : nat) (count : Z) (l : list call),
    (n <= count + 1)%Z ->
    length queue <= fuel ->
    Forall (fun node => is_Some (plan_of v view_t node)) queue ->
    draw_nodes fuel view_t n count queue (add_calls l v) =
      (Ok tt, add_calls (l ++ concat (map (pass_calls v view_t false) queue)) v).
Proof.
  intros Haxis. induction queue as [| node rest IH]; intros fuel count l Hn Hfuel Hplans.
  - cbn [map concat]. rewrite app_nil_r. destruct fuel; reflexivity.
  - destruct fuel as [| fuel]; [cbn in Hfuel; lia |].
    apply Forall_cons in Hplans as [[p Hp] Hrest].
    rewrite (draw_nodes_step fuel view_t n count node rest (add_calls l v) p Hp Haxis).
    replace (count + 1 <? n)%Z with false by (symmetry; apply Z.ltb_ge; lia).
    rewrite andb_false_r.
    change (drawn_calls (add_calls l v) node p) with (drawn_calls v node p).
    rewrite add_calls_app.
    rewrite IH; [| lia | cbn in Hfuel; lia | exact Hrest].
    cbn [map concat]. unfold pass_calls at 2. rewrite Hp. cbn [andb].
    now rewrite <- app_assoc.
Qed.

(** the first round over [remaining], with [deferred] already put back *)
Lemma draw_nodes_first_round (v : SceneViewer) (view_t : mat4) (n : Z) :
  axis_ready v = true ->
  forall (remaining deferred : list string) (fuel : nat) (count : Z)
         (l : list call),
    (count + 1 + Z.of_nat (length remaining) = n)%Z ->
    length remaining + length (List.filter (plan_transparent v view_t) remaining)
      + length deferred <= fuel ->
    Forall (fun node => is_Some (plan_of v view_t node)) remaining ->
    Forall (fun node => is_Some (plan_of v view_t node)) deferred ->
    draw_nodes fuel view_t n count (remaining ++ deferred) (add_calls l v) =
      (Ok tt,
       add_calls
         (l ++ concat (map (pass_calls v view_t true) remaining) ++
          concat (map (pass_calls v view_t false)
                      (deferred ++ List.filter (plan_transparent v view_t) remaining)))
         v).
Proof.
  intros Haxis.
  induction remaining as [| node rest IH];
    intros deferred fuel count l Hcount Hfuel Hplans Hdeferred.
  - cbn [app map concat List.filter]. rewrite app_nil_r.
    apply draw_nodes_second_round; trivial; cbn in *; lia.
  - apply Forall_cons in Hplans as [[p Hp] Hrest].
    destruct fuel as [| fuel]; [cbn in Hfuel; lia |].
    cbn [app].
    rewrite (draw_nodes_step fuel view_t n count node (rest ++ deferred)
               (add_calls l v) p Hp Haxis).
    replace (count + 1 <? n)%Z
      with true by (symmetry; apply Z.ltb_lt; cbn [length] in Hcount; lia).
    rewrite andb_true_r.
    cbn [map concat List.filter length] in *.
    assert (Htr : plan_transparent v view_t node = is_transparent (plan_mesh p))
      by (unfold plan_transparent; now rewrite Hp).
    assert (Hpass : pass_calls v view_t true node =
                    if is_transparent (plan_mesh p)
                    then deferred_calls v node p else drawn_calls v node p)
      by (unfold pass_calls; now rewrite Hp).
    rewrite Htr, Hpass in *. clear Htr Hpass.
    destruct (is_transparent (plan_mesh p)).
    + change (deferred_calls (add_calls l v) node p) with (deferred_calls v node p).
      rewrite add_calls_app, <- app_assoc.
      rewrite IH; [| lia | | exact Hrest |].
      * f_equal. f_equal. rewrite <- !app_assoc. cbn [app]. reflexivity.
      * rewrite length_app. cbn [length] in *. lia.
      * apply Forall_app. split; [exact Hdeferred |].
        constructor; [eauto | constructor].
    + change (drawn_calls (add_calls l v) node p) with (drawn_calls v node p).
      rewrite add_calls_app.
      rewrite IH; [| lia | cbn [length] in *; lia | exact Hrest | exact Hdeferred].
      f_equal. f_equal. now rewrite <- !app_assoc.
Qed.

(** the whole loop, from the state [on_draw] starts it in *)
Lemma draw_nodes_all (v : SceneViewer) (view_t : mat4) (queue : list string)
    (l : list call) :
  axis_ready v = true ->
  Forall (fun node => is_Some (plan_of v view_t node)) queue ->
  draw_nodes (2 * length queue) view_t (Z.of_nat (length queue)) (-1) queue
    (add_calls l v) =
    (Ok tt, add_calls (l ++ loop_calls v view_t queue) v).
Proof.
  intros Haxis Hplans.
  pose proof (draw_nodes_first_round v view_t (Z.of_nat (length queue)) Haxis
                queue [] (2 * length queue) (-1) l) as H.
  rewrite app_nil_r in H. cbn [app] in H.
  pose proof (filter_length_le (plan_transparent v view_t) queue) as Hle.
  apply H; trivial; cbn [length]; lia.
Qed.

Lemma scene_add_calls l v : scene (add_calls l v) = scene v.
Proof. reflexivity. Qed.

Lemma _update_meshes_trace (v v1 : SceneViewer) :
  _update_meshes v = (Ok tt, v1) -> trace v1 = trace v.
Proof.
  unfold _update_meshes, bind, gets, lift, modify, ret.
  destruct (callback v) as [f |]; [| now intros [= <-]].
  destruct (f (scene v)); [| discriminate]. now intros [= <-].
Qed.

Lemma np_linalg_inv_regular (m : mat4) :
  Qeq_bool (det4 m) 0 = false -> exists w, np_linalg_inv m = Ok w.
Proof. unfold np_linalg_inv. intros ->. eauto. Qed.

Lemma node_ready_plan (v : SceneViewer) (node : string) :
  node_ready v node = true ->
  is_Some (plan_of v (view_to_transform (view v)) node).
Proof.
  unfold node_ready, plan_of.
  generalize (view_to_transform (view v)) as view_t. intros view_t.
  destruct (nodes (graph (scene v)) !! node) as [[transform [g |]] |];
    [| intros [=] | intros [=]].
  intros H. apply andb_prop in H as [H Hinv].
  apply andb_prop in H as [H Hlist]. apply andb_prop in H as [Hmesh Hmode].
  apply bool_decide_eq_true in Hmesh as [mesh ->].
  apply bool_decide_eq_true in Hmode as [mode ->].
  apply bool_decide_eq_true in Hlist as [l ->].
  cbv zeta. destruct (is_fixed (fixed v) g); [| eexists; reflexivity].
  cbn [negb orb] in Hinv. apply negb_true_iff in Hinv.
  destruct (np_linalg_inv_regular view_t Hinv) as [w ->].
  eexists; reflexivity.
Qed.

Lemma nodes_ready_plans (v : SceneViewer) :
  nodes_ready v = true ->
  Forall (fun node => is_Some (plan_of v (view_to_transform (view v)) node))
         (nodes_geometry (graph (scene v))).
Proof.
  unfold nodes_ready. intros H. apply Forall_forall. intros node Hin.
  apply node_ready_plan. rewrite forallb_forall in H. apply H.
  now apply list_elem_of_In.
Qed.

(** a frame on a ready viewer returns, having issued [frame_calls] *)
Lemma on_draw_run (v v1 : SceneViewer) :
  _update_meshes v = (Ok tt, v1) ->
  nodes_ready v1 = true ->
  camera_ready v1 = true ->
  axis_ready v1 = true ->
  exists cam,
    to_world (graph (scene v1)) !! camera_name (camera (scene v1)) = Some cam /\
    on_draw v = (Ok tt, add_calls (frame_calls v1 cam) v1).
Proof.
  intros Hupdate Hnodes Hcam Haxis.
  unfold camera_ready in Hcam. apply bool_decide_eq_true in Hcam as [cam Hcam].
  exists cam. split; [exact Hcam |].
  unfold on_draw. unfold bind at 1. rewrite Hupdate.
  do 3 run_step. rewrite !scene_add_calls, Hcam. cbv beta iota zeta.
  do 4 run_step. repeat rewrite view_add_calls. repeat rewrite axis_add_calls.
  assert (Hloop : forall l,
    draw_nodes (2 * length (nodes_geometry (graph (scene v1))))
      (view_to_transform (view v1))
      (Z.of_nat (length (nodes_geometry (graph (scene v1))))) (-1)
      (nodes_geometry (graph (scene v1))) (add_calls l v1) =
    (Ok tt, add_calls (l ++ loop_calls v1 (view_to_transform (view v1))
                              (nodes_geometry (graph (scene v1)))) v1)).
  { intros l. apply draw_nodes_all; [exact Haxis |].
    now apply nodes_ready_plans. }
  unfold frame_calls, world_axis_calls. cbv zeta.
  destruct (_axis v1) as [marker |].
  - run_step. rewrite !add_calls_app. rewrite Hloop.
    rewrite <- !app_assoc. reflexivity.
  - run_step. rewrite !add_calls_app. rewrite Hloop.
    rewrite <- !app_assoc. reflexivity.
Qed.

(** ** What a frame draws, and in which order *)

Lemma drawn_nodes_app (l1 l2 : list call) :
  drawn_nodes (l1 ++ l2) = drawn_nodes l1 ++ drawn_nodes l2.
Proof.
  induction l1 as [| c l1 IH]; [reflexivity |].
  destruct c as [| | | | | | | | | | | | | | | | | | | | | | ? ? [node |]
                 | | | | | | | | | | | | | | |];
    cbn; now rewrite ?IH.
Qed.

Lemma requeued_nodes_app (l1 l2 : list call) :
  requeued_nodes (l1 ++ l2) = requeued_nodes l1 ++ requeued_nodes l2.
Proof.
  induction l1 as [| c l1 IH]; [reflexivity |].
  destruct c; cbn; now rewrite ?IH.
Qed.

Lemma drawn_nodes_drawn_calls v node p : drawn_nodes (drawn_calls v node p) = [node].
Proof.
  unfold drawn_calls, axis_calls, texture_on, texture_off.
  destruct (axis_mode_eqb _ _), (_axis v), (plan_texture p); reflexivity.
Qed.

Lemma drawn_nodes_deferred_calls v node p : drawn_nodes (deferred_calls v node p) = [].
Proof.
  unfold deferred_calls, axis_calls.
  destruct (axis_mode_eqb _ _), (_axis v); reflexivity.
Qed.

Lemma requeued_nodes_drawn_calls v node p : requeued_nodes (drawn_calls v node p) = [].
Proof.
  unfold drawn_calls, axis_calls, texture_on, texture_off.
  destruct (axis_mode_eqb _ _), (_axis v), (plan_texture p); reflexivity.
Qed.

Lemma requeued_nodes_deferred_calls v node p :
  requeued_nodes (deferred_calls v node p) = [node].
Proof.
  unfold deferred_calls, axis_calls.
  destruct (axis_mode_eqb _ _), (_axis v); reflexivity.
Qed.

Lemma drawn_nodes_round (v : SceneViewer) (view_t : mat4) (first_round : bool)
    (queue : list string) :
  Forall (fun node => is_Some (plan_of v view_t node)) queue ->
  drawn_nodes (concat (map (pass_calls v view_t first_round) queue)) =
    List.filter (fun node => negb (first_round && plan_transparent v view_t node))
                queue.
Proof.
  induction queue as [| node rest IH]; intros Hplans; [reflexivity |].
  apply Forall_cons in Hplans as [[p Hp] Hrest].
  cbn [map concat List.filter]. rewrite drawn_nodes_app, (IH Hrest).
  unfold pass_calls, plan_transparent. rewrite Hp.
  destruct (first_round && is_transparent (plan_mesh p)); cbn [negb].
  - now rewrite drawn_nodes_deferred_calls.
  - now rewrite drawn_nodes_drawn_calls.
Qed.

Lemma requeued_nodes_round (v : SceneViewer) (view_t : mat4) (first_round : bool)
    (queue : list string) :
  Forall (fun node => is_Some (plan_of v view_t node)) queue ->
  requeued_nodes (concat (map (pass_calls v view_t first_round) queue)) =
    List.filter (fun node => first_round && plan_transparent v view_t node) queue.
Proof.
  induction queue as [| node rest IH]; intros Hplans; [reflexivity |].
  apply Forall_cons in Hplans as [[p Hp] Hrest].
  cbn [map concat List.filter]. rewrite requeued_nodes_app, (IH Hrest).
  unfold pass_calls, plan_transparent. rewrite Hp.
  destruct (first_round && is_transparent (plan_mesh p)).
  - now rewrite requeued_nodes_deferred_calls.
  - now rewrite requeued_nodes_drawn_calls.
Qed.

Lemma Forall_filter_plans {A} (P : A -> Prop) (f : A -> bool) (l : list A) :
  Forall P l -> Forall P (List.filter f l).
Proof.
  induction 1 as [| x l Hx Hl IH]; cbn; [constructor |].
  destruct (f x); [constructor |]; trivial.
Qed.

Lemma filter_all {A} (l : list A) : List.filter (fun _ => true) l = l.
Proof. induction l as [| x l IH]; cbn; now rewrite ?IH. Qed.

Lemma filter_none {A} (l : list A) : List.filter (fun _ => false) l = [].
Proof. induction l as [| x l IH]; cbn; now rewrite ?IH. Qed.

Lemma filter_split_permutation {A} (f : A -> bool) (l : list A) :
  Permutation (List.filter (fun x => negb (f x)) l ++ List.filter f l) l.
Proof.
  induction l as [| x l IH]; [constructor |].
  cbn [List.filter]. destruct (f x); cbn [negb app].
  - symmetry. apply Permutation_cons_app. now symmetry.
  - now constructor.
Qed.

Lemma plan_transparent_node (v : SceneViewer) (view_t : mat4) (node : string) :
  is_Some (plan_of v view_t node) ->
  plan_transparent v view_t node = node_transparent (scene v) node.
Proof.
  unfold plan_transparent, node_transparent, node_mesh, plan_of.
  destruct (nodes (graph (scene v)) !! node) as [[transform [g |]] |];
    [| intros [? [=]] | intros [? [=]]].
  cbv zeta.
  destruct (if is_fixed (fixed v) g then _ else _); [| intros [? [=]]].
  destruct (geometry_lookup (geometry (scene v)) g); [| intros [? [=]]].
  destruct (vertex_list_mode v !! g); [| intros [? [=]]].
  destruct (vertex_list v !! g); [| intros [? [=]]].
  reflexivity.
Qed.

Lemma drawn_nodes_frame (v : SceneViewer) (cam : mat4) :
  Forall (fun node => is_Some (plan_of v (view_to_transform (view v)) node))
         (nodes_geometry (graph (scene v))) ->
  let queue := nodes_geometry (graph (scene v)) in
  drawn_nodes (frame_calls v cam) =
    List.filter (fun node => negb (node_transparent (scene v) node)) queue ++
    List.filter (node_transparent (scene v)) queue /\
  requeued_nodes (frame_calls v cam) =
    List.filter (node_transparent (scene v)) queue.
Proof.
  intros Hplans queue. unfold frame_calls, loop_calls, world_axis_calls.
  fold queue. cbv zeta.
  generalize dependent (view_to_transform (view v)). intros view_t Hplans.
  assert (Hsame : forall node, In node queue ->
    plan_transparent v view_t node = node_transparent (scene v) node).
  { intros node Hin. apply plan_transparent_node.
    rewrite Forall_forall in Hplans. apply Hplans. now apply list_elem_of_In. }
  assert (Hfilter : List.filter (plan_transparent v view_t) queue =
                    List.filter (node_transparent (scene v)) queue).
  { apply filter_ext_in. exact Hsame. }
  rewrite !drawn_nodes_app, !requeued_nodes_app.
  rewrite !drawn_nodes_round, !requeued_nodes_round;
    try apply Forall_filter_plans; trivial.
  cbn [andb negb]. rewrite filter_all, filter_none, app_nil_r.
  change (fun node => plan_transparent v view_t node)
    with (plan_transparent v view_t).
  rewrite Hfilter.
  replace (List.filter (fun node => negb (plan_transparent v view_t node)) queue)
    with (List.filter (fun node => negb (node_transparent (scene v) node)) queue)
    by (apply filter_ext_in; intros node Hin; now rewrite Hsame).
  destruct (_axis v); split; reflexivity.
Qed.

(** C2: when every geometry-bearing node of the scene graph refers to a
    geometry that is present (in the scene and in the viewer's vertex
    lists), the camera frame resolves and the axis marker exists if it
    is to be drawn at every node, one [on_draw] returns and issues the
    node draw calls in this order: all nodes whose geometry is not
    transparent, in queue order, then all transparent ones; so exactly
    one draw call per node, and exactly the transparent nodes are put
    back on the queue, once each. *)
Theorem on_draw_opaque_before_transparent (v v1 : SceneViewer) :
  _update_meshes v = (Ok tt, v1) ->
  nodes_ready v1 = true ->
  camera_ready v1 = true ->
  axis_ready v1 = true ->
  exists v' issued,
    on_draw v = (Ok tt, v') /\
    trace v' = trace v ++ issued /\
    let queue := nodes_geometry (graph (scene v1)) in
    let transparent := node_transparent (scene v1) in
    drawn_nodes issued =
      List.filter (fun node => negb (transparent node)) queue ++
      List.filter transparent queue /\
    requeued_nodes issued = List.filter transparent queue /\
    Permutation (drawn_nodes issued) queue.
Proof.
  intros Hupdate Hnodes Hcam Haxis.
  destruct (on_draw_run v v1 Hupdate Hnodes Hcam Haxis) as (cam & _ & Hrun).
  exists (add_calls (frame_calls v1 cam) v1), (frame_calls v1 cam).
  split; [exact Hrun |]. split.
  { cbn [add_calls with_trace trace]. now rewrite (_update_meshes_trace v v1 Hupdate). }
  destruct (drawn_nodes_frame v1 cam (nodes_ready_plans v1 Hnodes)) as [Hdrawn Hback].
  cbv zeta. split; [exact Hdrawn |]. split; [exact Hback |].
  rewrite Hdrawn. apply filter_split_permutation.
Qed.

(** ** The transform a node is drawn with *)

Lemma draw_transforms_fst (l : list call) :
  forall current, map fst (draw_transforms current l) = drawn_nodes l.
Proof.
  induction l as [| c l IH]; intros current; [reflexivity |].
  destruct c as [| | | | | | | | | | | | | | | | | | | | | | ? ? [node |]
                 | | | | | | | | | | | | | | |];
    cbn; now rewrite ?IH.
Qed.

Lemma draw_transforms_drawn_calls v node p current rest :
  draw_transforms current (drawn_calls v node p ++ rest) =
    (node, plan_transform p) :: draw_transforms (plan_transform p) rest.
Proof.
  unfold drawn_calls, axis_calls, texture_on, texture_off.
  destruct (axis_mode_eqb _ _), (_axis v), (plan_texture p); reflexivity.
Qed.

Lemma draw_transforms_deferred_calls v node p current rest :
  draw_transforms current (deferred_calls v node p ++ rest) =
    draw_transforms (plan_transform p) rest.
Proof.
  unfold deferred_calls, axis_calls.
  destruct (axis_mode_eqb _ _), (_axis v); reflexivity.
Qed.

(** a node draw of a round uses the transform of the node's plan *)
Lemma draw_transforms_round (v : SceneViewer) (view_t : mat4) (first_round : bool)
    (queue : list string) (rest : list call) (x : string * mat4) :
  Forall (fun node => is_Some (plan_of v view_t node)) queue ->
  forall current,
    In x (draw_transforms current
            (concat (map (pass_calls v view_t first_round) queue) ++ rest)) ->
    (exists p, plan_of v view_t (fst x) = Some p /\ snd x = plan_transform p) \/
    (exists current', In x (draw_transforms current' rest)).
Proof.
  induction queue as [| node queue IH]; intros Hplans current Hin.
  - right. exists current. exact Hin.
  - apply Forall_cons in Hplans as [[p Hp] Hrest].
    cbn [map concat] in Hin. rewrite <- app_assoc in Hin.
    unfold pass_calls at 1 in Hin. rewrite Hp in Hin.
    destruct (first_round && is_transparent (plan_mesh p)).
    + rewrite draw_transforms_deferred_calls in Hin. eauto.
    + rewrite draw_transforms_drawn_calls in Hin.
      destruct Hin as [<- | Hin]; [| eauto].
      left. exists p. split; [exact Hp | reflexivity].
Qed.

Lemma draw_transforms_frame (v : SceneViewer) (cam : mat4) (x : string * mat4) :
  Forall (fun node => is_Some (plan_of v (view_to_transform (view v)) node))
         (nodes_geometry (graph (scene v))) ->
  In x (draw_transforms eye4 (frame_calls v cam)) ->
  exists p, plan_of v (view_to_transform (view v)) (fst x) = Some p /\
            snd x = plan_transform p.
Proof.
  unfold frame_calls, loop_calls, world_axis_calls. cbv zeta.
  generalize (view_to_transform (view v)) as view_t.
  intros view_t Hplans Hin.
  cbn [app draw_transforms] in Hin.
  assert (Hloop : exists current,
    In x (draw_transforms current
            (concat (map (pass_calls v view_t true)
                         (nodes_geometry (graph (scene v)))) ++
             concat (map (pass_calls v view_t false)
                         (List.filter (plan_transparent v view_t)
                            (nodes_geometry (graph (scene v)))))))).
  { destruct (_axis v); cbn [app draw_transforms] in Hin; eauto. }
  clear Hin. destruct Hloop as [current Hin].
  apply draw_transforms_round in Hin as [Hfound | [current' Hin]]; trivial.
  rewrite <- (app_nil_r (concat _)) in Hin.
  apply draw_transforms_round in Hin as [Hfound | [current'' []]]; trivial.
  now apply Forall_filter_plans.
Qed.

Lemma plan_transform_spec (v : SceneViewer) (view_t : mat4) (node : string)
    (p : node_plan) (transform : mat4) (g : string) :
  plan_of v view_t node = Some p ->
  nodes (graph (scene v)) !! node = Some (transform, Some g) ->
  if is_fixed (fixed v) g
  then exists inverse, np_linalg_inv view_t = Ok inverse /\
                       plan_transform p = mat4_dot inverse transform
  else plan_transform p = transform.
Proof.
  unfold plan_of. intros Hplan Hnode. rewrite Hnode in Hplan. cbv zeta in Hplan.
  destruct (is_fixed (fixed v) g).
  - destruct (np_linalg_inv view_t) as [inverse | e]; [| discriminate].
    exists inverse. split; [reflexivity |].
    destruct (geometry_lookup _ _), (vertex_list_mode v !! g),
      (vertex_list v !! g); try discriminate.
    now injection Hplan as <-.
  - destruct (geometry_lookup _ _), (vertex_list_mode v !! g),
      (vertex_list v !! g); try discriminate.
    now injection Hplan as <-.
Qed.

(** C7: a frame on a ready viewer returns and draws every node of the
    queue exactly once, each draw call paired with a transform; a node
    whose geometry name is in [fixed] is drawn with
    [inverse(view_transform) . node_transform], any other node with its
    [node_transform] alone.  Multiplying by the view transform gives the
    fixed node's own transform back, and when the view transform is the
    pure translation by [t] the fixed node is drawn with its transform
    translated by [-t]. *)
Theorem on_draw_fixed_transform (v v1 : SceneViewer) :
  _update_meshes v = (Ok tt, v1) ->
  nodes_ready v1 = true ->
  camera_ready v1 = true ->
  axis_ready v1 = true ->
  exists v' issued,
    on_draw v = (Ok tt, v') /\
    trace v' = trace v ++ issued /\
    map fst (draw_transforms eye4 issued) = drawn_nodes issued /\
    Permutation (drawn_nodes issued) (nodes_geometry (graph (scene v1))) /\
    (forall node, In node (nodes_geometry (graph (scene v1))) ->
       exists used, In (node, used) (draw_transforms eye4 issued)) /\
    forall node used transform g,
      In (node, used) (draw_transforms eye4 issued) ->
      nodes (graph (scene v1)) !! node = Some (transform, Some g) ->
      let view_t := view_to_transform (view v1) in
      if is_fixed (fixed v1) g
      then exists inverse,
             np_linalg_inv view_t = Ok inverse /\
             used = mat4_dot inverse transform /\
             mat4_equiv (mat4_dot view_t used) transform /\
             forall t, mat4_equiv view_t (translation_matrix t) ->
               mat4_equiv used
                 (mat4_dot (translation_matrix (vec3_sub zeros3 t)) transform)
      else used = transform.
Proof.
  intros Hupdate Hnodes Hcam Haxis.
  destruct (on_draw_run v v1 Hupdate Hnodes Hcam Haxis) as (cam & _ & Hrun).
  exists (add_calls (frame_calls v1 cam) v1), (frame_calls v1 cam).
  split; [exact Hrun |]. split.
  { cbn [add_calls with_trace trace]. now rewrite (_update_meshes_trace v v1 Hupdate). }
  split; [apply draw_transforms_fst |].
  assert (Hall : Permutation (drawn_nodes (frame_calls v1 cam))
                   (nodes_geometry (graph (scene v1)))).
  { destruct (drawn_nodes_frame v1 cam (nodes_ready_plans v1 Hnodes)) as [Hdrawn _].
    cbv zeta in Hdrawn. rewrite Hdrawn. apply filter_split_permutation. }
  split; [exact Hall |].
  split.
  { intros node Hin.
    apply (Permutation_in _ (Permutation_sym Hall)) in Hin.
    rewrite <- (draw_transforms_fst (frame_calls v1 cam) eye4) in Hin.
    apply in_map_iff in Hin as ([node' used] & Hfst & Hin).
    cbn [fst] in Hfst. subst node'. now exists used. }
  intros node used transform g Hin Hnode view_t.
  destruct (draw_transforms_frame v1 cam (node, used)
              (nodes_ready_plans v1 Hnodes) Hin) as (p & Hplan & Hused).
  cbn [fst snd] in Hplan, Hused.
  pose proof (plan_transform_spec v1 view_t node p transform g Hplan Hnode) as Hspec.
  destruct (is_fixed (fixed v1) g).
  - destruct Hspec as (inverse & Hinv & Htransform).
    exists inverse. rewrite Hused, Htransform.
    split; [exact Hinv |]. split; [reflexivity |]. split.
    + now apply view_cancels_inverse.
    + intros t Ht. apply mat4_dot_equiv_l.
      now apply (inverse_of_translation view_t).
  - now rewrite Hused.
Qed.

(** * More of the viewer *)

(** X3: the fingerprint is the identity string followed by the decimal
    checksum, with nothing in between, so it does not tell geometries
    apart: there are two geometries whose [md5] differ and whose
    checksums differ, with the same fingerprint. *)
Theorem geometry_hash_collides :
  exists first second digest,
    md5 first <> md5 second /\
    option_map crc (visual first) <> option_map crc (visual second) /\
    geometry_hash first = Ok digest /\
    geometry_hash second = Ok digest.
Proof.
  exists short_digest_mesh, long_digest_mesh, "123"%string.
  repeat split; discriminate.
Qed.

(** X4: an [add_geometry] that returns has stored, under [name], a new
    vertex list made from the converted arguments, the fingerprint of the
    geometry and the draw mode of the arguments; the entries of every
    other name are as before in all four dicts; and the batch has gained
    exactly the new list, so a list that [name] referred to before stays
    in the batch. *)
Theorem add_geometry_stores (name : string) (g : Geometry)
    (smooth : option bool) (v v' : SceneViewer) :
  add_geometry name g smooth v = (Ok tt, v') ->
  exists args digest,
    convert_to_vertexlist g smooth = Ok args /\
    geometry_hash g = Ok digest /\
    vertex_list v' !! name =
      Some {| list_id := created (batch v); list_args := args |} /\
    vertex_list_hash v' !! name = Some digest /\
    vertex_list_mode v' !! name = Some (args_mode args) /\
    (forall other, other <> name ->
       vertex_list v' !! other = vertex_list v !! other /\
       vertex_list_hash v' !! other = vertex_list_hash v !! other /\
       vertex_list_mode v' !! other = vertex_list_mode v !! other /\
       textures v' !! other = textures v !! other) /\
    batch v' = {| created := S (created (batch v));
                  members := members (batch v) ++ [created (batch v)] |}.
Proof.
  unfold add_geometry, bind, emit, modify, lift, batch_add_indexed, ret.
  cbn.
  destruct (convert_to_vertexlist g smooth) as [args | e]; [| discriminate].
  destruct (geometry_hash g) as [digest | e]; [| discriminate].
  intros Hrun. exists args, digest.
  split; [reflexivity |]. split; [reflexivity |].
  destruct (visual g) as [vis |]; [destruct (material vis) as [mat |] |].
  1: destruct (material_to_texture mat) as [[t |] | e]; [| | discriminate].
  all: injection Hrun as <-; cbn; rewrite !lookup_insert_eq.
  all: split; [reflexivity |]; split; [reflexivity |]; split; [reflexivity |].
  all: split; [| reflexivity].
  all: intros other Hother; rewrite ?lookup_insert_ne by congruence; auto.
Qed.


(** X5: when the conversion works but the fingerprint raises,
    [add_geometry] raises that error after it has already stored the new
    vertex list under [name] and put it into the batch, while
    [vertex_list_hash] and [vertex_list_mode] are as before: for a name
    that was not known, the three dicts no longer have the same keys. *)
Theorem add_geometry_failed_hash (name : string) (g : Geometry)
    (smooth : option bool) (v : SceneViewer) (args : vertexlist_args) (e : exn) :
  convert_to_vertexlist g smooth = Ok args ->
  geometry_hash g = Raise e ->
  let after := snd (add_geometry name g smooth v) in
  fst (add_geometry name g smooth v) = Raise e /\
  vertex_list after !! name =
    Some {| list_id := created (batch v); list_args := args |} /\
  vertex_list_hash after = vertex_list_hash v /\
  vertex_list_mode after = vertex_list_mode v /\
  In (created (batch v)) (members (batch after)) /\
  (name ∉ dom (vertex_list_hash v) -> ~ maps_in_step after).
Proof.
  intros Hargs Hhash.
  unfold add_geometry, bind, emit, modify, lift, batch_add_indexed, ret.
  cbn. rewrite Hargs, Hhash. cbn.
  split; [reflexivity |].
  split; [apply lookup_insert_eq |].
  split; [reflexivity |]. split; [reflexivity |].
  split; [apply in_or_app; right; now left |].
  intros Hfresh (Hsame & _). cbn in Hsame.
  apply Hfresh. rewrite <- Hsame, dom_insert_L. set_solver.
Qed.

(** X6: an [add_geometry] that returns for a geometry without a
    visual, without a material, or whose material converts to no
    texture, leaves [textures] as it was: a texture stored under [name]
    by an earlier call stays there. *)
Theorem add_geometry_keeps_old_texture (name : string) (g : Geometry)
    (smooth : option bool) (v v' : SceneViewer) :
  add_geometry name g smooth v = (Ok tt, v') ->
  match visual g with
  | Some vis =>
      match material vis with
      | Some mat => material_to_texture mat = Ok None
      | None => True
      end
  | None => True
  end ->
  textures v' = textures v.
Proof.
  unfold add_geometry, bind, emit, modify, lift, batch_add_indexed, ret.
  cbn.
  destruct (convert_to_vertexlist g smooth) as [args | e]; [| discriminate].
  destruct (geometry_hash g) as [digest | e]; [| discriminate].
  destruct (visual g) as [vis |]; [destruct (material vis) as [mat |] |].
  1: destruct (material_to_texture mat) as [[t |] | e].
  all: intros Hrun Hplain; try discriminate.
  all: now injection Hrun as <-.
Qed.

(** ** The flags and the calls that apply them *)

Lemma update_flags_view (v : SceneViewer) :
  view (snd (update_flags v)) = view v.
Proof.
  unfold update_flags, bind, gets, set_fullscreen, emit, modify, lift,
    batch_add_indexed, ret, raise, vertex_list_delete_from_batch.
  destruct (wireframe (view v)), (cull (view v)); cbn;
    destruct (window v); cbn; try reflexivity;
    destruct (axis_truthy (axis (view v))), (_axis v); cbn; try reflexivity;
    destruct (axis_vertexlist _); reflexivity.
Qed.

Lemma update_flags_steady (v : SceneViewer) (win : Window) :
  window v = Some win ->
  axis_in_step v = true ->
  fst (update_flags v) = Ok tt /\
  view (snd (update_flags v)) = view v /\
  _axis (snd (update_flags v)) = _axis v /\
  batch (snd (update_flags v)) = batch v /\
  maps_of (snd (update_flags v)) = maps_of v /\
  window (snd (update_flags v)) =
    Some {| config := config win; visible := visible win;
            resizable := resizable win; width := width win;
            height := height win; caption := caption win;
            is_fullscreen := fullscreen (view v) |} /\
  trace (snd (update_flags v)) = trace v ++ flag_calls (view v).
Proof.
  intros Hwin Hstep. unfold axis_in_step in Hstep.
  unfold update_flags, bind, gets, set_fullscreen, emit, modify, ret, flag_calls.
  destruct (wireframe (view v)), (cull (view v)); cbn; rewrite Hwin; cbn;
    destruct (axis_truthy (axis (view v))), (_axis v) eqn:Hmark;
    try discriminate; cbn; unfold maps_of; cbn; rewrite ?Hmark;
    rewrite <- ?app_assoc; cbn; auto 10.
Qed.

Lemma flip_flag_run (f : View -> View) (v : SceneViewer) (win : Window) :
  window v = Some win ->
  axis (f (view v)) = axis (view v) ->
  axis_in_step v = true ->
  let r := bind (modify (with_view f)) (fun _ => update_flags) v in
  fst r = Ok tt /\
  view (snd r) = f (view v) /\
  _axis (snd r) = _axis v /\
  batch (snd r) = batch v /\
  maps_of (snd r) = maps_of v /\
  window (snd r) =
    Some {| config := config win; visible := visible win;
            resizable := resizable win; width := width win;
            height := height win; caption := caption win;
            is_fullscreen := fullscreen (f (view v)) |} /\
  trace (snd r) = trace v ++ flag_calls (f (view v)) /\
  axis_in_step (snd r) = true.
Proof.
  intros Hwin Haxis Hstep r.
  assert (Er : r = update_flags (with_view f v)) by reflexivity.
  assert (Hstep' : axis_in_step (with_view f v) = true).
  { unfold axis_in_step in *. cbn [view with_view _axis]. now rewrite Haxis. }
  destruct (update_flags_steady (with_view f v) win Hwin Hstep')
    as (R & V & A & B & D & W & T).
  rewrite <- Er in R, V, A, B, D, W, T.
  repeat (split; [assumption |]).
  unfold axis_in_step in *. rewrite V, A. exact Hstep'.
Qed.

(** X7: on a viewer with a window whose axis marker exists exactly
    when the axis mode is on, [toggle_culling] returns, flips the [cull]
    flag and issues the three flag calls for the new view, the last of
    them enabling or disabling face culling accordingly; a second call
    gives back the view, with the marker and the batch untouched. *)
Theorem toggle_culling_twice (v : SceneViewer) :
  is_Some (window v) ->
  axis_in_step v = true ->
  let first := toggle_culling v in
  let second := toggle_culling (snd first) in
  fst first = Ok tt /\
  cull (view (snd first)) = negb (cull (view v)) /\
  trace (snd first) = trace v ++ flag_calls (view (snd first)) /\
  fst second = Ok tt /\
  view (snd second) = view v /\
  _axis (snd second) = _axis v /\
  batch (snd second) = batch v.
Proof.
  intros [win Hwin] Hstep first second.
  destruct (flip_flag_run (fun vw => set_cull (negb (cull vw)) vw) v win
              Hwin eq_refl Hstep) as (R1 & V1 & A1 & B1 & _ & W1 & T1 & S1).
  fold toggle_culling in R1, V1, A1, B1, W1, T1, S1. fold first in R1, V1, A1, B1, W1, T1, S1.
  destruct (flip_flag_run (fun vw => set_cull (negb (cull vw)) vw) (snd first) _
              W1 eq_refl S1) as (R2 & V2 & A2 & B2 & _ & _ & _ & _).
  fold toggle_culling in R2, V2, A2, B2. fold second in R2, V2, A2, B2.
  split; [exact R1 |]. split; [now rewrite V1 |].
  split; [now rewrite T1, V1 |]. split; [exact R2 |].
  split; [| split; congruence].
  rewrite V2, V1. destruct (view v) as [c a f w t ce s b]. cbn.
  unfold set_cull. cbn. now rewrite negb_involutive.
Qed.

(** X8: on such a viewer [toggle_wireframe] returns, flips the
    [wireframe] flag and issues the flag calls for the new view, the
    first of them setting the polygon mode to lines or fill accordingly;
    a second call gives back the view, with the marker and the batch
    untouched. *)
Theorem toggle_wireframe_twice (v : SceneViewer) :
  is_Some (window v) ->
  axis_in_step v = true ->
  let first := toggle_wireframe v in
  let second := toggle_wireframe (snd first) in
  fst first = Ok tt /\
  wireframe (view (snd first)) = negb (wireframe (view v)) /\
  trace (snd first) = trace v ++ flag_calls (view (snd first)) /\
  fst second = Ok tt /\
  view (snd second) = view v /\
  _axis (snd second) = _axis v /\
  batch (snd second) = batch v.
Proof.
  intros [win Hwin] Hstep first second.
  destruct (flip_flag_run (fun vw => set_wireframe (negb (wireframe vw)) vw) v win
              Hwin eq_refl Hstep) as (R1 & V1 & A1 & B1 & _ & W1 & T1 & S1).
  fold toggle_wireframe in R1, V1, A1, B1, W1, T1, S1. fold first in R1, V1, A1, B1, W1, T1, S1.
  destruct (flip_flag_run (fun vw => set_wireframe (negb (wireframe vw)) vw) (snd first) _
              W1 eq_refl S1) as (R2 & V2 & A2 & B2 & _ & _ & _ & _).
  fold toggle_wireframe in R2, V2, A2, B2. fold second in R2, V2, A2, B2.
  split; [exact R1 |]. split; [now rewrite V1 |].
  split; [now rewrite T1, V1 |]. split; [exact R2 |].
  split; [| split; congruence].
  rewrite V2, V1. destruct (view v) as [c a f w t ce s b]. cbn.
  unfold set_wireframe. cbn. now rewrite negb_involutive.
Qed.

(** X9: on such a viewer [toggle_fullscreen] returns, flips the
    [fullscreen] flag and puts the window in the state of the new flag;
    a second call gives back the view and puts the window in the state
    of the original flag, with the marker and the batch untouched.  So
    the window is back as it was exactly when its fullscreen state
    agreed with the flag before the two calls; the two can differ,
    since [reset_view] without flags resets the flag and leaves the
    window alone. *)
Theorem toggle_fullscreen_twice (v : SceneViewer) :
  is_Some (window v) ->
  axis_in_step v = true ->
  let first := toggle_fullscreen v in
  let second := toggle_fullscreen (snd first) in
  fst first = Ok tt /\
  fullscreen (view (snd first)) = negb (fullscreen (view v)) /\
  option_map is_fullscreen (window (snd first)) = Some (negb (fullscreen (view v))) /\
  fst second = Ok tt /\
  view (snd second) = view v /\
  option_map is_fullscreen (window (snd second)) = Some (fullscreen (view v)) /\
  (option_map is_fullscreen (window v) = Some (fullscreen (view v)) ->
   window (snd second) = window v) /\
  _axis (snd second) = _axis v /\
  batch (snd second) = batch v.
Proof.
  intros [win Hwin] Hstep first second.
  destruct (flip_flag_run (fun vw => set_fullscreen_flag (negb (fullscreen vw)) vw) v win
              Hwin eq_refl Hstep) as (R1 & V1 & A1 & B1 & _ & W1 & T1 & S1).
  fold toggle_fullscreen in R1, V1, A1, B1, W1, T1, S1. fold first in R1, V1, A1, B1, W1, T1, S1.
  destruct (flip_flag_run (fun vw => set_fullscreen_flag (negb (fullscreen vw)) vw) (snd first) _
              W1 eq_refl S1) as (R2 & V2 & A2 & B2 & _ & W2 & _ & _).
  fold toggle_fullscreen in R2, V2, A2, B2, W2. fold second in R2, V2, A2, B2, W2.
  split; [exact R1 |]. split; [now rewrite V1 |].
  split; [now rewrite W1 |]. split; [exact R2 |].
  assert (Hview : view (snd second) = view v).
  { rewrite V2, V1. destruct (view v) as [c a f w t ce s b]. cbn.
    unfold set_fullscreen_flag. cbn. now rewrite negb_involutive. }
  split; [exact Hview |].
  split; [| split; [| split; congruence]].
  - rewrite W2. cbn [option_map is_fullscreen]. rewrite V1. cbn.
    now rewrite negb_involutive.
  - intros Hagree. rewrite Hwin in Hagree. cbn [option_map] in Hagree.
    injection Hagree as Hagree.
    rewrite W2, Hwin. cbn [config visible resizable width height caption].
    rewrite V1. cbn [fullscreen set_fullscreen_flag].
    rewrite negb_involutive, <- Hagree. now destruct win.
Qed.

(** ** Resetting the view, again *)

(** X10: [reset_view] without flags changes the view only: it makes
    no call at all, and the window, the axis marker and the batch are as
    before, while the flags of the view are the defaults.  So what
    [update_flags] applied last (wireframe, culling, fullscreen, marker)
    stays in force although the view says otherwise. *)
Theorem reset_view_without_flags_issues_nothing (v : SceneViewer) :
  let after := snd (reset_view None v) in
  trace after = trace v /\
  window after = window v /\
  _axis after = _axis v /\
  batch after = batch v /\
  cull (view after) = true /\ wireframe (view after) = false /\
  fullscreen (view after) = false /\ axis (view after) = axis_off.
Proof.
  unfold reset_view, try_pass, window_size, bind, gets, modify, raise, ret.
  cbn. destruct (window v) eqn:Hwin; cbn; rewrite ?Hwin; repeat split.
Qed.

Lemma for_each_apply_flag (items : list flag) (v : SceneViewer) :
  let r := for_each items (fun f => modify (with_view (apply_flag f))) v in
  fst r = Ok tt /\
  view (snd r) = fold_left (fun vw f => apply_flag f vw) items (view v).
Proof.
  revert v. induction items as [| f items IH]; intros v; [now split |].
  cbn [for_each fold_left].
  change (bind (modify (with_view (apply_flag f)))
            (fun _ => for_each items (fun f0 => modify (with_view (apply_flag f0)))) v)
    with (for_each items (fun f0 => modify (with_view (apply_flag f0)))
            (with_view (apply_flag f) v)).
  apply (IH (with_view (apply_flag f) v)).
Qed.

(** X11: on a viewer with a window, the view after [reset_view] with
    a flags dict is the default view, with the rotation widget placed at
    the middle of the window, overridden by the entries of the dict in
    their order; an entry whose key is not a key of the view changes
    nothing.  This holds whether or not applying the flags afterwards
    raises. *)
Theorem reset_view_applies_flags (items : list flag) (v : SceneViewer)
    (win : Window) :
  window v = Some win ->
  view (snd (reset_view (Some items) v)) =
    fold_left (fun vw f => apply_flag f vw) items
      {| cull := true; axis := axis_off; fullscreen := false;
         wireframe := false; translation := zeros3;
         center := centroid (scene v); scale := scene_scale (scene v);
         ball := Arcball_place Arcball_new
                   (inject_Z (width win) / 2, inject_Z (height win) / 2)%Q
                   (inject_Z (width win + height win) / 2)%Q |}.
Proof.
  intros Hwin.
  unfold reset_view. rewrite bind_gets.
  unfold bind at 1. cbn [modify]. unfold try_pass. cbn [snd].
  unfold window_size. rewrite bind_bind, bind_gets.
  cbn [window with_view]. rewrite Hwin. rewrite bind_ret.
  unfold bind at 1. cbn [modify].
  match goal with
  | |- context [bind (for_each items ?body) _ ?w] =>
      destruct (for_each_apply_flag items w) as (R & V);
      unfold bind;
      destruct (for_each items body w) as [[[] | e] w1];
      cbn [fst snd] in R, V; [| discriminate]
  end.
  rewrite update_flags_view, V. reflexivity.
Qed.


(** ** Lighting *)

Lemma bind_Ok {A B} (m : M SceneViewer A) (k : A -> M SceneViewer B)
    (v v' : SceneViewer) (a : A) :
  m v = (Ok a, v') -> bind m k v = k a v'.
Proof. intros E. unfold bind. now rewrite E. Qed.

Lemma for_each_emit {A} (xs : list A) (f : A -> call) (v : SceneViewer) :
  for_each xs (fun a => emit (f a)) v = (Ok tt, add_calls (map f xs) v).
Proof.
  revert v. induction xs as [| x xs IH]; intros v; cbn [for_each map].
  - now rewrite add_calls_nil.
  - rewrite bind_emit, IH, add_calls_app. reflexivity.
Qed.

Lemma enabled_caps_app (l1 l2 : list call) :
  enabled_caps (l1 ++ l2) = enabled_caps l1 ++ enabled_caps l2.
Proof.
  induction l1 as [| c l1 IH]; [reflexivity |].
  destruct c; cbn; now rewrite ?IH.
Qed.

Lemma enabled_caps_glLightfv {A} (f : A -> GLenum * GLenum * list Q) (xs : list A) :
  enabled_caps (map (fun a => glLightfv (fst (fst (f a))) (snd (fst (f a))) (snd (f a))) xs) = [].
Proof. induction xs as [| x xs IH]; [reflexivity | exact IH]. Qed.

Lemma lighting_prefix (sc : Scene) (before tail : list Light) (i : nat)
    (v : SceneViewer) :
  Forall (fun light => is_Some (nodes (graph sc) !! light_name light)) before ->
  exists issued,
    enabled_caps issued = map GL_LIGHT (seq i (length before)) /\
    for_each (combine (seq i (length (before ++ tail))) (before ++ tail))
      (light_step sc) v =
    for_each (combine (seq (i + length before) (length tail)) tail)
      (light_step sc) (add_calls issued v).
Proof.
  revert i v. induction before as [| light before IH]; intros i v Hall.
  - exists []. split; [reflexivity |].
    cbn [app length]. now rewrite Nat.add_0_r, add_calls_nil.
  - apply Forall_cons in Hall as [[[matrix geo] Hlight] Hrest].
    cbn [app length seq combine for_each].
    unfold light_step at 1. cbn [fst snd]. rewrite Hlight.
    cbv zeta. rewrite bind_bind, bind_emit.
    erewrite bind_Ok by apply for_each_emit.
    rewrite add_calls_app.
    destruct (IH (S i) (add_calls
      ([glEnable (GL_LIGHT i)] ++
       map (fun a => glLightfv (fst (fst a)) (snd (fst a)) (snd a))
         (light_to_gl light matrix (GL_LIGHT i))) v) Hrest) as (issued & Ecaps & Erun).
    eexists. split; [| rewrite Erun, add_calls_app, <- Nat.add_succ_comm; reflexivity].
    rewrite !enabled_caps_app. cbn [enabled_caps app].
    rewrite Ecaps.
    rewrite (enabled_caps_glLightfv (fun a => a)). reflexivity.
Qed.

Lemma update_lighting_unfold (v : SceneViewer) :
  update_lighting v =
    for_each (combine (seq 0 (length (firstn 7 (lights (scene v)))))
                (firstn 7 (lights (scene v))))
      (light_step (scene v)) (add_calls [glEnable GL_LIGHTING] v).
Proof. reflexivity. Qed.

(** X12: when the first seven lights of the scene have their node in
    the graph, [update_lighting] returns and what it enables is lighting
    and then [GL_LIGHT0], [GL_LIGHT1], ... one per light, for at most
    seven lights; lights after the seventh are not looked at. *)
Theorem update_lighting_enables (v : SceneViewer) :
  Forall (fun light => is_Some (nodes (graph (scene v)) !! light_name light))
         (firstn 7 (lights (scene v))) ->
  exists issued,
    update_lighting v = (Ok tt, add_calls issued v) /\
    enabled_caps issued =
      GL_LIGHTING :: map GL_LIGHT (seq 0 (Nat.min 7 (length (lights (scene v))))).
Proof.
  intros Hall.
  destruct (lighting_prefix (scene v) (firstn 7 (lights (scene v))) [] 0
              (add_calls [glEnable GL_LIGHTING] v) Hall) as (issued & Ecaps & Erun).
  rewrite app_nil_r in Erun.
  exists ([glEnable GL_LIGHTING] ++ issued). split.
  - rewrite update_lighting_unfold, Erun. cbn [length seq combine for_each].
    unfold ret. now rewrite add_calls_app.
  - rewrite enabled_caps_app, Ecaps, length_firstn. reflexivity.
Qed.

(** X13: when a light among the first seven has no node in the
    graph, and the lights before it do, [update_lighting] does not
    return: the failed lookup in the scene graph raises (whatever error
    the graph raises for an unknown node; nothing here catches it), and
    at that point lighting and exactly the lights before the missing
    one have been enabled. *)
Theorem update_lighting_missing_light (v : SceneViewer)
    (before rest : list Light) (light : Light) :
  lights (scene v) = before ++ light :: rest ->
  (length before < 7)%nat ->
  Forall (fun l => is_Some (nodes (graph (scene v)) !! light_name l)) before ->
  nodes (graph (scene v)) !! light_name light = None ->
  exists e issued,
    update_lighting v = (Raise e, add_calls issued v) /\
    enabled_caps issued = GL_LIGHTING :: map GL_LIGHT (seq 0 (length before)).
Proof.
  intros Hlights Hshort Hall Hmissing.
  assert (Hfirst : firstn 7 (lights (scene v)) =
                   before ++ light :: firstn (6 - length before) rest).
  { rewrite Hlights, firstn_app.
    rewrite firstn_all2 by lia.
    replace (7 - length before)%nat with (S (6 - length before)) by lia.
    reflexivity. }
  destruct (lighting_prefix (scene v) before
              (light :: firstn (6 - length before) rest) 0
              (add_calls [glEnable GL_LIGHTING] v) Hall) as (issued & Ecaps & Erun).
  eexists. exists ([glEnable GL_LIGHTING] ++ issued). split.
  - rewrite update_lighting_unfold, Hfirst, Erun.
    cbn [length seq combine for_each].
    unfold light_step at 1. cbn [fst snd]. rewrite Hmissing.
    unfold bind, raise. now rewrite add_calls_app.
  - rewrite enabled_caps_app, Ecaps. reflexivity.
Qed.

(** ** Pipeline initialisation: the background colour *)

Lemma background_calls_app (l1 l2 : list call) :
  background_calls (l1 ++ l2) = background_calls l1 ++ background_calls l2.
Proof.
  induction l1 as [| c l1 IH]; [reflexivity |].
  destruct c; cbn; now rewrite ?IH.
Qed.

Lemma closed_no_background : closed (fun l => background_calls l = []).
Proof.
  split; [reflexivity |].
  intros l1 l2 H1 H2. now rewrite background_calls_app, H1, H2.
Qed.

Lemma update_lighting_no_background :
  adds update_lighting (fun l => background_calls l = []).
Proof. unfold update_lighting. adds_auto closed_no_background. Qed.

(** the background calls of [init_gl], by what the [background] option
    is and what [to_rgba] makes of it *)
Lemma init_gl_background_calls (v : SceneViewer) :
  exists issued,
    trace (snd (init_gl v)) = trace v ++ issued /\
    background_calls issued =
      match background (kwargs v) with
      | None => [glClearColor (99 # 100) (99 # 100) (99 # 100) 1]
      | Some given =>
          match to_rgba given with
          | Ok (r, g, b, a) =>
              [glClearColor (inject_Z r / 255) (inject_Z g / 255)
                            (inject_Z b / 255) (inject_Z a / 255)]
          | Raise _ =>
              [log_error "background color set but wrong!";
               glClearColor (99 # 100) (99 # 100) (99 # 100) 1]
          end
      end.
Proof.
  unfold init_gl.
  set (tail := fun colour : Q * Q * Q * Q => _).
  assert (Htail : forall r g b a w,
    exists issued, trace (snd (tail (r, g, b, a) w)) = trace w ++ issued /\
      background_calls issued = [glClearColor r g b a]).
  { intros r g b a w. unfold tail.
    unfold bind at 1. cbn [emit modify fst snd].
    match goal with
    | |- context [bind ?m ?k] =>
        assert (Hrest : adds (bind m k) (fun l => background_calls l = []))
    end.
    { adds_auto closed_no_background.
      apply update_lighting_no_background. }
    match type of Hrest with
    | adds ?rest _ => destruct (Hrest
        (with_trace (fun t => t ++ [glClearColor r g b a]) w)) as (l & El & Pl)
    end.
    eexists. split.
    - rewrite El. cbn [trace with_trace]. rewrite <- !app_assoc. reflexivity.
    - cbn [app]. cbn [background_calls]. now rewrite Pl. }
  unfold bind at 1. cbn [gets].
  destruct (background (kwargs v)) as [given |].
  - destruct (to_rgba given) as [[[[r g] b] a] | e].
    + unfold bind at 1. cbn [ret]. apply Htail.
    + unfold bind at 1. unfold bind at 1. cbn [emit modify ret].
      destruct (Htail (99 # 100) (99 # 100) (99 # 100) 1%Q
                  (with_trace (fun t => t ++ [log_error "background color set but wrong!"]) v))
        as (l & El & Pl).
      eexists. split.
      * rewrite El. cbn [trace with_trace]. rewrite <- app_assoc. reflexivity.
      * cbn [app background_calls]. now rewrite Pl.
  - unfold bind at 1. cbn [ret]. apply Htail.
Qed.

(** X14: [init_gl] only adds calls, and of the calls that deal with the
    background it adds these.  Without a [background] option: one
    [glClearColor] with the default (0.99, 0.99, 0.99, 1.0).  With an
    option that [to_rgba] turns into the four channels of an RGBA
    array: one [glClearColor] with the channels divided by 255.  With an
    option on which [to_rgba] itself raises: the error is logged, and
    then one [glClearColor] with the default, [init_gl] going on.  (A
    [to_rgba] that returns something that is not an array is outside
    these three cases.) *)
Theorem init_gl_background (v : SceneViewer) :
  exists issued,
    trace (snd (init_gl v)) = trace v ++ issued /\
    (background (kwargs v) = None ->
     background_calls issued = [glClearColor (99 # 100) (99 # 100) (99 # 100) 1]) /\
    (forall given r g b a,
       background (kwargs v) = Some given ->
       to_rgba given = Ok (r, g, b, a) ->
       background_calls issued =
         [glClearColor (inject_Z r / 255) (inject_Z g / 255)
                       (inject_Z b / 255) (inject_Z a / 255)]) /\
    (forall given e,
       background (kwargs v) = Some given ->
       to_rgba given = Raise e ->
       background_calls issued =
         [log_error "background color set but wrong!";
          glClearColor (99 # 100) (99 # 100) (99 # 100) 1]).
Proof.
  destruct (init_gl_background_calls v) as (issued & Etrace & Ecalls).
  exists issued. split; [exact Etrace |].
  split; [| split].
  - intros Hnone. now rewrite Hnone in Ecalls.
  - intros given r g b a Hsome Hrgba. now rewrite Hsome, Hrgba in Ecalls.
  - intros given e Hsome Hraise. now rewrite Hsome, Hraise in Ecalls.
Qed.


(** ** The draw loop ends *)

Lemma finishes_ret {A} (a : A) : finishes (ret a).
Proof. intros v. discriminate. Qed.

Lemma finishes_gets {A} (f : SceneViewer -> A) : finishes (gets f).
Proof. intros v. discriminate. Qed.

Lemma finishes_emit c : finishes (emit c).
Proof. intros v. discriminate. Qed.

Lemma finishes_raise {A} e : e <> Diverges -> finishes (@raise _ A e).
Proof. intros He v. cbn. congruence. Qed.

Lemma finishes_inverse (m : mat4) : finishes (lift (np_linalg_inv m)).
Proof.
  intros v. unfold lift, np_linalg_inv. cbn.
  destruct (Qeq_bool (det4 m) 0); discriminate.
Qed.

Lemma finishes_bind {A B} (m : M SceneViewer A) (k : A -> M SceneViewer B) :
  finishes m -> (forall a, finishes (k a)) -> finishes (bind m k).
Proof.
  intros Hm Hk v. unfold bind. specialize (Hm v).
  destruct (m v) as [[a | e] v1]; cbn in *; [apply Hk |].
  intros [= ->]. now apply Hm.
Qed.

Lemma finishes_axis_draw : finishes axis_draw.
Proof.
  unfold axis_draw. apply finishes_bind; [apply finishes_gets |].
  intros [l |]; [apply finishes_emit | now apply finishes_raise].
Qed.

Ltac finishes_step :=
  lazymatch goal with
  | |- finishes (ret _) => apply finishes_ret
  | |- finishes (raise _) => apply finishes_raise; discriminate
  | |- finishes (gets _) => apply finishes_gets
  | |- finishes (emit _) => apply finishes_emit
  | |- finishes (lift (np_linalg_inv _)) => apply finishes_inverse
  | |- finishes axis_draw => apply finishes_axis_draw
  | |- finishes (bind _ _) => apply finishes_bind; [| intros]
  | |- finishes (let _ := _ in _) => cbv zeta
  | |- finishes (match ?x with _ => _ end) => destruct x eqn:?
  end.

Lemma draw_nodes_finishes (fuel : nat) (view_t : mat4) (n count : Z)
    (queue : list string) :
  (length queue + Z.to_nat (n - 1 - count) <= fuel)%nat ->
  finishes (draw_nodes fuel view_t n count queue).
Proof.
  revert count queue.
  induction fuel as [| fuel IH]; intros count queue Hfuel.
  - destruct queue as [| node rest]; [apply finishes_ret |].
    cbn [length] in Hfuel. lia.
  - destruct queue as [| node rest]; [apply finishes_ret |].
    cbn [length] in Hfuel. cbn [draw_nodes].
    repeat finishes_step.
    all: apply IH.
    all: rewrite ?length_app; cbn [length].
    all: repeat match goal with
         | H : (_ && _)%bool = true |- _ => apply andb_true_iff in H as [? ?]
         | H : (_ <? _)%Z = true |- _ => apply Z.ltb_lt in H
         end.
    all: lia.
Qed.

(** X15: the draw loop of [on_draw] ends within twice as many
    iterations as there are nodes in the queue, whatever the scene, the
    view and the viewer hold and whether it returns or raises: run with
    that bound, it never runs out of iterations. *)
Theorem on_draw_loop_ends (view_t : mat4) (queue : list string) (v : SceneViewer) :
  fst (draw_nodes (2 * length queue) view_t (Z.of_nat (length queue)) (-1)
         queue v) <> Raise Diverges.
Proof.
  apply draw_nodes_finishes. lia.
Qed.

(** ** What a step leaves alone *)

Lemma unchanged_ret {X A} (proj : SceneViewer -> X) (a : A) : unchanged proj (ret a).
Proof. intros v. reflexivity. Qed.

Lemma unchanged_raise {X A} (proj : SceneViewer -> X) e :
  unchanged proj (@raise _ A e).
Proof. intros v. reflexivity. Qed.

Lemma unchanged_gets {X A} (proj : SceneViewer -> X) (f : SceneViewer -> A) :
  unchanged proj (gets f).
Proof. intros v. reflexivity. Qed.

Lemma unchanged_lift {X A} (proj : SceneViewer -> X) (o : outcome A) :
  unchanged proj (lift o).
Proof. intros v. reflexivity. Qed.

Lemma unchanged_modify {X} (proj : SceneViewer -> X) (f : SceneViewer -> SceneViewer) :
  (forall v, proj (f v) = proj v) -> unchanged proj (modify f).
Proof. intros Hf v. apply Hf. Qed.

Lemma unchanged_bind {X A B} (proj : SceneViewer -> X) (m : M SceneViewer A)
    (k : A -> M SceneViewer B) :
  unchanged proj m -> (forall a, unchanged proj (k a)) -> unchanged proj (bind m k).
Proof.
  intros Hm Hk v. unfold bind. specialize (Hm v).
  destruct (m v) as [[a | e] v1]; cbn in *; [| exact Hm].
  now rewrite Hk.
Qed.

Lemma unchanged_for_each {X A} (proj : SceneViewer -> X) (xs : list A)
    (body : A -> M SceneViewer unit) :
  (forall x, unchanged proj (body x)) -> unchanged proj (for_each xs body).
Proof.
  intros Hbody. induction xs as [| x xs IH]; cbn [for_each].
  - apply unchanged_ret.
  - apply unchanged_bind; auto.
Qed.

Lemma unchanged_try_pass {X} (proj : SceneViewer -> X) (body : M SceneViewer unit) :
  unchanged proj body -> unchanged proj (try_pass body).
Proof. intros H v. exact (H v). Qed.

Lemma unchanged_try_except {X A} (proj : SceneViewer -> X)
    (body handler : M SceneViewer A) caught :
  unchanged proj body -> unchanged proj handler ->
  unchanged proj (try_except body caught handler).
Proof.
  intros Hb Hh v. unfold try_except. specialize (Hb v).
  destruct (body v) as [[a | e] v1]; cbn in *; [exact Hb |].
  destruct (caught e); cbn; [| exact Hb].
  now rewrite Hh.
Qed.

Ltac unchanged_step :=
  lazymatch goal with
  | |- unchanged _ (ret _) => apply unchanged_ret
  | |- unchanged _ (raise _) => apply unchanged_raise
  | |- unchanged _ (gets _) => apply unchanged_gets
  | |- unchanged _ (lift _) => apply unchanged_lift
  | |- unchanged _ (emit _) => apply unchanged_modify; intros; reflexivity
  | |- unchanged _ (modify _) => apply unchanged_modify; intros; reflexivity
  | |- unchanged _ (batch_add_indexed _) => intros ?; reflexivity
  | |- unchanged _ (for_each _ _) => apply unchanged_for_each; intros
  | |- unchanged _ (try_pass _) => apply unchanged_try_pass
  | |- unchanged _ (try_except _ _ _) => apply unchanged_try_except
  | |- unchanged _ (bind _ _) => apply unchanged_bind; [| intros]
  | |- unchanged _ (let _ := _ in _) => cbv zeta
  | |- unchanged _ (match ?x with _ => _ end) => destruct x
  end.

Ltac unchanged_auto := repeat unchanged_step.

Lemma draw_nodes_holdings (fuel : nat) (view_t : mat4) (n count : Z)
    (queue : list string) :
  unchanged holdings (draw_nodes fuel view_t n count queue).
Proof.
  revert count queue.
  induction fuel as [| fuel IH]; intros count [| node rest]; cbn [draw_nodes];
    try apply unchanged_ret; try apply unchanged_raise.
  unfold axis_draw. unchanged_auto. all: apply IH.
Qed.

(** X16: [on_draw] never uploads, replaces or deletes anything: the
    four dicts, the batch, the view, the axis marker and the window are
    after it what they were before, whether it returns or raises (the
    scene may change, through the callback). *)
Theorem on_draw_holdings (v : SceneViewer) :
  let after := snd (on_draw v) in
  vertex_list after = vertex_list v /\
  vertex_list_hash after = vertex_list_hash v /\
  vertex_list_mode after = vertex_list_mode v /\
  textures after = textures v /\
  batch after = batch v /\
  view after = view v /\
  _axis after = _axis v /\
  window after = window v.
Proof.
  assert (H : unchanged holdings on_draw).
  { unfold on_draw, _update_meshes. unchanged_auto.
    all: apply draw_nodes_holdings. }
  specialize (H v). unfold holdings, maps_of in H.
  cbv zeta. injection H. intros. repeat split; assumption.
Qed.

(** ** The constructor, step by step *)

Lemma bind_inv {A B} (m : M SceneViewer A) (k : A -> M SceneViewer B)
    (v v' : SceneViewer) (b : B) :
  bind m k v = (Ok b, v') ->
  exists a v1, m v = (Ok a, v1) /\ k a v1 = (Ok b, v').
Proof.
  unfold bind. destruct (m v) as [[a | e] v1]; [eauto | discriminate].
Qed.

Lemma unchanged_run {X A} (proj : SceneViewer -> X) (m : M SceneViewer A)
    (v v' : SceneViewer) (o : outcome A) :
  unchanged proj m -> m v = (o, v') -> proj v' = proj v.
Proof. intros Hm Hrun. specialize (Hm v). now rewrite Hrun in Hm. Qed.

Lemma adds_batch_add_indexed args (P : list call -> Prop) :
  P [] -> adds (batch_add_indexed args) P.
Proof. intros H v. exists []. cbn. now rewrite app_nil_r. Qed.

Ltac adds_walk closedness :=
  repeat first
    [ adds_step closedness
    | lazymatch goal with
      | |- adds (try_pass _) _ => apply adds_try_pass
      | |- adds (try_except _ _ _) _ =>
          apply adds_try_except; [exact closedness | |]
      | |- adds (batch_add_indexed _) _ =>
          apply adds_batch_add_indexed; reflexivity
      end ].

Ltac unfold_steps :=
  unfold reset_view, window_size, update_flags, set_fullscreen,
    vertex_list_delete_from_batch, Window_init, add_geometry, init_gl,
    update_lighting, set_size.

Lemma event_loop_calls_app (l1 l2 : list call) :
  event_loop_calls (l1 ++ l2) = event_loop_calls l1 ++ event_loop_calls l2.
Proof.
  induction l1 as [| c l1 IH]; [reflexivity |].
  destruct c; cbn; now rewrite ?IH.
Qed.

Lemma closed_no_event_loop : closed (fun l => event_loop_calls l = []).
Proof.
  split; [reflexivity |].
  intros l1 l2 H1 H2. now rewrite event_loop_calls_app, H1, H2.
Qed.

Lemma quiet_run {A} (m : M SceneViewer A) (v v' : SceneViewer) (o : outcome A) :
  adds m (fun l => event_loop_calls l = []) -> m v = (o, v') ->
  event_loop_calls (trace v') = event_loop_calls (trace v).
Proof.
  intros Hm Hrun. destruct (Hm v) as (l & El & Pl). rewrite Hrun in El.
  cbn in El. now rewrite El, event_loop_calls_app, Pl, app_nil_r.
Qed.

(** the thirteen steps of a constructor run that returned *)
Ltac constructor_steps H :=
  unfold SceneViewer_new, SceneViewer_init in H;
  apply bind_inv in H as ([] & v1 & H1 & H);
  apply bind_inv in H as ([] & v2 & H2 & H);
  apply bind_inv in H as ([] & v3 & H3 & H);
  apply bind_inv in H as (size & v4 & H4 & H);
  apply bind_inv in H as ([] & v5 & H5 & H);
  apply bind_inv in H as (s & v5' & H6 & H);
  apply bind_inv in H as ([] & v6 & H7 & H);
  apply bind_inv in H as ([] & v7 & H8 & H);
  apply bind_inv in H as ([] & v8 & H9 & H);
  apply bind_inv in H as ([] & v9 & H10 & H);
  apply bind_inv in H as (cb & v9' & H11 & H);
  apply bind_inv in H as ([] & v10 & H12 & H).

Lemma window_created (vis : option bool) (w h : Z) (cap : option string)
    (v v' : SceneViewer) :
  try_except (Window_init antialiased_config vis w h cap)
    (fun e => match e with NoSuchConfigException => true | _ => false end)
    (Window_init plain_config vis w h cap) v = (Ok tt, v') ->
  (config_available antialiased_config = true \/
   config_available plain_config = true) /\
  window v' =
    Some {| config := if config_available antialiased_config
                      then antialiased_config else plain_config;
            visible := vis; resizable := true; width := w; height := h;
            caption := cap; is_fullscreen := false |}.
Proof.
  unfold try_except, Window_init, modify, raise.
  destruct (config_available antialiased_config).
  - intros [= <-]. split; [now left | reflexivity].
  - destruct (config_available plain_config); [| discriminate].
    intros [= <-]. split; [now right | reflexivity].
Qed.

Lemma set_size_shape (w h : Z) (v v' : SceneViewer) (win : Window) :
  window v = Some win ->
  set_size w h v = (Ok tt, v') ->
  window v' = Some {| config := config win; visible := visible win;
                      resizable := resizable win; width := w; height := h;
                      caption := caption win;
                      is_fullscreen := is_fullscreen win |}.
Proof.
  intros Hwin. unfold set_size, bind, gets, modify, emit. rewrite Hwin.
  now intros [= <-].
Qed.

Lemma set_fullscreen_shape (b : bool) : unchanged window_shape (set_fullscreen b).
Proof.
  intros v. unfold set_fullscreen, bind, gets, modify, emit, raise, window_shape.
  destruct (window v) eqn:Hwin; cbn; now rewrite ?Hwin.
Qed.

Lemma update_flags_shape : unchanged window_shape update_flags.
Proof.
  unfold update_flags, vertex_list_delete_from_batch.
  repeat first [ apply set_fullscreen_shape | unchanged_step ].
Qed.

Lemma reset_view_scene flags :
  unchanged (fun v => (scene v, callback v)) (reset_view flags).
Proof. unfold_steps. unchanged_auto. Qed.

Lemma add_geometry_window name g smooth :
  unchanged (fun v => (window v, scene v, callback v)) (add_geometry name g smooth).
Proof. unfold_steps. unchanged_auto. Qed.

Lemma init_gl_window :
  unchanged (fun v => (window v, scene v, callback v)) init_gl.
Proof. unfold_steps. unchanged_auto. Qed.

(** X17: a constructor that returns has created its window with the
    anti-aliased configuration if the platform grants it and otherwise
    with the plain double-buffered one, resizable, with the [visible] and
    [caption] arguments, and of the size of the [resolution] argument or,
    without one, of the resolution of the scene's camera. *)
Theorem constructor_window (sc : Scene) (a : viewer_args) (v : SceneViewer) :
  SceneViewer_new sc a = (Ok tt, v) ->
  let size := match arg_resolution a with
              | None => resolution (camera sc)
              | Some r => r
              end in
  (config_available antialiased_config = true \/
   config_available plain_config = true) /\
  window_shape v =
    Some (if config_available antialiased_config
          then antialiased_config else plain_config,
          arg_visible a, true, fst size, snd size, arg_caption a).
Proof.
  intros H. constructor_steps H.
  (* the size asked for *)
  assert (Hscene : scene v3 = sc).
  { injection H1 as <-. injection H3 as <-. cbn.
    pose proof (unchanged_run _ _ _ _ _ (reset_view_scene _) H2) as E.
    now injection E. }
  assert (Hsize : size = match arg_resolution a with
                         | None => resolution (camera sc)
                         | Some r => r
                         end).
  { destruct (arg_resolution a) as [r |].
    - apply bind_inv in H4 as ([] & w & _ & [= <- _]). reflexivity.
    - apply bind_inv in H4 as (s0 & w & [= <- <-] & [= <- _]). now rewrite Hscene. }
  rewrite <- Hsize. clear Hsize Hscene H1 H2 H3 H4.
  (* the window that was created *)
  apply window_created in H5 as (Hconf & Hwin).
  split; [exact Hconf |].
  injection H6 as _ <-.
  assert (W6 : window v6 = window v5).
  { pose proof (unchanged_run _ _ _ _ _
      (unchanged_for_each _ _ _ (fun x => add_geometry_window _ _ _)) H7) as E.
    now injection E. }
  assert (W7 : window v7 = window v6).
  { pose proof (unchanged_run _ _ _ _ _ init_gl_window H8) as E. now injection E. }
  rewrite W6, Hwin in W7.
  apply (set_size_shape _ _ _ _ _ W7) in H9.
  assert (W9 : window_shape v9 = window_shape v8).
  { apply (unchanged_run window_shape _ _ _ _ update_flags_shape H10). }
  injection H11 as _ <-.
  assert (W10 : window v10 = window v9).
  { destruct cb; [injection H12 as <- | injection H12 as <-]; reflexivity. }
  assert (W : window v = window v10).
  { destruct (arg_start_loop a); injection H as <-; reflexivity. }
  unfold window_shape in *. rewrite W, W10, W9, H9. reflexivity.
Qed.

Lemma conversion_calls_app (l1 l2 : list call) :
  conversion_calls (l1 ++ l2) = conversion_calls l1 ++ conversion_calls l2.
Proof.
  induction l1 as [| c l1 IH]; [reflexivity |].
  destruct c; cbn; now rewrite ?IH.
Qed.

Lemma closed_no_conversion : closed (fun l => conversion_calls l = []).
Proof.
  split; [reflexivity |].
  intros l1 l2 H1 H2. now rewrite conversion_calls_app, H1, H2.
Qed.

Lemma unconverted_run {A} (m : M SceneViewer A) (v v' : SceneViewer) (o : outcome A) :
  adds m (fun l => conversion_calls l = []) -> m v = (o, v') ->
  conversion_calls (trace v') = conversion_calls (trace v).
Proof.
  intros Hm Hrun. destruct (Hm v) as (l & El & Pl). rewrite Hrun in El.
  cbn in El. now rewrite El, conversion_calls_app, Pl, app_nil_r.
Qed.

Lemma quiet_reset_view flags :
  adds (reset_view flags) (fun l => event_loop_calls l = []).
Proof. unfold_steps. adds_walk closed_no_event_loop. Qed.

Lemma quiet_add_geometry name g smooth :
  adds (add_geometry name g smooth) (fun l => event_loop_calls l = []).
Proof. unfold_steps. adds_walk closed_no_event_loop. Qed.

Lemma quiet_init_gl : adds init_gl (fun l => event_loop_calls l = []).
Proof. unfold_steps. adds_walk closed_no_event_loop. Qed.

Lemma quiet_set_size w h : adds (set_size w h) (fun l => event_loop_calls l = []).
Proof. unfold_steps. adds_walk closed_no_event_loop. Qed.

Lemma quiet_update_flags : adds update_flags (fun l => event_loop_calls l = []).
Proof. unfold_steps. adds_walk closed_no_event_loop. Qed.

Lemma unconverted_reset_view flags :
  adds (reset_view flags) (fun l => conversion_calls l = []).
Proof. unfold_steps. adds_walk closed_no_conversion. Qed.

Lemma unconverted_init_gl : adds init_gl (fun l => conversion_calls l = []).
Proof. unfold_steps. adds_walk closed_no_conversion. Qed.

Lemma unconverted_set_size w h :
  adds (set_size w h) (fun l => conversion_calls l = []).
Proof. unfold_steps. adds_walk closed_no_conversion. Qed.

Lemma unconverted_update_flags :
  adds update_flags (fun l => conversion_calls l = []).
Proof. unfold_steps. adds_walk closed_no_conversion. Qed.

Lemma set_size_callback w h : unchanged callback (set_size w h).
Proof. unfold_steps. unchanged_auto. Qed.

Lemma update_flags_callback : unchanged callback update_flags.
Proof. unfold_steps. unchanged_auto. Qed.


(** A constructor run that returned went through a state [before] in
    which nothing was uploaded yet, uploaded the scene geometry from it,
    and ended with the event-loop set-up. *)
Lemma constructor_anatomy (sc : Scene) (a : viewer_args) (v : SceneViewer) :
  SceneViewer_new sc a = (Ok tt, v) ->
  exists before uploaded ready,
    (geometry (scene before) = geometry sc /\
     maps_of before = (∅, ∅, ∅, ∅) /\
     event_loop_calls (trace before) = [] /\
     conversion_calls (trace before) = []) /\
    for_each (geometry sc)
      (fun item => add_geometry (fst item) (snd item) (Some (arg_smooth a)))
      before = (Ok tt, uploaded) /\
    (maps_of ready = maps_of uploaded /\
     conversion_calls (trace ready) = conversion_calls (trace uploaded)) /\
    (event_loop_calls (trace uploaded) = event_loop_calls (trace before) ->
     event_loop_calls (trace ready) = event_loop_calls (trace before)) /\
    maps_of v = maps_of ready /\
    trace v = trace ready ++ loop_setup a.
Proof.
  intros H. constructor_steps H.
  exists v5, v6, v9.
  (* the attributes set before the window exists *)
  injection H1 as <-.
  pose proof (unchanged_run _ _ _ _ _ (reset_view_scene _) H2) as E2.
  cbn in E2. injection E2 as Hscene2 Hcb2.
  pose proof (quiet_run _ _ _ _ (quiet_reset_view _) H2) as Q2.
  pose proof (unconverted_run _ _ _ _ (unconverted_reset_view _) H2) as C2.
  cbn in Q2, C2.
  injection H3 as <-.
  assert (F4 : geometry (scene v4) = geometry sc /\ callback v4 = arg_callback a /\
               maps_of v4 = (∅, ∅, ∅, ∅) /\ trace v4 = trace v2).
  { destruct (arg_resolution a) as [r |].
    - apply bind_inv in H4 as ([] & w & [= <-] & [= _ <-]). cbn.
      now rewrite Hscene2, Hcb2.
    - apply bind_inv in H4 as (s0 & w & [= _ <-] & [= _ <-]). cbn.
      now rewrite Hscene2, Hcb2. }
  destruct F4 as (G4 & Cb4 & M4 & T4).
  assert (F5 : scene v5 = scene v4 /\ callback v5 = callback v4 /\
               maps_of v5 = maps_of v4 /\ trace v5 = trace v4).
  { clear -H5. unfold try_except, Window_init, modify, raise in H5.
    destruct (config_available _); [now injection H5 as <- |].
    destruct (config_available _); [now injection H5 as <- | discriminate]. }
  destruct F5 as (S5 & Cb5 & M5 & T5).
  injection H6 as Hs <-.
  split.
  { rewrite S5, M5, T5, T4. auto. }
  split.
  { rewrite <- G4, <- S5, Hs. exact H7. }
  (* after the upload *)
  pose proof (keeps_init_gl v6) as K8. rewrite H8 in K8. cbn in K8.
  pose proof (keeps_set_size (fst size) (snd size) v7) as K9. rewrite H9 in K9. cbn in K9.
  pose proof (keeps_update_flags v8) as K10. rewrite H10 in K10. cbn in K10.
  pose proof (unconverted_run _ _ _ _ unconverted_init_gl H8) as C8.
  pose proof (unconverted_run _ _ _ _ (unconverted_set_size _ _) H9) as C9.
  pose proof (unconverted_run _ _ _ _ unconverted_update_flags H10) as C10.
  pose proof (quiet_run _ _ _ _ quiet_init_gl H8) as Q8.
  pose proof (quiet_run _ _ _ _ (quiet_set_size _ _) H9) as Q9.
  pose proof (quiet_run _ _ _ _ quiet_update_flags H10) as Q10.
  split; [split; congruence |].
  split; [congruence |].
  (* the callback is the one passed in *)
  assert (Cb6 : callback v6 = callback v5).
  { pose proof (unchanged_run _ _ _ _ _
      (unchanged_for_each _ _ _ (fun x => add_geometry_window _ _ _)) H7) as E.
    now injection E. }
  assert (Cb7 : callback v7 = callback v6).
  { pose proof (unchanged_run _ _ _ _ _ init_gl_window H8) as E. now injection E. }
  assert (Cb8 : callback v8 = callback v7).
  { apply (unchanged_run callback _ _ _ _ (set_size_callback _ _) H9). }
  assert (Cb9 : callback v9 = callback v8).
  { apply (unchanged_run callback _ _ _ _ update_flags_callback H10). }
  injection H11 as Hcb <-.
  assert (Ecb : cb = arg_callback a) by congruence.
  unfold loop_setup. rewrite <- Ecb.
  destruct cb, (arg_start_loop a); injection H12 as <-; injection H as <-;
    cbn; rewrite <- ?app_assoc, ?app_nil_r; auto.
Qed.

Lemma upload_keys (items : list (string * Geometry)) (smooth : option bool)
    (v v' : SceneViewer) :
  for_each items (fun item => add_geometry (fst item) (snd item) smooth) v
    = (Ok tt, v') ->
  dom (vertex_list v') = list_to_set (map fst items) ∪ dom (vertex_list v) /\
  conversion_calls (trace v') =
    conversion_calls (trace v) ++ map (fun item => (faces (snd item), smooth)) items /\
  event_loop_calls (trace v') = event_loop_calls (trace v).
Proof.
  revert v. induction items as [| [name g] items IH]; intros v Hrun.
  - injection Hrun as <-. cbn. rewrite app_nil_r. split; [set_solver | auto].
  - cbn [for_each] in Hrun.
    apply bind_inv in Hrun as ([] & v1 & Hadd & Hrun). cbn [fst snd] in Hadd.
    destruct (IH _ Hrun) as (Hkeys & Hconv & Hquiet).
    pose proof (add_geometry_keys _ _ _ _ _ Hadd) as (K1 & _).
    pose proof (quiet_run _ _ _ _ (quiet_add_geometry _ _ _) Hadd) as Q.
    split; [| split].
    + rewrite Hkeys, K1. cbn [map fst list_to_set]. set_solver.
    + rewrite Hconv. cbn [map fst snd].
      enough (E1 : conversion_calls (trace v1) =
                   conversion_calls (trace v) ++ [(faces g, smooth)])
        by (rewrite E1, <- app_assoc; reflexivity).
      clear -Hadd.
      unfold add_geometry, bind, emit, modify, lift, batch_add_indexed, ret in Hadd.
      cbn in Hadd.
      destruct (convert_to_vertexlist g smooth) as [args | e]; [| discriminate].
      destruct (geometry_hash g) as [digest | e]; [| discriminate].
      destruct (visual g) as [vis |]; [destruct (material vis) as [mat |] |].
      1: destruct (material_to_texture mat) as [[t |] | e]; [| | discriminate].
      all: injection Hadd as <-; cbn; rewrite !conversion_calls_app; cbn;
        now rewrite ?app_nil_r.
    + congruence.
Qed.

(** X18: after a constructor that returned, the keys of
    [vertex_list] are exactly the names of the scene's geometries, and
    the conversions that were requested are one per geometry, in the
    order of the scene, each with the [smooth] argument as passed,
    whatever the number of faces. *)
Theorem constructor_uploads_scene (sc : Scene) (a : viewer_args) (v : SceneViewer) :
  SceneViewer_new sc a = (Ok tt, v) ->
  dom (vertex_list v) = list_to_set (map fst (geometry sc)) /\
  conversion_calls (trace v) =
    map (fun item => (faces (snd item), Some (arg_smooth a))) (geometry sc).
Proof.
  intros H.
  destruct (constructor_anatomy _ _ _ H)
    as (v5 & v6 & v9 & (G5 & M5 & Q5 & C5) & Hup & (M9 & C9) & _ & M & T).
  destruct (upload_keys _ _ _ _ Hup) as (Hkeys & Hconv & _).
  unfold maps_of in *. injection M5 as V5 _ _ _.
  injection M9 as V9 _ _ _. injection M as V _ _ _.
  split.
  - rewrite V, V9, Hkeys, V5. set_solver.
  - rewrite T, conversion_calls_app, C9, Hconv, C5. cbn [app].
    replace (conversion_calls (loop_setup a)) with (@nil (Z * option bool));
      [apply app_nil_r |].
    unfold loop_setup.
    destruct (arg_callback a), (arg_start_loop a); reflexivity.
Qed.

(** X19: a constructor that returns schedules the periodic timer
    exactly when a callback was passed, once, with the period passed or
    1/100 s without one, and enters the event loop exactly when
    [start_loop] is set, after the timer has been scheduled. *)
Theorem constructor_event_loop (sc : Scene) (a : viewer_args) (v : SceneViewer) :
  SceneViewer_new sc a = (Ok tt, v) ->
  event_loop_calls (trace v) = loop_setup a.
Proof.
  intros H.
  destruct (constructor_anatomy _ _ _ H)
    as (v5 & v6 & v9 & (G5 & M5 & Q5 & C5) & Hup & _ & Q9 & _ & T).
  destruct (upload_keys _ _ _ _ Hup) as (_ & _ & Hquiet).
  rewrite T, event_loop_calls_app, (Q9 Hquiet), Q5. cbn [app].
  unfold loop_setup.
  destruct (arg_callback a), (arg_start_loop a); reflexivity.
Qed.

(** ** Rendering off screen *)

Lemma window_calls_app (l1 l2 : list call) :
  window_calls (l1 ++ l2) = window_calls l1 ++ window_calls l2.
Proof.
  induction l1 as [| c l1 IH]; [reflexivity |].
  destruct c; cbn; now rewrite ?IH.
Qed.

Lemma closed_no_window_calls : closed (fun l => window_calls l = []).
Proof.
  split; [reflexivity |].
  intros l1 l2 H1 H2. now rewrite window_calls_app, H1, H2.
Qed.

Lemma window_calls_close (l : list call) :
  In window_close l -> In window_close (window_calls l).
Proof.
  induction l as [| c l IH]; [easy |].
  intros [-> | Hin]; [now left |].
  destruct c; cbn; auto.
Qed.

Lemma tallies_adds {A} (m : M SceneViewer A) :
  adds m (fun l => window_calls l = []) -> tallies m [].
Proof.
  intros Hm v. destruct (Hm v) as (l & El & Pl). exists l.
  split; [exact El |].
  destruct (fst (m v)); [exact Pl |].
  intros Hin. apply window_calls_close in Hin. now rewrite Pl in Hin.
Qed.

Lemma tallies_emit c : tallies (emit c) (window_calls [c]).
Proof. intros v. exists [c]. now split. Qed.

Lemma tallies_ret {A} (a : A) : tallies (ret a) [].
Proof. intros v. exists []. cbn. now rewrite app_nil_r. Qed.

Lemma tallies_bind {A B} (ok1 ok2 : list call) (m : M SceneViewer A)
    (k : A -> M SceneViewer B) (ok : list call) :
  tallies m ok1 -> (forall a, tallies (k a) ok2) ->
  ~ In window_close ok1 -> ok = ok1 ++ ok2 ->
  tallies (bind m k) ok.
Proof.
  intros Hm Hk Hopen -> v. unfold bind.
  destruct (Hm v) as (l1 & E1 & P1).
  destruct (m v) as [[a | e] v1]; cbn in *.
  - destruct (Hk a v1) as (l2 & E2 & P2).
    exists (l1 ++ l2). rewrite E2, E1, app_assoc. split; [reflexivity |].
    destruct (fst (k a v1)).
    + now rewrite window_calls_app, P1, P2.
    + intros Hin. apply in_app_or in Hin as [Hin | Hin]; [| now apply P2].
      apply window_calls_close in Hin. rewrite P1 in Hin. now apply Hopen.
  - exists l1. auto.
Qed.

Lemma tallies_then_ret {A B} (m : M SceneViewer A) (b : B) (ok : list call) :
  tallies m ok -> tallies (bind m (fun _ => ret b)) ok.
Proof.
  intros Hm v. unfold bind, ret. destruct (Hm v) as (l & El & Pl).
  exists l. destruct (m v) as [[a | e] v1]; cbn in *; auto.
Qed.

Lemma still_draw_nodes (fuel : nat) (view_t : mat4) (n count : Z)
    (queue : list string) :
  adds (draw_nodes fuel view_t n count queue) (fun l => window_calls l = []).
Proof.
  revert count queue.
  induction fuel as [| fuel IH]; intros count [| node rest]; cbn [draw_nodes];
    try (apply adds_ret; reflexivity); try (apply adds_raise; reflexivity).
  unfold axis_draw. adds_walk closed_no_window_calls. all: apply IH.
Qed.

Lemma still_on_draw : adds on_draw (fun l => window_calls l = []).
Proof.
  unfold on_draw, _update_meshes. adds_walk closed_no_window_calls.
  all: apply still_draw_nodes.
Qed.

Lemma still_SceneViewer_init sc a :
  adds (SceneViewer_init sc a) (fun l => window_calls l = []).
Proof.
  unfold SceneViewer_init. unfold_steps. adds_walk closed_no_window_calls.
Qed.

(** X20: [render_scene] only adds calls to the trace; when it
    returns, it has flipped the buffers exactly twice and then closed
    the window; when it raises, it has not closed the window. *)
Theorem render_scene_window_calls (platform_system : string) (sc : Scene)
    (res : Z * Z) (vis : option bool) (kw : viewer_args) (v : SceneViewer) :
  let rendered := render_scene platform_system sc res vis kw v in
  exists issued,
    trace (snd rendered) = trace v ++ issued /\
    match fst rendered with
    | Ok _ => window_calls issued = [window_flip; window_flip; window_close]
    | Raise _ => ~ In window_close issued
    end.
Proof.
  assert (Hopen0 : ~ In window_close []) by easy.
  assert (Hopen1 : ~ In window_close [window_flip]).
  { intros [H | []]. discriminate. }
  assert (Hbody : tallies
    (bind (emit clock_tick) (fun _ =>
     bind (emit window_switch_to) (fun _ =>
     bind (emit window_dispatch_events) (fun _ =>
     bind on_draw (fun _ => emit window_flip))))) [window_flip]).
  { apply (tallies_bind [] [window_flip]); [apply tallies_emit | intros _ | easy | easy].
    apply (tallies_bind [] [window_flip]); [apply tallies_emit | intros _ | easy | easy].
    apply (tallies_bind [] [window_flip]); [apply tallies_emit | intros _ | easy | easy].
    apply (tallies_bind [] [window_flip]);
      [apply tallies_adds, still_on_draw | intros _ | easy | easy].
    apply tallies_emit. }
  assert (H : tallies (render_scene platform_system sc res vis kw)
                [window_flip; window_flip; window_close]).
  { unfold render_scene.
    apply (tallies_bind [] [window_flip; window_flip; window_close]);
      [apply tallies_adds, still_SceneViewer_init | intros _ | easy | easy].
    cbv zeta. cbn [for_each].
    apply (tallies_bind [window_flip; window_flip] [window_close]);
      [| intros _ | | easy].
    - apply (tallies_bind [window_flip] [window_flip]);
        [exact Hbody | intros _ | exact Hopen1 | easy].
      apply (tallies_bind [window_flip] []);
        [exact Hbody | intros _ | exact Hopen1 | easy].
      apply tallies_ret.
    - apply (tallies_bind [] [window_close]); [| intros render | easy | easy].
      + unfold save_image.
        apply (tallies_bind [] []); [| intros t | easy | easy].
        * apply tallies_adds, adds_gets. reflexivity.
        * apply tallies_ret.
      + apply tallies_then_ret, tallies_emit.
    - intros [H | [H | []]]; discriminate. }
  intros rendered. exact (H v).
Qed.

(** ** Applying the flags twice *)

Lemma update_flags_in_step (v v1 : SceneViewer) :
  update_flags v = (Ok tt, v1) ->
  axis_in_step v1 = true /\
  view v1 = view v /\
  exists win,
    window v1 = Some {| config := config win; visible := visible win;
                        resizable := resizable win; width := width win;
                        height := height win; caption := caption win;
                        is_fullscreen := fullscreen (view v) |}.
Proof.
  unfold update_flags, bind, gets, set_fullscreen, emit, modify, lift,
    batch_add_indexed, ret, raise, vertex_list_delete_from_batch, axis_in_step.
  destruct (wireframe (view v)), (cull (view v)); cbn;
    (destruct (window v) as [win |]; cbn; [| discriminate]);
    destruct (axis_truthy (axis (view v))) eqn:Haxis, (_axis v) eqn:Hmark; cbn;
    try (destruct (axis_vertexlist _); cbn; [| discriminate]);
    intros [= <-]; cbn; rewrite ?Haxis, ?Hmark; cbn; eauto.
Qed.

(** X21: after an [update_flags] that returned, a second one returns
    too and changes nothing: view, window, axis marker, batch and dicts
    are the same, and it just issues the three flag calls again. *)
Theorem update_flags_twice (v v1 : SceneViewer) :
  update_flags v = (Ok tt, v1) ->
  let second := update_flags v1 in
  fst second = Ok tt /\
  view (snd second) = view v1 /\
  window (snd second) = window v1 /\
  _axis (snd second) = _axis v1 /\
  batch (snd second) = batch v1 /\
  maps_of (snd second) = maps_of v1 /\
  trace (snd second) = trace v1 ++ flag_calls (view v1).
Proof.
  intros Hfirst second.
  destruct (update_flags_in_step _ _ Hfirst) as (Hstep & Hview & win & Hwin).
  destruct (update_flags_steady v1 _ Hwin Hstep) as (R & V & A & B & D & W & T).
  fold second in R, V, A, B, D, W, T.
  repeat (split; [assumption |]).
  split; [| split; [assumption | split; [assumption | split; assumption]]].
  rewrite W, Hwin, Hview. reflexivity.
Qed.

(** ** The matrix stack and the axis marker in a frame *)

Lemma matrix_pushes_app (l1 l2 : list call) :
  matrix_pushes (l1 ++ l2) = matrix_pushes l1 + matrix_pushes l2.
Proof.
  induction l1 as [| c l1 IH]; [reflexivity |].
  destruct c; cbn; now rewrite ?IH.
Qed.

Lemma matrix_pops_app (l1 l2 : list call) :
  matrix_pops (l1 ++ l2) = matrix_pops l1 + matrix_pops l2.
Proof.
  induction l1 as [| c l1 IH]; [reflexivity |].
  destruct c; cbn; now rewrite ?IH.
Qed.

Lemma marker_draws_app (l1 l2 : list call) :
  marker_draws (l1 ++ l2) = marker_draws l1 + marker_draws l2.
Proof.
  induction l1 as [| c l1 IH]; [reflexivity |].
  destruct c as [| | | | | | | | | | | | | | | | | | | | | | ? ? [node |]
                 | | | | | | | | | | | | | | |];
    cbn; now rewrite ?IH.
Qed.


Lemma pass_counts (v : SceneViewer) (view_t : mat4) (first_round : bool)
    (node : string) :
  is_Some (plan_of v view_t node) ->
  let l := pass_calls v view_t first_round node in
  matrix_pushes l = 1 /\ matrix_pops l = 1 /\ marker_draws l = per_node v.
Proof.
  intros [p Hp]. unfold pass_calls. rewrite Hp.
  unfold deferred_calls, drawn_calls, axis_calls, texture_on, texture_off, per_node.
  destruct (first_round && is_transparent (plan_mesh p)),
    (axis_mode_eqb (axis (view v)) axis_all), (_axis v), (plan_texture p);
    repeat split.
Qed.

Lemma round_counts (v : SceneViewer) (view_t : mat4) (first_round : bool)
    (queue : list string) :
  Forall (fun node => is_Some (plan_of v view_t node)) queue ->
  let l := concat (map (pass_calls v view_t first_round) queue) in
  matrix_pushes l = length queue /\ matrix_pops l = length queue /\
  marker_draws l = length queue * per_node v.
Proof.
  induction queue as [| node rest IH]; intros Hplans; [repeat split |].
  apply Forall_cons in Hplans as [Hp Hrest].
  destruct (IH Hrest) as (I1 & I2 & I3).
  destruct (pass_counts v view_t first_round node Hp) as (P1 & P2 & P3).
  cbn [map concat length].
  rewrite matrix_pushes_app, matrix_pops_app, marker_draws_app.
  cbv zeta in *. rewrite I1, I2, I3, P1, P2, P3. repeat split; lia.
Qed.

Lemma frame_counts (v : SceneViewer) (cam : mat4) :
  Forall (fun node => is_Some (plan_of v (view_to_transform (view v)) node))
         (nodes_geometry (graph (scene v))) ->
  let queue := nodes_geometry (graph (scene v)) in
  let passes := length queue + length (List.filter (node_transparent (scene v)) queue) in
  matrix_pushes (frame_calls v cam) = passes /\
  matrix_pops (frame_calls v cam) = passes /\
  marker_draws (frame_calls v cam) =
    match _axis v with Some _ => 1 | None => 0 end + passes * per_node v.
Proof.
  intros Hplans queue passes. unfold passes. clear passes.
  unfold frame_calls, loop_calls, world_axis_calls.
  fold queue. cbv zeta.
  generalize dependent (view_to_transform (view v)). intros view_t Hplans.
  assert (Hfilter : List.filter (plan_transparent v view_t) queue =
                    List.filter (node_transparent (scene v)) queue).
  { apply filter_ext_in. intros node Hin. apply plan_transparent_node.
    rewrite Forall_forall in Hplans. apply Hplans. now apply list_elem_of_In. }
  rewrite Hfilter.
  assert (Hback : Forall (fun node => is_Some (plan_of v view_t node))
                    (List.filter (node_transparent (scene v)) queue))
    by now apply Forall_filter_plans.
  destruct (round_counts v view_t true queue Hplans) as (A1 & A2 & A3).
  destruct (round_counts v view_t false _ Hback) as (B1 & B2 & B3).
  cbv zeta in *.
  rewrite !matrix_pushes_app, !matrix_pops_app, !marker_draws_app.
  rewrite A1, A2, A3, B1, B2, B3.
  destruct (_axis v); cbn; repeat split; lia.
Qed.

(** X22: a frame on a ready viewer leaves the matrix stack as it
    found it: it pushes and pops equally often, once for every node and
    once more for every transparent node, which is visited twice. *)
Theorem on_draw_matrix_stack (v v1 : SceneViewer) :
  _update_meshes v = (Ok tt, v1) ->
  nodes_ready v1 = true ->
  camera_ready v1 = true ->
  axis_ready v1 = true ->
  exists v' issued,
    on_draw v = (Ok tt, v') /\
    trace v' = trace v ++ issued /\
    let queue := nodes_geometry (graph (scene v1)) in
    matrix_pushes issued =
      length queue + length (List.filter (node_transparent (scene v1)) queue) /\
    matrix_pops issued = matrix_pushes issued.
Proof.
  intros Hupdate Hnodes Hcam Haxis.
  destruct (on_draw_run v v1 Hupdate Hnodes Hcam Haxis) as (cam & _ & Hrun).
  exists (add_calls (frame_calls v1 cam) v1), (frame_calls v1 cam).
  split; [exact Hrun |]. split.
  { cbn [add_calls with_trace trace]. now rewrite (_update_meshes_trace v v1 Hupdate). }
  destruct (frame_counts v1 cam (nodes_ready_plans v1 Hnodes)) as (P1 & P2 & _).
  cbv zeta in *. split; congruence.
Qed.

(** X23: in axis mode ['all'] a frame on a ready viewer draws the
    axis marker once at the world frame and once at every visit of a
    node: once per opaque node and twice per transparent node. *)
Theorem on_draw_marker_at_every_pass (v v1 : SceneViewer) :
  _update_meshes v = (Ok tt, v1) ->
  nodes_ready v1 = true ->
  camera_ready v1 = true ->
  axis_ready v1 = true ->
  axis (view v1) = axis_all ->
  exists v' issued,
    on_draw v = (Ok tt, v') /\
    trace v' = trace v ++ issued /\
    let queue := nodes_geometry (graph (scene v1)) in
    marker_draws issued =
      1 + length queue + length (List.filter (node_transparent (scene v1)) queue).
Proof.
  intros Hupdate Hnodes Hcam Haxis Hall.
  destruct (on_draw_run v v1 Hupdate Hnodes Hcam Haxis) as (cam & _ & Hrun).
  exists (add_calls (frame_calls v1 cam) v1), (frame_calls v1 cam).
  split; [exact Hrun |]. split.
  { cbn [add_calls with_trace trace]. now rewrite (_update_meshes_trace v v1 Hupdate). }
  destruct (frame_counts v1 cam (nodes_ready_plans v1 Hnodes)) as (_ & _ & P3).
  cbv zeta in *. rewrite P3. unfold per_node. rewrite Hall.
  destruct (axis_ready_marker v1 Haxis) as [marker ->]; [now rewrite Hall |].
  cbn [axis_mode_eqb]. lia.
Qed.

(** ** Nodes without geometry *)

Lemma draw_nodes_skip (fuel : nat) (view_t : mat4) (n count : Z)
    (node : string) (rest : list string) (v : SceneViewer) :
  node_bare v node = true ->
  draw_nodes (S fuel) view_t n count (node :: rest) v =
    draw_nodes fuel view_t n (count + 1) rest v.
Proof.
  unfold node_bare. intros Hbare. cbn [draw_nodes]. cbv zeta.
  rewrite bind_gets. cbv beta.
  destruct (nodes (graph (scene v)) !! node) as [[transform [g |]] |];
    try discriminate.
  reflexivity.
Qed.

Lemma pass_calls_bare (v : SceneViewer) (view_t : mat4) (first_round : bool)
    (node : string) :
  node_bare v node = true ->
  pass_calls v view_t first_round node = [] /\
  plan_transparent v view_t node = false.
Proof.
  unfold node_bare, pass_calls, plan_transparent, plan_of.
  destruct (nodes (graph (scene v)) !! node) as [[transform [g |]] |];
    try discriminate.
  now split.
Qed.

Lemma plan_not_bare (v : SceneViewer) (view_t : mat4) (node : string) :
  is_Some (plan_of v view_t node) -> node_bare v node = false.
Proof.
  unfold node_bare, plan_of.
  destruct (nodes (graph (scene v)) !! node) as [[transform [g |]] |];
    [reflexivity | intros [? [=]] | reflexivity].
Qed.

(** the second round over a queue that may hold bare nodes *)
Lemma draw_nodes_second_round_bare (v : SceneViewer) (view_t : mat4) (n : Z) :
  axis_ready v = true ->
  forall (queue : list string) (fuel : nat) (count : Z) (l : list call),
    (n <= count + 1)%Z ->
    length queue <= fuel ->
    Forall (fun node => is_Some (plan_of v view_t node) \/ node_bare v node = true)
           queue ->
    draw_nodes fuel view_t n count queue (add_calls l v) =
      (Ok tt, add_calls (l ++ concat (map (pass_calls v view_t false) queue)) v).
Proof.
  intros Haxis. induction queue as [| node rest IH]; intros fuel count l Hn Hfuel Hplans.
  - cbn [map concat]. rewrite app_nil_r. destruct fuel; reflexivity.
  - destruct fuel as [| fuel]; [cbn in Hfuel; lia |].
    apply Forall_cons in Hplans as [[[p Hp] | Hbare] Hrest].
    + rewrite (draw_nodes_step fuel view_t n count node rest (add_calls l v) p Hp Haxis).
      replace (count + 1 <? n)%Z with false by (symmetry; apply Z.ltb_ge; lia).
      rewrite andb_false_r.
      change (drawn_calls (add_calls l v) node p) with (drawn_calls v node p).
      rewrite add_calls_app.
      rewrite IH; [| lia | cbn in Hfuel; lia | exact Hrest].
      cbn [map concat]. unfold pass_calls at 2. rewrite Hp. cbn [andb].
      now rewrite <- app_assoc.
    + rewrite (draw_nodes_skip fuel view_t n count node rest (add_calls l v) Hbare).
      rewrite IH; [| lia | cbn in Hfuel; lia | exact Hrest].
      cbn [map concat].
      destruct (pass_calls_bare v view_t false node Hbare) as [-> _].
      reflexivity.
Qed.

(** the first round over [remaining], with [deferred] already put back *)
Lemma draw_nodes_first_round_bare (v : SceneViewer) (view_t : mat4) (n : Z) :
  axis_ready v = true ->
  forall (remaining deferred : list string) (fuel : nat) (count : Z)
         (l : list call),
    (count + 1 + Z.of_nat (length remaining) = n)%Z ->
    length remaining + length (List.filter (plan_transparent v view_t) remaining)
      + length deferred <= fuel ->
    Forall (fun node => is_Some (plan_of v view_t node) \/ node_bare v node = true)
           remaining ->
    Forall (fun node => is_Some (plan_of v view_t node) \/ node_bare v node = true)
           deferred ->
    draw_nodes fuel view_t n count (remaining ++ deferred) (add_calls l v) =
      (Ok tt,
       add_calls
         (l ++ concat (map (pass_calls v view_t true) remaining) ++
          concat (map (pass_calls v view_t false)
                      (deferred ++ List.filter (plan_transparent v view_t) remaining)))
         v).
Proof.
  intros Haxis.
  induction remaining as [| node rest IH];
    intros deferred fuel count l Hcount Hfuel Hplans Hdeferred.
  - cbn [app map concat List.filter]. rewrite app_nil_r.
    apply draw_nodes_second_round_bare; trivial; cbn in *; lia.
  - apply Forall_cons in Hplans as [[[p Hp] | Hbare] Hrest].
    + destruct fuel as [| fuel]; [cbn in Hfuel; lia |].
      cbn [app].
      rewrite (draw_nodes_step fuel view_t n count node (rest ++ deferred)
                 (add_calls l v) p Hp Haxis).
      replace (count + 1 <? n)%Z
        with true by (symmetry; apply Z.ltb_lt; cbn [length] in Hcount; lia).
      rewrite andb_true_r.
      cbn [map concat List.filter length] in *.
      assert (Htr : plan_transparent v view_t node = is_transparent (plan_mesh p))
        by (unfold plan_transparent; now rewrite Hp).
      assert (Hpass : pass_calls v view_t true node =
                      if is_transparent (plan_mesh p)
                      then deferred_calls v node p else drawn_calls v node p)
        by (unfold pass_calls; now rewrite Hp).
      rewrite Htr, Hpass in *. clear Htr Hpass.
      destruct (is_transparent (plan_mesh p)).
      * change (deferred_calls (add_calls l v) node p) with (deferred_calls v node p).
        rewrite add_calls_app, <- app_assoc.
        rewrite IH; [| lia | | exact Hrest |].
        -- f_equal. f_equal. rewrite <- !app_assoc. cbn [app]. reflexivity.
        -- rewrite length_app. cbn [length] in *. lia.
        -- apply Forall_app. split; [exact Hdeferred |].
           constructor; [left; eauto | constructor].
      * change (drawn_calls (add_calls l v) node p) with (drawn_calls v node p).
        rewrite add_calls_app.
        rewrite IH; [| lia | cbn [length] in *; lia | exact Hrest | exact Hdeferred].
        f_equal. f_equal. now rewrite <- !app_assoc.
    + destruct fuel as [| fuel]; [cbn in Hfuel; lia |].
      cbn [app].
      rewrite (draw_nodes_skip fuel view_t n count node (rest ++ deferred)
                 (add_calls l v) Hbare).
      destruct (pass_calls_bare v view_t true node Hbare) as [Hpass Htr].
      cbn [map concat List.filter length] in *. rewrite Htr, Hpass in *.
      cbn [app].
      apply IH; [lia | lia | exact Hrest | exact Hdeferred].
Qed.

Lemma nodes_passable_plans (v : SceneViewer) :
  nodes_passable v = true ->
  Forall (fun node => is_Some (plan_of v (view_to_transform (view v)) node) \/
                      node_bare v node = true)
         (nodes_geometry (graph (scene v))).
Proof.
  unfold nodes_passable. intros H. apply Forall_forall. intros node Hin.
  rewrite forallb_forall in H. specialize (H node (proj1 (list_elem_of_In _ _) Hin)).
  apply orb_true_iff in H as [H | H]; [left; now apply node_ready_plan | now right].
Qed.

(** a frame on a viewer whose nodes are ready or bare *)
Lemma on_draw_run_bare (v v1 : SceneViewer) :
  _update_meshes v = (Ok tt, v1) ->
  nodes_passable v1 = true ->
  camera_ready v1 = true ->
  axis_ready v1 = true ->
  exists cam,
    to_world (graph (scene v1)) !! camera_name (camera (scene v1)) = Some cam /\
    on_draw v = (Ok tt, add_calls (frame_calls v1 cam) v1).
Proof.
  intros Hupdate Hnodes Hcam Haxis.
  unfold camera_ready in Hcam. apply bool_decide_eq_true in Hcam as [cam Hcam].
  exists cam. split; [exact Hcam |].
  unfold on_draw. unfold bind at 1. rewrite Hupdate.
  do 3 run_step. rewrite !scene_add_calls, Hcam. cbv beta iota zeta.
  do 4 run_step. repeat rewrite view_add_calls. repeat rewrite axis_add_calls.
  assert (Hloop : forall l,
    draw_nodes (2 * length (nodes_geometry (graph (scene v1))))
      (view_to_transform (view v1))
      (Z.of_nat (length (nodes_geometry (graph (scene v1))))) (-1)
      (nodes_geometry (graph (scene v1))) (add_calls l v1) =
    (Ok tt, add_calls (l ++ loop_calls v1 (view_to_transform (view v1))
                              (nodes_geometry (graph (scene v1)))) v1)).
  { intros l.
    pose proof (draw_nodes_first_round_bare v1 (view_to_transform (view v1))
                  (Z.of_nat (length (nodes_geometry (graph (scene v1))))) Haxis
                  (nodes_geometry (graph (scene v1))) []
                  (2 * length (nodes_geometry (graph (scene v1)))) (-1) l) as H.
    rewrite app_nil_r in H. cbn [app] in H.
    pose proof (filter_length_le
                  (plan_transparent v1 (view_to_transform (view v1)))
                  (nodes_geometry (graph (scene v1)))) as Hle.
    apply H; [lia | cbn [length]; lia | now apply nodes_passable_plans | constructor]. }
  unfold frame_calls, world_axis_calls. cbv zeta.
  destruct (_axis v1) as [marker |].
  - run_step. rewrite !add_calls_app. rewrite Hloop.
    rewrite <- !app_assoc. reflexivity.
  - run_step. rewrite !add_calls_app. rewrite Hloop.
    rewrite <- !app_assoc. reflexivity.
Qed.

Lemma filter_twice {A} (f g : A -> bool) (l : list A) :
  List.filter f (List.filter g l) = List.filter (fun x => g x && f x) l.
Proof.
  induction l as [| x l IH]; [reflexivity |].
  cbn [List.filter]. destruct (g x); cbn [andb List.filter]; now rewrite IH.
Qed.

Lemma drawn_nodes_round_bare (v : SceneViewer) (view_t : mat4) (first_round : bool)
    (queue : list string) :
  Forall (fun node => is_Some (plan_of v view_t node) \/ node_bare v node = true)
         queue ->
  drawn_nodes (concat (map (pass_calls v view_t first_round) queue)) =
    List.filter (fun node => negb (node_bare v node) &&
                             negb (first_round && plan_transparent v view_t node))
                queue /\
  requeued_nodes (concat (map (pass_calls v view_t first_round) queue)) =
    List.filter (fun node => first_round && plan_transparent v view_t node) queue.
Proof.
  induction queue as [| node rest IH]; intros Hplans; [now split |].
  apply Forall_cons in Hplans as [Hnode Hrest].
  destruct (IH Hrest) as [IHd IHr].
  cbn [map concat List.filter]. rewrite drawn_nodes_app, requeued_nodes_app, IHd, IHr.
  destruct Hnode as [[p Hp] | Hbare].
  - rewrite (plan_not_bare v view_t node) by eauto. cbn [negb andb].
    unfold pass_calls, plan_transparent. rewrite Hp.
    destruct (first_round && is_transparent (plan_mesh p)); cbn [negb].
    + now rewrite drawn_nodes_deferred_calls, requeued_nodes_deferred_calls.
    + now rewrite drawn_nodes_drawn_calls, requeued_nodes_drawn_calls.
  - destruct (pass_calls_bare v view_t first_round node Hbare) as [-> ->].
    rewrite Hbare, andb_false_r. cbn [negb andb app drawn_nodes requeued_nodes].
    now split.
Qed.

(** X24: when the queue also holds nodes without geometry, and all
    others are ready, a frame returns, draws each node that has geometry
    exactly once, the opaque ones first and the transparent ones after
    them in queue order, puts back exactly the transparent ones, and
    neither draws nor puts back a node without geometry. *)
Theorem on_draw_skips_bare_nodes (v v1 : SceneViewer) :
  _update_meshes v = (Ok tt, v1) ->
  nodes_passable v1 = true ->
  camera_ready v1 = true ->
  axis_ready v1 = true ->
  exists v' issued,
    on_draw v = (Ok tt, v') /\
    trace v' = trace v ++ issued /\
    let queue := List.filter (fun node => negb (node_bare v1 node))
                   (nodes_geometry (graph (scene v1))) in
    let transparent := node_transparent (scene v1) in
    drawn_nodes issued =
      List.filter (fun node => negb (transparent node)) queue ++
      List.filter transparent queue /\
    requeued_nodes issued = List.filter transparent queue.
Proof.
  intros Hupdate Hnodes Hcam Haxis.
  destruct (on_draw_run_bare v v1 Hupdate Hnodes Hcam Haxis) as (cam & _ & Hrun).
  exists (add_calls (frame_calls v1 cam) v1), (frame_calls v1 cam).
  split; [exact Hrun |]. split.
  { cbn [add_calls with_trace trace]. now rewrite (_update_meshes_trace v v1 Hupdate). }
  pose proof (nodes_passable_plans v1 Hnodes) as Hplans.
  unfold frame_calls, loop_calls, world_axis_calls. cbv zeta.
  generalize dependent (view_to_transform (view v1)). intros view_t Hplans.
  set (all := nodes_geometry (graph (scene v1))) in *.
  assert (Hsame : forall node, In node all ->
    plan_transparent v1 view_t node = node_transparent (scene v1) node).
  { intros node Hin. rewrite Forall_forall in Hplans.
    destruct (Hplans node (proj2 (list_elem_of_In _ _) Hin)) as [Hp | Hbare].
    - now apply plan_transparent_node.
    - destruct (pass_calls_bare v1 view_t true node Hbare) as [_ ->].
      unfold node_bare in Hbare. unfold node_transparent, node_mesh.
      destruct (nodes (graph (scene v1)) !! node) as [[transform [g |]] |];
        try discriminate; reflexivity. }
  assert (Hbare_opaque : forall node,
    node_bare v1 node = true -> node_transparent (scene v1) node = false).
  { intros node Hbare. unfold node_bare in Hbare.
    unfold node_transparent, node_mesh.
    destruct (nodes (graph (scene v1)) !! node) as [[transform [g |]] |];
      try discriminate; reflexivity. }
  assert (Hback : Forall (fun node => is_Some (plan_of v1 view_t node) \/
                                      node_bare v1 node = true)
                    (List.filter (plan_transparent v1 view_t) all))
    by now apply Forall_filter_plans.
  destruct (drawn_nodes_round_bare v1 view_t true all Hplans) as [D1 R1].
  destruct (drawn_nodes_round_bare v1 view_t false _ Hback) as [D2 R2].
  rewrite !drawn_nodes_app, !requeued_nodes_app, D1, D2, R1, R2.
  assert (Hmark : drawn_nodes (match _axis v1 with
                               | Some l => [vertex_list_draw (list_id l) GL_TRIANGLES None]
                               | None => []
                               end) = [] /\
                  requeued_nodes (match _axis v1 with
                               | Some l => [vertex_list_draw (list_id l) GL_TRIANGLES None]
                               | None => []
                               end) = []).
  { destruct (_axis v1); now split. }
  destruct Hmark as [-> ->].
  cbn [drawn_nodes requeued_nodes app andb negb].
  rewrite filter_none, app_nil_r, !filter_twice.
  assert (Hcase : forall node, In node all ->
    (node_bare v1 node = true -> node_transparent (scene v1) node = false) /\
    plan_transparent v1 view_t node = node_transparent (scene v1) node).
  { intros node Hin. split; [apply Hbare_opaque | now apply Hsame]. }
  split; [f_equal |]; apply filter_ext_in; intros node Hin;
    destruct (Hcase node Hin) as [Hb ->];
    destruct (node_bare v1 node), (node_transparent (scene v1) node);
    cbn; try reflexivity; specialize (Hb eq_refl); discriminate.
Qed.

End Properties.

(** ** The mouse handlers *)

Section MouseProperties.
Context {gestures : Gestures}.
Local Open Scope Q_scope.

(** X25: on a viewer with a window of non-zero height [h], a scroll of
    [dy] returns, makes no call, adds [dy / h] to the z component of
    the translation and so moves the translation column of the view
    transform by [dy / h * scale * 5] along z, the rotation block
    staying the same. *)
Theorem on_mouse_scroll_zooms (x y : Z) (dx dy : Q) (v : SceneViewer)
    (win : Window) :
  window v = Some win ->
  height win <> 0%Z ->
  let after := snd (on_mouse_scroll x y dx dy v) in
  let before_t := view_to_transform (view v) in
  let after_t := view_to_transform (view after) in
  fst (on_mouse_scroll x y dx dy v) = Ok tt /\
  block33 after_t = block33 before_t /\
  vec3_equiv (column3 after_t)
    (vec3_add (column3 before_t)
       (Vec3 0 0 (dy / inject_Z (height win) * scale (view v) * 5))) /\
  translation (view after) =
    Vec3 (vx (translation (view v))) (vy (translation (view v)))
         (vz (translation (view v)) + dy / inject_Z (height win)) /\
  trace after = trace v.
Proof.
  intros Hwin Hflat.
  unfold on_mouse_scroll, window_height, bind, gets, lift, modify, ret, py_truediv.
  rewrite Hwin. apply Z.eqb_neq in Hflat. rewrite Hflat. cbn [fst snd].
  split; [reflexivity |].
  rewrite !view_to_transform_block, !view_to_transform_column.
  cbn [view with_view set_translation ball center translation scale trace with_view].
  split; [reflexivity |]. split; [| split; reflexivity].
  destruct (block33 (Arcball_matrix (ball (view v)))) as [[r00 r01 r02]
    [r10 r11 r12] [r20 r21 r22]].
  destruct (center (view v)) as [cx cy cz], (translation (view v)) as [tx ty tz].
  unfold vec3_equiv, vec3_add, vec3_sub, vec3_scale, mat3_dot, dot3.
  cbn [b0 b1 b2 vx vy vz].
  split; [| split]; ring.
Qed.

(** X26: on a viewer with a window of non-zero width [w] and height
    [h], a drag by [(dx, dy)] with the left button and the control key
    returns, leaves the rotation widget alone and moves the translation
    column of the view transform by
    [(dx / w * scale * 5, dy / h * scale * 5, 0)]. *)
Theorem on_mouse_drag_pans (x y dx dy buttons modifiers : Z) (v : SceneViewer)
    (win : Window) :
  window v = Some win ->
  width win <> 0%Z ->
  height win <> 0%Z ->
  buttons = mouse_LEFT ->
  Z.land modifiers key_MOD_CTRL <> 0%Z ->
  let after := snd (on_mouse_drag x y dx dy buttons modifiers v) in
  let before_t := view_to_transform (view v) in
  let after_t := view_to_transform (view after) in
  fst (on_mouse_drag x y dx dy buttons modifiers v) = Ok tt /\
  ball (view after) = ball (view v) /\
  block33 after_t = block33 before_t /\
  vec3_equiv (column3 after_t)
    (vec3_add (column3 before_t)
       (Vec3 (inject_Z dx / inject_Z (width win) * scale (view v) * 5)
             (inject_Z dy / inject_Z (height win) * scale (view v) * 5)
             0)).
Proof.
  intros Hwin Hwide Hhigh -> Hctrl.
  apply Z.eqb_neq in Hwide, Hhigh, Hctrl.
  unfold on_mouse_drag, window_width, window_height, bind, gets, lift, modify,
    ret, py_truediv.
  rewrite Z.eqb_refl, Hctrl. cbn [negb andb].
  rewrite Hwin. cbv beta iota. rewrite Hwide. cbv beta iota.
  rewrite ?Hwin. cbv beta iota. rewrite Hhigh. cbn [fst snd].
  split; [reflexivity |]. split; [reflexivity |].
  rewrite !view_to_transform_block, !view_to_transform_column.
  cbn [view with_view set_translation ball center translation scale].
  split; [reflexivity |].
  destruct (block33 (Arcball_matrix (ball (view v)))) as [[r00 r01 r02]
    [r10 r11 r12] [r20 r21 r22]].
  destruct (center (view v)) as [cx cy cz], (translation (view v)) as [tx ty tz].
  unfold vec3_equiv, vec3_add, vec3_sub, vec3_scale, mat3_dot, dot3.
  cbn [b0 b1 b2 vx vy vz].
  split; [| split]; ring.
Qed.

(** X27: a drag that is not a left-button drag with the control key
    never raises, even without a window, and never pans: translation,
    centre, scale, window and trace are as before; the rotation widget
    is dragged to [(x, -y)] if the left button alone is down and is
    untouched for any other button combination. *)
Theorem on_mouse_drag_without_pan (x y dx dy buttons modifiers : Z)
    (v : SceneViewer) :
  (buttons =? mouse_LEFT)%Z && negb (Z.land modifiers key_MOD_CTRL =? 0)%Z = false ->
  let after := snd (on_mouse_drag x y dx dy buttons modifiers v) in
  fst (on_mouse_drag x y dx dy buttons modifiers v) = Ok tt /\
  ball (view after) =
    (if (buttons =? mouse_LEFT)%Z
     then Arcball_drag (ball (view v)) (x, (- y)%Z)
     else ball (view v)) /\
  translation (view after) = translation (view v) /\
  center (view after) = center (view v) /\
  scale (view after) = scale (view v) /\
  window after = window v /\
  trace after = trace v.
Proof.
  intros Hplain. unfold on_mouse_drag. rewrite Hplain.
  destruct (buttons =? mouse_LEFT)%Z; cbn; auto 10.
Qed.

End MouseProperties.

(** ** The constructor and the smooth-shading threshold *)

(** C3 (the code departs from the claim): constructed with [smooth=True]
    on the demo scene, whose third mesh has 100000 faces, the viewer asks
    the conversion for smooth shading for every mesh, the one at the
    threshold [_SMOOTH_MAX_FACES] included. *)
Theorem constructor_requests_smooth_at_threshold :
  fst (SceneViewer_new (ext := demo_externals) demo_scene demo_viewer_args) = Ok tt /\
  arg_smooth demo_viewer_args = true /\
  conversion_calls (trace demo_viewer) =
    [(12, Some true); (12, Some true); (_SMOOTH_MAX_FACES, Some true)]%Z.
Proof. vm_compute. repeat split. Qed.

(** ** The offscreen driver and window visibility *)

(** C4 (the code departs from the claim): with [visible=None] the window
    of [render_scene] is constructed with [visible=None], hence not shown,
    whatever [platform.system()] returns; here on the demo scene, where
    the render returns its PNG. *)
Theorem render_scene_hidden_on_every_platform (platform_system : string) :
  let rendered := render_scene (ext := demo_externals) platform_system demo_scene
                    (1080, 1080)%Z None demo_viewer_args
                    (fresh_object (ext := demo_externals) demo_scene) in
  fst rendered = Ok "PNG"%string /\
  option_map visible (window (snd rendered)) = Some None /\
  option_map shown (window (snd rendered)) = Some false.
Proof. vm_compute. repeat split. Qed.

(** ** The depth range on the demo scene *)

Lemma demo_max_depth : max_depth (bounds demo_scene) = 800%R.
Proof.
  unfold max_depth, np_clip.
  replace (bounds_max_squared_sum (bounds demo_scene)) with (640000 # 1)%Q
    by (vm_compute; reflexivity).
  replace (Q2R (640000 # 1)) with (800 * 800)%R by (unfold Q2R; cbn; lra).
  rewrite sqrt_square by lra. apply Rmax_left. lra.
Qed.

Lemma demo_spec_max_depth : spec_max_depth (bounds demo_scene) = 1000%R.
Proof.
  unfold spec_max_depth. cbv zeta.
  match goal with
  | |- context [Q2R ?q] =>
      replace q with (1000000 # 1)%Q by (vm_compute; reflexivity)
  end.
  replace (Q2R (1000000 # 1)) with (1000 * 1000)%R by (unfold Q2R; cbn; lra).
  rewrite sqrt_square by lra. apply Rmax_left. lra.
Qed.

(** C5 as stated fails: for bounds with upper corner (600, 800, 0) the
    far bound [init_gl] sets is 800, while the root of the sum of squares
    of the per-axis extents is 1000. *)
Lemma init_gl_depth_range_not_per_axis :
  let v := fresh_object (ext := demo_externals) demo_scene in
  let issued := trace (snd (init_gl (ext := demo_externals) v)) in
  depth_range_calls issued = [(0, 800)]%R /\
  spec_max_depth (bounds demo_scene) = 1000%R /\
  depth_range_calls issued <> [(0%R, spec_max_depth (bounds demo_scene))].
Proof.
  intros v issued.
  assert (Hcalls : depth_range_calls issued = [(0, 800)]%R).
  { destruct (init_gl_calls (ext := demo_externals) v) as (l & Etrace & Ecalls).
    unfold issued. rewrite Etrace. cbn [trace v fresh_object app].
    rewrite Ecalls.
    change (scene v) with demo_scene. now rewrite demo_max_depth. }
  split; [exact Hcalls |]. split; [exact demo_spec_max_depth |].
  rewrite Hcalls, demo_spec_max_depth. intros [= H]. lra.
Qed.

(** ** The dicts after an add that raised *)

(** C10 as stated fails: on the demo viewer, an [add_geometry] of a
    geometry without [md5] and [tostring] raises in [geometry_hash]
    after the vertex list was stored; a later [add_geometry] returns,
    and after this successful call the name of the failed one is a key
    of [vertex_list] but not of [vertex_list_hash] or
    [vertex_list_mode]. *)
Lemma maps_out_of_step_after_failed_add :
  let failed := add_geometry (ext := demo_externals) "z" bare_geometry None
                  demo_viewer in
  let later := add_geometry (ext := demo_externals) "w"
                 (demo_mesh "ww" 3 opaque_visual) (Some true) (snd failed) in
  SceneViewer_new (ext := demo_externals) demo_scene demo_viewer_args =
    (Ok tt, demo_viewer) /\
  fst failed = Raise (UnboundLocalError "md5") /\
  fst later = Ok tt /\
  ("z"%string ∈ dom (vertex_list (snd later))) /\
  ("z"%string ∉ dom (vertex_list_hash (snd later))) /\
  ("z"%string ∉ dom (vertex_list_mode (snd later))) /\
  dom (vertex_list (snd later)) <> dom (vertex_list_hash (snd later)) /\
  ~ maps_in_step (snd later).
Proof.
  intros failed later.
  assert (Hin : "z"%string ∈ dom (vertex_list (snd later))).
  { apply elem_of_dom. vm_compute. eexists. reflexivity. }
  assert (Hout : "z"%string ∉ dom (vertex_list_hash (snd later))).
  { apply not_elem_of_dom. vm_compute. reflexivity. }
  assert (Hmode : "z"%string ∉ dom (vertex_list_mode (snd later))).
  { apply not_elem_of_dom. vm_compute. reflexivity. }
  assert (Hdiff : dom (vertex_list (snd later)) <> dom (vertex_list_hash (snd later))).
  { intros Heq. apply Hout. rewrite <- Heq. exact Hin. }
  split; [vm_compute; reflexivity |].
  split; [vm_compute; reflexivity |].
  split; [vm_compute; reflexivity |].
  split; [exact Hin |]. split; [exact Hout |]. split; [exact Hmode |].
  split; [exact Hdiff |].
  intros (Hsame & _). exact (Hdiff Hsame).
Qed.

(** ** Instances on the demo scene *)

Lemma view_to_transform_columns_witness :
  vec3_equiv (column3 (view_to_transform demo_view))
             (Vec3 (1 * 2 * 5) (2 * 2 * 5) (3 * 2 * 5))%Q.
Proof.
  apply (proj2 (proj2 (proj2 (view_to_transform_columns demo_view)))).
  - vm_compute. repeat split.
  - vm_compute. repeat split.
Defined.

Lemma geometry_hash_unbound_md5_witness :
  geometry_hash (ext := demo_externals) bare_geometry =
    Raise (UnboundLocalError "md5").
Proof.
  apply (geometry_hash_unbound_md5 (ext := demo_externals) bare_geometry);
    reflexivity.
Defined.

Lemma toggle_axis_cycle_witness :
  let first := toggle_axis (ext := demo_externals) demo_viewer in
  let second := toggle_axis (ext := demo_externals) (snd first) in
  let third := toggle_axis (ext := demo_externals) (snd second) in
  (fst first = Ok tt /\ axis (view (snd first)) = axis_world /\
   is_Some (_axis (snd first))) /\
  (fst second = Ok tt /\ axis (view (snd second)) = axis_all /\
   is_Some (_axis (snd second))) /\
  (fst third = Ok tt /\ axis (view (snd third)) = axis_off /\
   _axis (snd third) = None).
Proof.
  apply (toggle_axis_cycle (ext := demo_externals) demo_viewer demo_args).
  - vm_compute. reflexivity.
  - vm_compute. reflexivity.
  - vm_compute. eexists. reflexivity.
  - vm_compute. reflexivity.
Defined.

Lemma reset_view_never_raises_witness :
  let unsized := fresh_object (ext := demo_externals) demo_scene in
  let flags := Some [flag_cull false; flag_axis axis_all] in
  fst (reset_view (ext := demo_externals) flags unsized) = Ok tt /\
  view (snd (reset_view (ext := demo_externals) flags unsized)) =
    {| cull := true; axis := axis_off; fullscreen := false;
       wireframe := false; translation := zeros3;
       center := Vec3 300 400 0; scale := 1000;
       ball := Arcball_new (Externals := demo_externals) |}.
Proof.
  intros unsized flags.
  destruct (reset_view_never_raises (ext := demo_externals) flags unsized)
    as [Hok Hview].
  split; [exact Hok |]. apply Hview. reflexivity.
Defined.

Lemma init_gl_depth_range_witness :
  let v := fresh_object (ext := demo_externals) demo_scene in
  exists issued,
    trace (snd (init_gl (ext := demo_externals) v)) = trace v ++ issued /\
    depth_range_calls issued = [(0, 800)]%R.
Proof.
  intros v.
  destruct (init_gl_depth_range (ext := demo_externals) v)
    as (issued & Etrace & Ecalls & _).
  exists issued. split; [exact Etrace |].
  rewrite Ecalls. change (scene v) with demo_scene.
  now rewrite demo_max_depth.
Defined.

Lemma maps_in_step_after_adds_witness :
  maps_in_step demo_viewer /\ maps_in_step demo_viewer_more /\
  forall x, In x demo_more ->
    fst (fst x) ∈ dom (vertex_list demo_viewer_more) /\
    fst (fst x) ∈ dom (vertex_list_hash demo_viewer_more) /\
    fst (fst x) ∈ dom (vertex_list_mode demo_viewer_more).
Proof.
  apply (maps_in_step_after_adds (ext := demo_externals) demo_scene
           demo_viewer_args demo_viewer demo_viewer_more demo_more).
  - vm_compute. reflexivity.
  - vm_compute. reflexivity.
Defined.

Lemma on_draw_opaque_before_transparent_witness :
  exists v' issued,
    on_draw demo_viewer = (Ok tt, v') /\
    drawn_nodes issued = ["A"; "C"; "B"]%string /\
    requeued_nodes issued = ["B"]%string.
Proof.
  destruct (on_draw_opaque_before_transparent demo_viewer demo_viewer)
    as (v' & issued & Hrun & _ & Hdrawn & Hback & _);
    try (vm_compute; reflexivity).
  exists v', issued. split; [exact Hrun |]. split; [exact Hdrawn | exact Hback].
Defined.

Lemma on_draw_fixed_transform_witness :
  exists v' issued used,
    on_draw panned_viewer = (Ok tt, v') /\
    trace v' = trace panned_viewer ++ issued /\
    Permutation (drawn_nodes issued) ["A"; "B"; "C"]%string /\
    In ("B"%string, used) (draw_transforms eye4 issued) /\
    mat4_equiv used
      (mat4_dot (translation_matrix (vec3_sub zeros3 (Vec3 5000 10000 15000)))
                (translation_matrix (Vec3 1 0 0))) /\
    mat4_equiv used (translation_matrix (Vec3 (-4999) (-10000) (-15000))).
Proof.
  destruct (on_draw_fixed_transform panned_viewer panned_viewer)
    as (v' & issued & Hrun & Htrace & _ & Hall & Hdrawn & Hused);
    try (vm_compute; reflexivity).
  destruct (Hdrawn "B"%string) as [used Hin]; [right; left; reflexivity |].
  exists v', issued, used.
  split; [exact Hrun |]. split; [exact Htrace |]. split; [exact Hall |].
  split; [exact Hin |].
  specialize (Hused "B"%string used (translation_matrix (Vec3 1 0 0)) "b"%string Hin).
  assert (Hnode : nodes (graph (scene panned_viewer)) !! "B"%string =
                  Some (translation_matrix (Vec3 1 0 0), Some "b"%string))
    by (vm_compute; reflexivity).
  specialize (Hused Hnode). cbv zeta in Hused.
  assert (Hfixed : is_fixed (fixed panned_viewer) "b" = true)
    by (vm_compute; reflexivity).
  rewrite Hfixed in Hused.
  destruct Hused as (inverse & _ & _ & _ & Hcancel).
  assert (Hshift : mat4_equiv used
      (mat4_dot (translation_matrix (vec3_sub zeros3 (Vec3 5000 10000 15000)))
                (translation_matrix (Vec3 1 0 0)))).
  { apply Hcancel. vm_compute. repeat split. }
  split; [exact Hshift |].
  destruct used as [[u00 u01 u02 u03] [u10 u11 u12 u13] [u20 u21 u22 u23]
                    [u30 u31 u32 u33]].
  destruct Hshift as ((H00 & H01 & H02 & H03) & (H10 & H11 & H12 & H13) &
                      (H20 & H21 & H22 & H23) & (H30 & H31 & H32 & H33)).
  cbn [row0 row1 row2 row3 e0 e1 e2 e3] in *.
  repeat split; cbn [row0 row1 row2 row3 e0 e1 e2 e3 translation_matrix];
    first [ rewrite H00 | rewrite H01 | rewrite H02 | rewrite H03
          | rewrite H10 | rewrite H11 | rewrite H12 | rewrite H13
          | rewrite H20 | rewrite H21 | rewrite H22 | rewrite H23
          | rewrite H30 | rewrite H31 | rewrite H32 | rewrite H33 ];
    vm_compute; reflexivity.
Defined.

(** ** More instances on the demo scene *)

Lemma view_to_transform_at_rest_witness :
  mat4_equiv (view_to_transform rest_view) eye4.
Proof.
  apply (view_to_transform_at_rest rest_view); vm_compute; repeat split.
Defined.

Lemma add_geometry_stores_witness :
  exists args digest,
    vertex_list demo_viewer_more !! "d"%string =
      Some {| list_id := created (batch demo_viewer); list_args := args |} /\
    vertex_list_hash demo_viewer_more !! "d"%string = Some digest.
Proof.
  destruct (add_geometry_stores (ext := demo_externals) "d"
              (demo_mesh "dd" 3 transparent_visual) (Some false)
              demo_viewer demo_viewer_more)
    as (args & digest & _ & _ & Hlist & Hhash & _); [vm_compute; reflexivity |].
  exists args, digest. split; [exact Hlist | exact Hhash].
Defined.

Lemma add_geometry_failed_hash_witness :
  let got := add_geometry (ext := demo_externals) "z" bare_geometry None demo_viewer in
  fst got = Raise (UnboundLocalError "md5") /\ ~ maps_in_step (snd got).
Proof.
  destruct (add_geometry_failed_hash (ext := demo_externals) "z" bare_geometry
              None demo_viewer demo_args (UnboundLocalError "md5"))
    as (Hraise & _ & _ & _ & _ & Hbroken); [reflexivity | reflexivity |].
  cbv zeta. split; [exact Hraise |]. apply Hbroken.
  apply not_elem_of_dom. vm_compute. reflexivity.
Defined.

Lemma add_geometry_keeps_old_texture_witness :
  textures (snd (add_geometry (ext := demo_externals) "a"
                   (demo_mesh "aa" 12 opaque_visual) (Some true) demo_viewer)) =
    textures demo_viewer.
Proof.
  apply (add_geometry_keeps_old_texture (ext := demo_externals) "a"
           (demo_mesh "aa" 12 opaque_visual) (Some true) demo_viewer).
  - vm_compute. reflexivity.
  - exact I.
Defined.

Lemma toggle_culling_twice_witness :
  let first := toggle_culling (ext := demo_externals) demo_viewer in
  let second := toggle_culling (ext := demo_externals) (snd first) in
  fst first = Ok tt /\
  cull (view (snd first)) = negb (cull (view demo_viewer)) /\
  fst second = Ok tt /\
  view (snd second) = view demo_viewer.
Proof.
  destruct (toggle_culling_twice (ext := demo_externals) demo_viewer)
    as (R1 & C1 & _ & R2 & V2 & _);
    [vm_compute; eexists; reflexivity | vm_compute; reflexivity |].
  cbv zeta. exact (conj R1 (conj C1 (conj R2 V2))).
Defined.

Lemma toggle_wireframe_twice_witness :
  let first := toggle_wireframe (ext := demo_externals) demo_viewer in
  let second := toggle_wireframe (ext := demo_externals) (snd first) in
  fst first = Ok tt /\
  wireframe (view (snd first)) = negb (wireframe (view demo_viewer)) /\
  fst second = Ok tt /\
  view (snd second) = view demo_viewer.
Proof.
  destruct (toggle_wireframe_twice (ext := demo_externals) demo_viewer)
    as (R1 & C1 & _ & R2 & V2 & _);
    [vm_compute; eexists; reflexivity | vm_compute; reflexivity |].
  cbv zeta. exact (conj R1 (conj C1 (conj R2 V2))).
Defined.

Lemma toggle_fullscreen_twice_witness :
  let first := toggle_fullscreen (ext := demo_externals) demo_viewer in
  let second := toggle_fullscreen (ext := demo_externals) (snd first) in
  fst first = Ok tt /\
  option_map is_fullscreen (window (snd first)) =
    Some (negb (fullscreen (view demo_viewer))) /\
  fst second = Ok tt /\
  option_map is_fullscreen (window (snd second)) =
    Some (fullscreen (view demo_viewer)) /\
  window (snd second) = window demo_viewer.
Proof.
  destruct (toggle_fullscreen_twice (ext := demo_externals) demo_viewer)
    as (R1 & _ & W1 & R2 & _ & W2 & Hback & _);
    [vm_compute; eexists; reflexivity | vm_compute; reflexivity |].
  cbv zeta.
  refine (conj R1 (conj W1 (conj R2 (conj W2 (Hback _))))).
  vm_compute. reflexivity.
Defined.

Lemma reset_view_applies_flags_witness :
  let flags := [flag_cull false; flag_other "zoom"; flag_axis axis_world;
                flag_cull true] in
  let after := view (snd (reset_view (ext := demo_externals) (Some flags) demo_viewer)) in
  cull after = true /\ axis after = axis_world /\
  pivot (ball after) = (inject_Z 640 / 2, inject_Z 480 / 2)%Q.
Proof.
  intros flags after. unfold after.
  rewrite (reset_view_applies_flags (ext := demo_externals) flags demo_viewer
             demo_window) by (vm_compute; reflexivity).
  repeat split.
Defined.

Lemma update_lighting_enables_witness :
  exists issued,
    update_lighting (ext := demo_externals) lit_viewer =
      (Ok tt, add_calls issued lit_viewer) /\
    enabled_caps issued =
      [GL_LIGHTING; GL_LIGHT 0; GL_LIGHT 1; GL_LIGHT 2; GL_LIGHT 3; GL_LIGHT 4;
       GL_LIGHT 5; GL_LIGHT 6].
Proof.
  apply (update_lighting_enables (ext := demo_externals) lit_viewer).
  vm_compute. repeat econstructor.
Defined.

Lemma update_lighting_missing_light_witness :
  exists e issued,
    update_lighting (ext := demo_externals) dim_viewer =
      (Raise e, add_calls issued dim_viewer) /\
    enabled_caps issued = [GL_LIGHTING; GL_LIGHT 0].
Proof.
  apply (update_lighting_missing_light (ext := demo_externals) dim_viewer
           [demo_light "A"] [demo_light "B"] (demo_light "nowhere")).
  - reflexivity.
  - cbn. lia.
  - vm_compute. repeat econstructor.
  - vm_compute. reflexivity.
Defined.

Lemma init_gl_background_witness :
  exists issued,
    trace (snd (init_gl (ext := strict_externals) tinted_viewer)) =
      trace tinted_viewer ++ issued /\
    background_calls issued =
      [log_error "background color set but wrong!";
       glClearColor (99 # 100) (99 # 100) (99 # 100) 1].
Proof.
  destruct (init_gl_background (ext := strict_externals) tinted_viewer)
    as (issued & Etrace & _ & _ & Hraise).
  exists issued. split; [exact Etrace |].
  apply (Hraise [300; 0; 0]%Z ValueError); [vm_compute; reflexivity | reflexivity].
Defined.

Lemma on_mouse_scroll_zooms_witness :
  let got := on_mouse_scroll 10 10 0 3 demo_viewer in
  fst got = Ok tt /\
  block33 (view_to_transform (view (snd got))) =
    block33 (view_to_transform (view demo_viewer)) /\
  trace (snd got) = trace demo_viewer.
Proof.
  destruct (on_mouse_scroll_zooms 10 10 0 3 demo_viewer demo_window)
    as (R & B & _ & _ & T); [vm_compute; reflexivity | vm_compute; discriminate |].
  cbv zeta. exact (conj R (conj B T)).
Defined.

Lemma on_mouse_drag_pans_witness :
  let got := on_mouse_drag (gestures := demo_gestures) 10 10 64 48 mouse_LEFT
               key_MOD_CTRL demo_viewer in
  fst got = Ok tt /\ ball (view (snd got)) = ball (view demo_viewer).
Proof.
  destruct (on_mouse_drag_pans (gestures := demo_gestures) 10 10 64 48 mouse_LEFT
              key_MOD_CTRL demo_viewer demo_window)
    as (R & B & _);
    [vm_compute; reflexivity | vm_compute; discriminate | vm_compute; discriminate
    | reflexivity | vm_compute; discriminate |].
  cbv zeta. exact (conj R B).
Defined.

Lemma on_mouse_drag_without_pan_witness :
  let got := on_mouse_drag (gestures := demo_gestures) 10 10 64 48 4 key_MOD_CTRL
               (fresh_object (ext := demo_externals) demo_scene) in
  fst got = Ok tt /\
  translation (view (snd got)) =
    translation (view (fresh_object (ext := demo_externals) demo_scene)).
Proof.
  destruct (on_mouse_drag_without_pan (gestures := demo_gestures) 10 10 64 48 4
              key_MOD_CTRL (fresh_object (ext := demo_externals) demo_scene))
    as (R & _ & T & _); [reflexivity |].
  cbv zeta. exact (conj R T).
Defined.

Lemma constructor_window_witness :
  window_shape demo_viewer =
    Some (antialiased_config, Some true, true, 640%Z, 480%Z, None).
Proof.
  destruct (constructor_window (ext := demo_externals) demo_scene demo_viewer_args
              demo_viewer) as [_ Hshape]; [vm_compute; reflexivity |].
  exact Hshape.
Defined.

Lemma constructor_uploads_scene_witness :
  dom (vertex_list demo_viewer) = list_to_set (map fst (geometry demo_scene)) /\
  conversion_calls (trace demo_viewer) =
    map (fun item => (faces (snd item), Some (arg_smooth demo_viewer_args)))
        (geometry demo_scene).
Proof.
  apply (constructor_uploads_scene (ext := demo_externals) demo_scene
           demo_viewer_args demo_viewer).
  vm_compute. reflexivity.
Defined.

Lemma constructor_event_loop_witness :
  event_loop_calls (trace demo_viewer) = loop_setup demo_viewer_args.
Proof.
  apply (constructor_event_loop (ext := demo_externals) demo_scene
           demo_viewer_args demo_viewer).
  vm_compute. reflexivity.
Defined.

Lemma update_flags_twice_witness :
  let first := update_flags (ext := demo_externals) demo_viewer in
  let second := update_flags (ext := demo_externals) (snd first) in
  fst second = Ok tt /\
  view (snd second) = view (snd first) /\
  window (snd second) = window (snd first) /\
  batch (snd second) = batch (snd first).
Proof.
  destruct (update_flags_twice (ext := demo_externals) demo_viewer
              (snd (update_flags (ext := demo_externals) demo_viewer)))
    as (R & V & W & _ & B & _); [vm_compute; reflexivity |].
  cbv zeta. exact (conj R (conj V (conj W B))).
Defined.

Lemma on_draw_matrix_stack_witness :
  exists v' issued,
    on_draw demo_viewer = (Ok tt, v') /\
    matrix_pushes issued = 4 /\
    matrix_pops issued = matrix_pushes issued.
Proof.
  destruct (on_draw_matrix_stack demo_viewer demo_viewer)
    as (v' & issued & Hrun & _ & Hpush & Hpop);
    try (vm_compute; reflexivity).
  exists v', issued. split; [exact Hrun |]. split; [exact Hpush | exact Hpop].
Defined.

Lemma on_draw_marker_at_every_pass_witness :
  exists v' issued,
    on_draw marked_viewer = (Ok tt, v') /\
    marker_draws issued = 5.
Proof.
  destruct (on_draw_marker_at_every_pass marked_viewer
              marked_viewer)
    as (v' & issued & Hrun & _ & Hmarks);
    try (vm_compute; reflexivity).
  exists v', issued. split; [exact Hrun | exact Hmarks].
Defined.

Lemma on_draw_skips_bare_nodes_witness :
  exists v' issued,
    on_draw sparse_viewer = (Ok tt, v') /\
    drawn_nodes issued = ["A"; "C"; "B"]%string /\
    requeued_nodes issued = ["B"]%string.
Proof.
  destruct (on_draw_skips_bare_nodes sparse_viewer
              sparse_viewer)
    as (v' & issued & Hrun & _ & Hdrawn & Hback);
    try (vm_compute; reflexivity).
  exists v', issued. split; [exact Hrun |]. split; [exact Hdrawn | exact Hback].
Defined.
